(** * GitNexus: the repository client and the documentation generator

    A shallow embedding of [ghclient.py], [ai_helper.py] and the dispatch
    handlers of [app.py], followed by the properties of the specification
    that are checked against it.

    Layout:
    - [PyStr]    : the Python string operations the code relies on
                   ([split], [strip], [replace], [join], [re.split] on a
                   character class, the UTF-8 codec).
    - [Py]       : exceptions, results and the state-and-exception monad
                   in which the methods are written.
    - [Provider] : the three external services, as interfaces, and the
                   trace of the requests sent to them.
    - [GhClient], [AIHelper], [App] : the code, method by method.
    - [MemHub], [ScriptedAI] : reference services for the examples.
    - [Spec]     : the words of the specification (well-formed
                   identifier, lines, sentence fragments, ...).
    - [PyStrFacts] ... [RoundTripFacts] : the facts, with one theorem for
                   each property of the specification. *)

From Stdlib Require Import String Ascii.
From Stdlib Require Import List NArith ZArith Bool Lia.
From Stdlib Require Strings.Byte DecimalString.
From Equations Require Import Equations.
Import ListNotations.

Set Implicit Arguments.

(* ===================================================================== *)
(** * Python strings *)
(* ===================================================================== *)

Module PyStr.

(** A Python [str] is a sequence of Unicode code points. *)
Abbreviation char := N.
Abbreviation str := (list N).

(** Literals of the source are written [lit "..."]. *)
Definition lit (s : string) : str :=
  map N_of_ascii (list_ascii_of_string s).
Arguments lit s%_string.

Definition is_empty (s : str) : bool :=
  match s with [] => true | _ :: _ => false end.

(** [bool(s)] : a string is truthy when it is not empty. *)
Definition truthy (s : str) : bool := negb (is_empty s).

Fixpoint str_eqb (a b : str) : bool :=
  match a, b with
  | [], [] => true
  | x :: a', y :: b' => (x =? y)%N && str_eqb a' b'
  | _, _ => false
  end.

(** [str.isspace] on one code point: the code points CPython's
    [_PyUnicode_IsWhitespace] accepts. *)
Definition isspace (c : char) : bool :=
  (((0x09 <=? c) && (c <=? 0x0D)) || ((0x1C <=? c) && (c <=? 0x20))
   || (c =? 0x85) || (c =? 0xA0) || (c =? 0x1680)
   || ((0x2000 <=? c) && (c <=? 0x200A))
   || (c =? 0x2028) || (c =? 0x2029) || (c =? 0x202F) || (c =? 0x205F)
   || (c =? 0x3000))%N.

Fixpoint lstrip (s : str) : str :=
  match s with
  | [] => []
  | c :: s' => if isspace c then lstrip s' else s
  end.

Definition rstrip (s : str) : str := rev (lstrip (rev s)).

(** [s.strip()] *)
Definition strip (s : str) : str := rstrip (lstrip s).

(** [strip_prefix p s] is [Some r] when [s = p ++ r]. *)
Fixpoint strip_prefix (p s : str) : option str :=
  match p, s with
  | [], _ => Some s
  | _ :: _, [] => None
  | a :: p', b :: s' => if (a =? b)%N then strip_prefix p' s' else None
  end.

Definition startswith (p s : str) : bool :=
  match strip_prefix p s with Some _ => true | None => false end.

(** The leftmost occurrence of [sep] in [s]: the text before it and the
    text after it ([str.partition] without the middle component). *)
Fixpoint find_split (sep s : str) {struct s} : option (str * str) :=
  match strip_prefix sep s with
  | Some rest => Some ([], rest)
  | None =>
      match s with
      | [] => None
      | c :: s' =>
          match find_split sep s' with
          | Some (a, b) => Some (c :: a, b)
          | None => None
          end
      end
  end.

(** [sub in s] *)
Definition contains (sub s : str) : bool :=
  match find_split sub s with Some _ => true | None => false end.

(** [s.split(sep)] for a non-empty [sep] (Python raises on an empty one):
    cut at the leftmost occurrence, continue after it.  Every cut consumes
    at least one character, so [length s + 1] rounds are enough. *)
Fixpoint split_fuel (n : nat) (sep s : str) : list str :=
  match n with
  | O => [s]
  | S n' =>
      match find_split sep s with
      | None => [s]
      | Some (a, b) => a :: split_fuel n' sep b
      end
  end.

Definition split (sep s : str) : list str :=
  split_fuel (S (length s)) sep s.

(** [sep.join(l)] *)
Fixpoint join (sep : str) (l : list str) : str :=
  match l with
  | [] => []
  | x :: rest =>
      match rest with
      | [] => x
      | _ :: _ => x ++ sep ++ join sep rest
      end
  end.

(** [s.replace(old, new)] for a non-empty [old]: every occurrence found
    scanning left to right, without overlap. *)
Fixpoint replace_fuel (n : nat) (old new s : str) : str :=
  match n with
  | O => s
  | S n' =>
      match find_split old s with
      | None => s
      | Some (a, b) => a ++ new ++ replace_fuel n' old new b
      end
  end.

Definition replace (old new s : str) : str :=
  replace_fuel (S (length s)) old new s.

(** The number of positions of [s] at which [sub] occurs. *)
Fixpoint count_occurrences (sub s : str) : nat :=
  (if startswith sub s then 1 else 0) +
  match s with
  | [] => 0
  | _ :: s' => count_occurrences sub s'
  end.

(** The character class [[.!?]] of [_extract_summary_fallback]. *)
Definition is_sentence_delim (c : char) : bool :=
  ((c =? 46) || (c =? 33) || (c =? 63))%N.

Definition head_is_delim (s : str) : bool :=
  match s with
  | c :: _ => is_sentence_delim c
  | [] => false
  end.

(** [re.split(r'[.!?]+', s)]: the pieces between maximal runs of
    delimiters.  A delimiter followed by another one belongs to the same
    match and cuts nothing; the last delimiter of a run closes the piece
    before the run. *)
Fixpoint re_split_delims (s : str) : list str :=
  match s with
  | [] => [[]]
  | c :: s' =>
      if is_sentence_delim c then
        if head_is_delim s' then re_split_delims s'
        else [] :: re_split_delims s'
      else
        match re_split_delims s' with
        | p :: ps => (c :: p) :: ps
        | [] => [[c]]
        end
  end.

(** ** UTF-8 *)

(** A Python [bytes] value. *)
Abbreviation bytes := (list Byte.byte).

Definition byte_of_N (n : N) : Byte.byte :=
  match Byte.of_N n with
  | Some b => b
  | None => Byte.x00
  end.

Definition is_surrogate (c : N) : bool :=
  ((0xD800 <=? c) && (c <=? 0xDFFF))%N.

Definition is_continuation (b : N) : bool :=
  ((0x80 <=? b) && (b <=? 0xBF))%N.

(** The bytes of one code point; [None] where the strict codec refuses to
    encode (a lone surrogate, or a number that is no code point). *)
Definition utf8_encode_char (c : char) : option (list N) :=
  (if c <? 0x80 then Some [c]
   else if c <? 0x800 then Some [0xC0 + c / 64; 0x80 + c mod 64]
   else if c <? 0x10000 then
     if is_surrogate c then None
     else Some [0xE0 + c / 4096; 0x80 + (c / 64) mod 64; 0x80 + c mod 64]
   else if c <? 0x110000 then
     Some [0xF0 + c / 262144; 0x80 + (c / 4096) mod 64;
           0x80 + (c / 64) mod 64; 0x80 + c mod 64]
   else None)%N.

(** [s.encode('utf-8')] *)
Fixpoint utf8_encode (s : str) : option bytes :=
  match s with
  | [] => Some []
  | c :: s' =>
      match utf8_encode_char c, utf8_encode s' with
      | Some bs, Some r => Some (map byte_of_N bs ++ r)
      | _, _ => None
      end
  end.

(** [b.decode('utf-8')], strict: overlong forms, surrogates, values above
    U+10FFFF, stray continuation bytes and truncated sequences are
    refused. *)
Fixpoint utf8_decode (bs : bytes) : option str :=
  match bs with
  | [] => Some []
  | b1 :: t1 =>
      let n1 := Byte.to_N b1 in
      if (n1 <? 0x80)%N then option_map (cons n1) (utf8_decode t1)
      else
        match t1 with
        | [] => None
        | b2 :: t2 =>
            let n2 := Byte.to_N b2 in
            if negb (is_continuation n2) then None
            else if ((0xC2 <=? n1) && (n1 <=? 0xDF))%N then
              option_map (cons ((n1 - 0xC0) * 64 + (n2 - 0x80))%N)
                         (utf8_decode t2)
            else
              match t2 with
              | [] => None
              | b3 :: t3 =>
                  let n3 := Byte.to_N b3 in
                  if negb (is_continuation n3) then None
                  else if ((0xE0 <=? n1) && (n1 <=? 0xEF))%N then
                    let c := ((n1 - 0xE0) * 4096 + (n2 - 0x80) * 64
                              + (n3 - 0x80))%N in
                    if ((0x800 <=? c)%N && negb (is_surrogate c))%bool
                    then option_map (cons c) (utf8_decode t3)
                    else None
                  else
                    match t3 with
                    | [] => None
                    | b4 :: t4 =>
                        let n4 := Byte.to_N b4 in
                        if negb (is_continuation n4) then None
                        else if ((0xF0 <=? n1) && (n1 <=? 0xF4))%N then
                          let c := ((n1 - 0xF0) * 262144
                                    + (n2 - 0x80) * 4096
                                    + (n3 - 0x80) * 64 + (n4 - 0x80))%N in
                          if ((0x10000 <=? c) && (c <? 0x110000))%N
                          then option_map (cons c) (utf8_decode t4)
                          else None
                        else None
                    end
              end
        end
  end.

End PyStr.

(* ===================================================================== *)
(** * Exceptions, results, and the monad of a method body *)
(* ===================================================================== *)

Module Py.
Import PyStr.

(** [github.GithubException]: the HTTP status, the decoded response body
    (a dict; the code only looks up string values) and what [str(e)]
    prints. *)
Record GithubException := {
  status : Z;
  data : list (str * str);
  ge_str : str
}.

(** [d.get(key, default)] *)
Fixpoint dict_get (d : list (str * str)) (key default : str) : str :=
  match d with
  | [] => default
  | (k, v) :: d' => if str_eqb k key then v else dict_get d' key default
  end.

(** The exception classes the code raises, catches or lets through.
    [GithubExc] stands for [GithubException] and its subclasses;
    [OtherError] for any other class a provider library raises. *)
Inductive exn :=
| ValueError (msg : str)
| GithubExc (e : GithubException)
| Exception (msg : str)
| UnicodeDecodeError (msg : str)
| OtherError (cls msg : str).

(** [str(e)] *)
Definition exn_str (e : exn) : str :=
  match e with
  | ValueError m => m
  | GithubExc g => ge_str g
  | Exception m => m
  | UnicodeDecodeError m => m
  | OtherError _ m => m
  end.

Inductive result (A : Type) :=
| Ok (a : A)
| Raise (e : exn).
Arguments Ok {A} a.
Arguments Raise {A} e.

Section Monad.
Variable St : Type.

(** A method body: it runs in a state, returns or raises, and leaves a
    state. *)
Definition M (A : Type) := St -> result A * St.

Definition ret {A} (a : A) : M A := fun s => (Ok a, s).

Definition raise {A} (e : exn) : M A := fun s => (Raise e, s).

Definition bind {A B} (m : M A) (k : A -> M B) : M B :=
  fun s =>
    match m s with
    | (Ok a, s') => k a s'
    | (Raise e, s') => (Raise e, s')
    end.

(** A pure step that may raise. *)
Definition lift {A} (r : result A) : M A := fun s => (r, s).

(** [try: body  except ...: handler].  The handler answers [None] for an
    exception its [except] clause does not match, which then goes on to
    the caller. *)
Definition try_except {A} (body : M A) (handler : exn -> option (M A))
  : M A :=
  fun s =>
    match body s with
    | (Ok a, s') => (Ok a, s')
    | (Raise e, s') =>
        match handler e with
        | Some h => h s'
        | None => (Raise e, s')
        end
    end.

(** [except GithubException as e] *)
Definition except_GithubException {A} (h : GithubException -> M A)
  : exn -> option (M A) :=
  fun e => match e with GithubExc g => Some (h g) | _ => None end.

(** [except ValueError as e] *)
Definition except_ValueError {A} (h : str -> M A) : exn -> option (M A) :=
  fun e => match e with ValueError m => Some (h m) | _ => None end.

(** [except Exception as e] *)
Definition except_Exception {A} (h : exn -> M A) : exn -> option (M A) :=
  fun e => Some (h e).
End Monad.

Arguments ret {St A} a.
Arguments raise {St A} e.
Arguments lift {St A} r.

Declare Scope py_scope.
Delimit Scope py_scope with py.
Notation "x <- m ;; k" := (bind m (fun x => k))
  (at level 100, m at next level, right associativity) : py_scope.
Notation "m ;;; k" := (bind m (fun _ => k))
  (at level 100, right associativity) : py_scope.

(** [a or b] on optional strings: [a] when it is truthy, else [b]. *)
Definition py_or (a b : option str) : option str :=
  match a with
  | Some s => if truthy s then a else b
  | None => b
  end.

(** [os.environ.get] *)
Definition Env := str -> option str.

End Py.

(* ===================================================================== *)
(** * The external services *)
(* ===================================================================== *)

Module Provider.
Import PyStr Py.

(** What the code reads of the objects PyGithub hands back. *)
Record RepositoryObj := {
  r_name : str;
  r_html_url : str;
  r_private : bool;
  r_description : option str
}.

Record IssueObj := {
  i_number : Z;
  i_html_url : str;
  i_title : str;
  i_state : str
}.

Record ContentFile := {
  cf_path : str;
  cf_sha : str;
  cf_decoded_content : bytes;
  cf_html_url : str;
  cf_size : Z
}.

Record CommitObj := { c_sha : str }.

(** The dict [{"commit": ..., "content": ...}] that [create_file] and
    [update_file] return. *)
Record WriteResult := {
  wr_commit : CommitObj;
  wr_content : ContentFile
}.

(** One request to a provider, with its arguments as the code passes
    them. *)
Inductive call :=
| CreateRepo (token name : str) (private : bool) (description : str)
             (auto_init : bool)
| GetRepos (token : str)
| GetRepo (token full_name : str)
| CreateIssue (token full_name title body : str)
| GetIssues (token full_name state : str)
| GetContents (token full_name path : str)
| UpdateFile (token full_name path message content sha : str)
| CreateFile (token full_name path message content : str)
| GenerateContent (api_key model prompt : str)
| TextToSpeech (api_key text voice_id model_id : str).

(** The source-hosting service as PyGithub presents it.  [W] is the state
    of the service; every operation answers with a value or an exception
    and a new state.  [Repository] is the handle [get_repo] returns. *)
Class GithubAPI (W : Type) := {
  Repository : Type;
  user_create_repo :
    str -> str -> bool -> str -> bool -> W -> result RepositoryObj * W;
  user_get_repos : str -> W -> result (list RepositoryObj) * W;
  github_get_repo : str -> str -> W -> result Repository * W;
  repo_create_issue :
    str -> Repository -> str -> str -> W -> result IssueObj * W;
  repo_get_issues :
    str -> Repository -> str -> W -> result (list IssueObj) * W;
  repo_get_contents :
    str -> Repository -> str -> W -> result ContentFile * W;
  repo_update_file :
    str -> Repository -> str -> str -> str -> str -> W
    -> result WriteResult * W;
  repo_create_file :
    str -> Repository -> str -> str -> str -> W -> result WriteResult * W
}.

(** The generative-text service: [model.generate_content(prompt).text]. *)
Class GenerativeAPI (W : Type) := {
  generate_content : str -> str -> str -> W -> result str * W
}.

(** The speech service: [text_to_speech.convert(...)], the chunks it
    yields when it is iterated to the end. *)
Class SpeechAPI (W : Type) := {
  tts_convert : str -> str -> str -> str -> W -> result (list bytes) * W
}.

(** The state a method runs in: the service and the requests sent so
    far, oldest first. *)
Record Sys (W : Type) := {
  world : W;
  trace : list call
}.

(** Send one request: it is recorded, and the service answers. *)
Definition request {W A} (c : call) (op : W -> result A * W)
  : M (Sys W) A :=
  fun s =>
    let (r, w') := op (world s) in
    (r, {| world := w'; trace := trace s ++ [c] |}).

End Provider.

(* ===================================================================== *)
(** * ghclient.py *)
(* ===================================================================== *)

Module GhClient.
Import PyStr Py Provider.
Local Open Scope py_scope.

(** [self.token]; [self.github] and [self.user] are handles bound to this
    token and are built without a request. *)
Record GitHubClient := { token : str }.

Record RepositoryRecord := {
  repo_name : str;
  repo_url : str;
  repo_private : bool;
  repo_description : option str
}.

Record IssueRecord := {
  issue_number : Z;
  issue_url : str;
  issue_title : str;
  issue_state : str
}.

Record FileCommitResult := {
  commit_sha : str;
  commit_url : str;
  action : str;
  commit_path : str
}.

Record FileReadResult := {
  read_path : str;
  content : str;
  read_url : str;
  size : Z
}.

Definition GITHUB_TOKEN : str := Eval cbv in lit "GITHUB_TOKEN".
Definition SLASH : str := Eval cbv in lit "/".

Definition token_missing_message : str :=
  Eval cbv in
    lit "GitHub token not provided. Set GITHUB_TOKEN environment variable.".

Definition invalid_repo_name_message : str :=
  Eval cbv in lit "Invalid repository name. Must be in format 'username/repo'".

(** [GitHubClient.__init__] *)
Definition __init__ (token : option str) (env : Env) : result GitHubClient :=
  match py_or token (env GITHUB_TOKEN) with
  | Some t =>
      if truthy t then Ok {| token := t |}
      else Raise (ValueError token_missing_message)
  | None => Raise (ValueError token_missing_message)
  end.

(** [all(parts)] *)
Definition all_truthy (parts : list str) : bool := forallb truthy parts.

(** [GitHubClient._validate_repo_name] *)
Definition _validate_repo_name (repo_full_name : str) : result unit :=
  if negb (truthy repo_full_name) || negb (contains SLASH repo_full_name)
  then Raise (ValueError invalid_repo_name_message)
  else
    let parts := split SLASH repo_full_name in
    if negb (length parts =? 2)%nat || negb (all_truthy parts)
    then Raise (ValueError invalid_repo_name_message)
    else Ok tt.

(** [e.data.get('message', str(e))] *)
Definition provider_message (e : GithubException) : str :=
  dict_get (data e) (lit "message") (ge_str e).

Section Methods.
Context {W : Type} {api : GithubAPI W}.
Variable self : GitHubClient.

(** [GitHubClient.create_repo] *)
Definition create_repo (name : str) (private : bool) (description : str)
  : M (Sys W) RepositoryRecord :=
  try_except
    (repo <- request (CreateRepo (token self) name private description true)
                     (user_create_repo (token self) name private description
                                       true) ;;
     ret {| repo_name := r_name repo;
            repo_url := r_html_url repo;
            repo_private := r_private repo;
            repo_description := r_description repo |})
    (except_GithubException (fun e =>
       raise (Exception (lit "Failed to create repository: "
                         ++ provider_message e)))).

(** [repo.description or ""] *)
Definition description_or_empty (d : option str) : str :=
  match py_or d (Some []) with
  | Some s => s
  | None => []
  end.

(** [GitHubClient.list_repos] *)
Definition list_repos : M (Sys W) (list RepositoryRecord) :=
  try_except
    (repos <- request (GetRepos (token self)) (user_get_repos (token self)) ;;
     ret (map (fun repo =>
                 {| repo_name := r_name repo;
                    repo_url := r_html_url repo;
                    repo_private := r_private repo;
                    repo_description :=
                      Some (description_or_empty (r_description repo)) |})
              repos))
    (except_GithubException (fun e =>
       raise (Exception (lit "Failed to list repositories: "
                         ++ provider_message e)))).

Definition issue_record (issue : IssueObj) : IssueRecord :=
  {| issue_number := i_number issue;
     issue_url := i_html_url issue;
     issue_title := i_title issue;
     issue_state := i_state issue |}.

(** [GitHubClient.create_issue] *)
Definition create_issue (repo_full_name title body : str)
  : M (Sys W) IssueRecord :=
  try_except
    (lift (_validate_repo_name repo_full_name) ;;;
     repo <- request (GetRepo (token self) repo_full_name)
                     (github_get_repo (token self) repo_full_name) ;;
     issue <- request (CreateIssue (token self) repo_full_name title body)
                      (repo_create_issue (token self) repo title body) ;;
     ret (issue_record issue))
    (except_GithubException (fun e =>
       raise (Exception (lit "Failed to create issue: "
                         ++ provider_message e)))).

(** [GitHubClient.list_issues] *)
Definition list_issues (repo_full_name state : str)
  : M (Sys W) (list IssueRecord) :=
  try_except
    (lift (_validate_repo_name repo_full_name) ;;;
     repo <- request (GetRepo (token self) repo_full_name)
                     (github_get_repo (token self) repo_full_name) ;;
     issues <- request (GetIssues (token self) repo_full_name state)
                       (repo_get_issues (token self) repo state) ;;
     ret (map issue_record issues))
    (except_GithubException (fun e =>
       raise (Exception (lit "Failed to list issues: "
                         ++ provider_message e)))).

(** The inner [try] of [commit_file]: the existence check and the update
    are both inside it; its handler creates the file on a 404 and
    re-raises anything else. *)
Definition check_then_write (repo : Repository)
           (repo_full_name path content message : str)
  : M (Sys W) (WriteResult * str) :=
  try_except
    (existing_file <- request (GetContents (token self) repo_full_name path)
                              (repo_get_contents (token self) repo path) ;;
     result <- request (UpdateFile (token self) repo_full_name path message
                                   content (cf_sha existing_file))
                       (repo_update_file (token self) repo path message
                                         content (cf_sha existing_file)) ;;
     ret (result, lit "updated"))
    (except_GithubException (fun e =>
       if (status e =? 404)%Z then
         result <- request (CreateFile (token self) repo_full_name path
                                       message content)
                           (repo_create_file (token self) repo path message
                                             content) ;;
         ret (result, lit "created")
       else raise (GithubExc e))).

(** [GitHubClient.commit_file] *)
Definition commit_file (repo_full_name path content message : str)
  : M (Sys W) FileCommitResult :=
  try_except
    (lift (_validate_repo_name repo_full_name) ;;;
     repo <- request (GetRepo (token self) repo_full_name)
                     (github_get_repo (token self) repo_full_name) ;;
     ra <- check_then_write repo repo_full_name path content message ;;
     ret {| commit_sha := c_sha (wr_commit (fst ra));
            commit_url := cf_html_url (wr_content (fst ra));
            action := snd ra;
            commit_path := path |})
    (except_GithubException (fun e =>
       raise (Exception (lit "Failed to commit file: "
                         ++ provider_message e)))).

Definition decode_error_message : str :=
  Eval cbv in lit "'utf-8' codec can't decode bytes".

(** [b.decode('utf-8')] as a step that may raise. *)
Definition decode_utf8 (b : bytes) : result str :=
  match utf8_decode b with
  | Some s => Ok s
  | None => Raise (UnicodeDecodeError decode_error_message)
  end.

(** [GitHubClient.read_file] *)
Definition read_file (repo_full_name path : str)
  : M (Sys W) FileReadResult :=
  try_except
    (lift (_validate_repo_name repo_full_name) ;;;
     repo <- request (GetRepo (token self) repo_full_name)
                     (github_get_repo (token self) repo_full_name) ;;
     file_content <- request (GetContents (token self) repo_full_name path)
                             (repo_get_contents (token self) repo path) ;;
     text <- lift (decode_utf8 (cf_decoded_content file_content)) ;;
     ret {| read_path := cf_path file_content;
            content := text;
            read_url := cf_html_url file_content;
            size := cf_size file_content |})
    (except_GithubException (fun e =>
       if (status e =? 404)%Z then
         raise (Exception (lit "File not found: " ++ path))
       else
         raise (Exception (lit "Failed to read file: "
                           ++ provider_message e)))).
End Methods.

End GhClient.

(* ===================================================================== *)
(** * ai_helper.py *)
(* ===================================================================== *)

Module AIHelper.
Import PyStr Py Provider.
Local Open Scope py_scope.

(** [genai.configure(api_key=...)] followed by
    [genai.GenerativeModel(name)]. *)
Record GenerativeModel := {
  model_api_key : str;
  model_name : str
}.

(** [ElevenLabs(api_key=...)] *)
Record ElevenLabs := { client_api_key : str }.

Record AIDocumentationGenerator := {
  gemini_key : option str;
  gemini_model : option GenerativeModel;
  elevenlabs_key : option str;
  elevenlabs_client : option ElevenLabs
}.

Record DocumentationResult := {
  documentation : str;
  summary : str
}.

Definition GEMINI_API_KEY : str := Eval cbv in lit "GEMINI_API_KEY".
Definition ELEVENLABS_API_KEY : str := Eval cbv in lit "ELEVENLABS_API_KEY".
Definition GEMINI_MODEL : str := Eval cbv in lit "gemini-2.5-flash".
Definition VOICE_ID : str := Eval cbv in lit "EXAVITQu4vr4xnSDxMaL".
Definition MODEL_ID : str := Eval cbv in lit "eleven_monolingual_v1".

Definition SUMMARY_MARKER : str := Eval cbv in lit "## Summary".
Definition DOCUMENTATION_MARKER : str := Eval cbv in lit "## Documentation".
Definition NEWLINE : str := [10%N].
Definition SPACE : str := [32%N].
Definition DQUOTE : str := [34%N].

(** [if key:] on an optional string. *)
Definition configured (key : option str) : option str :=
  match key with
  | Some k => if truthy k then Some k else None
  | None => None
  end.

(** [AIDocumentationGenerator.__init__] *)
Definition __init__ (user_gemini_key : option str) (env : Env)
  : AIDocumentationGenerator :=
  let gemini_key := py_or user_gemini_key (env GEMINI_API_KEY) in
  let elevenlabs_key := env ELEVENLABS_API_KEY in
  {| gemini_key := gemini_key;
     gemini_model :=
       match configured gemini_key with
       | Some k => Some {| model_api_key := k; model_name := GEMINI_MODEL |}
       | None => None
       end;
     elevenlabs_key := elevenlabs_key;
     elevenlabs_client :=
       match configured elevenlabs_key with
       | Some k => Some {| client_api_key := k |}
       | None => None
       end |}.

(** The prompt of [generate_documentation]. *)
Definition prompt_tail : str :=
  Eval cbv in lit "
```

Generate comprehensive documentation in README markdown format with these sections:
1. **Overview** - What this code does (2-3 sentences)
2. **Key Components** - Main functions/classes with brief descriptions
3. **Usage Examples** - How to use this code (with code blocks)
4. **Dependencies** - Required libraries/packages
5. **Installation** - Setup instructions

Then provide a STRICT 2-LINE SUMMARY (maximum 2 sentences, around 150-200 characters total) that captures the essence of this code.

Format your response EXACTLY like this:

## Documentation

[Full documentation here in markdown format]

## Summary

[Exactly 2 lines/sentences here - be concise and clear]
".

Definition build_prompt (code_content language filename : str) : str :=
  lit "Analyze this " ++ language ++ lit " code from file "
  ++ DQUOTE ++ filename ++ DQUOTE ++ lit ":" ++ NEWLINE ++ NEWLINE
  ++ lit "```" ++ language ++ NEWLINE
  ++ code_content ++ prompt_tail.

(** [[s.strip() for s in l if s.strip()]] *)
Definition stripped_nonblank (l : list str) : list str :=
  map strip (filter (fun s => truthy (strip s)) l).

(** [AIDocumentationGenerator._extract_summary_fallback] *)
Definition _extract_summary_fallback (text : str) : str :=
  let sentences := re_split_delims text in
  let sentences := stripped_nonblank sentences in
  join (lit ". ") (firstn 2 sentences) ++ lit ".".

(** The parsing block of [generate_documentation], from
    [parts = full_response.split("## Summary")] to the returned dict. *)
Definition parse_response (full_response : str) : DocumentationResult :=
  let parts := split SUMMARY_MARKER full_response in
  if (length parts =? 2)%nat then
    let documentation :=
      strip (replace DOCUMENTATION_MARKER [] (nth 0 parts [])) in
    let summary := strip (nth 1 parts []) in
    let summary_lines := stripped_nonblank (split NEWLINE summary) in
    let summary := join SPACE (firstn 2 summary_lines) in
    {| documentation := documentation; summary := summary |}
  else
    {| documentation := full_response;
       summary := _extract_summary_fallback full_response |}.

Definition gemini_missing_message : str :=
  Eval cbv in
    lit "Gemini API key not configured. " ++
    lit "Set GEMINI_API_KEY environment variable.".

Definition elevenlabs_missing_message : str :=
  Eval cbv in
    lit "ElevenLabs API key not configured. " ++
    lit "Set ELEVENLABS_API_KEY environment variable.".

Section Methods.
Context {W : Type} {gen : GenerativeAPI W} {tts : SpeechAPI W}.
Variable self : AIDocumentationGenerator.

(** [AIDocumentationGenerator.generate_documentation] *)
Definition generate_documentation (code_content language filename : str)
  : M (Sys W) DocumentationResult :=
  match gemini_model self with
  | None => raise (ValueError gemini_missing_message)
  | Some model =>
      let prompt := build_prompt code_content language filename in
      try_except
        (full_response <-
           request (GenerateContent (model_api_key model) (model_name model)
                                    prompt)
                   (generate_content (model_api_key model)
                                     (model_name model) prompt) ;;
         ret (parse_response full_response))
        (except_Exception (fun e =>
           raise (Exception (lit "Failed to generate documentation: "
                             ++ exn_str e))))
  end.

(** [AIDocumentationGenerator.text_to_speech] *)
Definition text_to_speech (text : str) : M (Sys W) bytes :=
  match elevenlabs_client self with
  | None => raise (ValueError elevenlabs_missing_message)
  | Some client =>
      try_except
        (audio_generator <-
           request (TextToSpeech (client_api_key client) text VOICE_ID
                                 MODEL_ID)
                   (tts_convert (client_api_key client) text VOICE_ID
                                MODEL_ID) ;;
         ret (concat audio_generator))
        (except_Exception (fun e =>
           raise (Exception (lit "Failed to generate audio: "
                             ++ exn_str e))))
  end.

(** [AIDocumentationGenerator.process_file] *)
Definition process_file (file_content language filename : str)
  : M (Sys W) (str * str * bytes) :=
  result <- generate_documentation file_content language filename ;;
  audio <- text_to_speech (summary result) ;;
  ret (documentation result, summary result, audio).
End Methods.

End AIHelper.

(* ===================================================================== *)
(** * app.py: the dispatch handlers *)
(* ===================================================================== *)

Module App.
Import PyStr Py Provider.
Local Open Scope py_scope.

(** What a handler returns: the dict [{"error": message}] or the dict of
    the operation. *)
Inductive reply (A : Type) :=
| ErrorRecord (error : str)
| Payload (a : A).
Arguments ErrorRecord {A} error.
Arguments Payload {A} a.

Definition token_not_configured : str :=
  Eval cbv in lit "GitHub token not configured".

(** [get_github_client] *)
Definition get_github_client (token : option str) (env : Env)
  : result (option GhClient.GitHubClient) :=
  match GhClient.__init__ token env with
  | Ok client => Ok (Some client)
  | Raise (ValueError _) => Ok None
  | Raise e => Raise e
  end.

(** [get_ai_helper] *)
Definition get_ai_helper (user_gemini_key : option str) (env : Env)
  : option AIHelper.AIDocumentationGenerator :=
  Some (AIHelper.__init__ user_gemini_key env).

Section Handlers.
Context {W : Type} {api : GithubAPI W}.
Variable env : Env.

(** The common opening of the handlers:
    [client = get_github_client(token)], then the error record when
    there is no client. *)
Definition with_client {A} (token : option str)
           (k : GhClient.GitHubClient -> M (Sys W) A)
  : M (Sys W) (reply A) :=
  client <- lift (get_github_client token env) ;;
  match client with
  | None => ret (ErrorRecord token_not_configured)
  | Some c => (a <- k c ;; ret (Payload a))
  end.

(** [mcp_create_repo] *)
Definition mcp_create_repo (name description : str) (token : option str) :=
  with_client token (fun client =>
    GhClient.create_repo client name false description).

(** [mcp_create_issue] *)
Definition mcp_create_issue (repo_full_name title body : str)
           (token : option str) :=
  with_client token (fun client =>
    GhClient.create_issue client repo_full_name title body).

(** [mcp_list_issues]: a list, of one error dict when there is no
    client. *)
Definition mcp_list_issues (repo_full_name state : str)
           (token : option str)
  : M (Sys W) (list (reply GhClient.IssueRecord)) :=
  client <- lift (get_github_client token env) ;;
  match client with
  | None => ret [ErrorRecord token_not_configured]
  | Some c =>
      (issues <- GhClient.list_issues c repo_full_name state ;;
       ret (map Payload issues))
  end.

(** [mcp_commit_file] *)
Definition mcp_commit_file (repo_full_name path content message : str)
           (token : option str) :=
  with_client token (fun client =>
    GhClient.commit_file client repo_full_name path content message).

(** [mcp_read_file] *)
Definition mcp_read_file (repo_full_name path : str) (token : option str) :=
  with_client token (fun client =>
    GhClient.read_file client repo_full_name path).
End Handlers.

(** The dict of a successful [mcp_generate_docs_with_tts]. *)
Record DocsReply := {
  docs_documentation : str;
  docs_summary : str;
  audio_generated : bool;
  docs_filename : str
}.

Definition ai_not_configured : str :=
  Eval cbv in
    lit "AI services not configured. " ++
    lit "Set GEMINI_API_KEY and ELEVENLABS_API_KEY.".

Section MoreHandlers.
Context {W : Type} {api : GithubAPI W}.
Variable env : Env.

(** [mcp_list_repos]: a list, of one error dict when there is no
    client. *)
Definition mcp_list_repos (token : option str)
  : M (Sys W) (list (reply GhClient.RepositoryRecord)) :=
  client <- lift (get_github_client token env) ;;
  match client with
  | None => ret [ErrorRecord token_not_configured]
  | Some c => (repos <- GhClient.list_repos c ;; ret (map Payload repos))
  end.
End MoreHandlers.

Section DocsHandler.
Context {W : Type} {gen : GenerativeAPI W} {tts : SpeechAPI W}.
Variable env : Env.

(** [mcp_generate_docs_with_tts] *)
Definition mcp_generate_docs_with_tts (code_content language filename : str)
  : M (Sys W) (reply DocsReply) :=
  match get_ai_helper None env with
  | None => ret (ErrorRecord ai_not_configured)
  | Some ai_helper =>
      try_except
        (result <- AIHelper.generate_documentation ai_helper code_content
                                                   language filename ;;
         audio <- AIHelper.text_to_speech ai_helper
                                          (AIHelper.summary result) ;;
         ret (Payload
                {| docs_documentation := AIHelper.documentation result;
                   docs_summary := AIHelper.summary result;
                   audio_generated := true;
                   docs_filename := filename ++ lit "_summary.mp3" |}))
        (except_Exception (fun e => ret (ErrorRecord (exn_str e))))
  end.
End DocsHandler.

(** The marks that open the texts of the interface, as the code points
    the source file holds. *)
Definition CROSS_MARK : str := [0x201A; 0xF9; 0xE5]%N.
Definition CHECK_MARK : str := [0x201A; 0xFA; 0xD6]%N.
Definition BOX_MARK : str := [0xF8FF; 0xFC; 0xEC; 0xB6]%N.
Definition LINK_MARK : str := [0xF8FF; 0xFC; 0xEE; 0xF3]%N.
Definition NOTE_MARK : str := [0xF8FF; 0xFC; 0xEC; 0xF9]%N.
Definition PAGE_MARK : str := [0xF8FF; 0xFC; 0xEC; 0xD1]%N.
Definition CHART_MARK : str := [0xF8FF; 0xFC; 0xEC; 0xE4]%N.
Definition NUMBER_MARK : str := [0xF8FF; 0xFC; 0xEE; 0xA2]%N.
Definition PIN_MARK : str := [0xF8FF; 0xFC; 0xEC; 0xE5]%N.

Definition NL : str := [10%N].

(** [str(n)] for an integer. *)
Definition str_of_int (n : Z) : str :=
  lit (DecimalString.NilZero.string_of_int (Z.to_int n)).

(** An optional string inside an f-string: [None] prints as "None". *)
Definition format_optional (o : option str) : str :=
  match o with
  | Some s => s
  | None => lit "None"
  end.

(** [token if token.strip() else None] *)
Definition token_or_none (token : str) : option str :=
  if truthy (strip token) then Some token else None.

(** [f"<cross> Error: {message}"] *)
Definition error_text (message : str) : str :=
  CROSS_MARK ++ lit " Error: " ++ message.

Definition no_documentation_text : str :=
  CROSS_MARK
  ++ lit " No documentation to commit. Generate documentation first.".

Definition docs_commit_message : str :=
  Eval cbv in lit "Add AI-generated documentation".

Section UI.
Context {W : Type} {api : GithubAPI W}.
Variable env : Env.

(** [ui_create_repo] *)
Definition ui_create_repo (name description token : str) : M (Sys W) str :=
  try_except
    (result <- mcp_create_repo env name description (token_or_none token) ;;
     match result with
     | ErrorRecord error => ret (error_text error)
     | Payload r =>
         ret (CHECK_MARK ++ lit " Repository created!" ++ NL ++ NL
              ++ BOX_MARK ++ lit " Name: " ++ GhClient.repo_name r ++ NL
              ++ LINK_MARK ++ lit " URL: " ++ GhClient.repo_url r ++ NL
              ++ NOTE_MARK ++ lit " Description: "
              ++ format_optional (GhClient.repo_description r))
     end)
    (except_Exception (fun e => ret (error_text (exn_str e)))).

(** [ui_create_issue] *)
Definition ui_create_issue (repo_full_name title body token : str)
  : M (Sys W) str :=
  try_except
    (result <- mcp_create_issue env repo_full_name title body
                                (token_or_none token) ;;
     match result with
     | ErrorRecord error => ret (error_text error)
     | Payload r =>
         ret (CHECK_MARK ++ lit " Issue created!" ++ NL ++ NL
              ++ NUMBER_MARK ++ lit " Number: #"
              ++ str_of_int (GhClient.issue_number r) ++ NL
              ++ PIN_MARK ++ lit " Title: " ++ GhClient.issue_title r ++ NL
              ++ LINK_MARK ++ lit " URL: " ++ GhClient.issue_url r ++ NL
              ++ CHART_MARK ++ lit " State: " ++ GhClient.issue_state r)
     end)
    (except_Exception (fun e => ret (error_text (exn_str e)))).

(** [ui_read_file]: the text about the file, and its content. *)
Definition ui_read_file (repo_full_name path token : str)
  : M (Sys W) (str * str) :=
  try_except
    (result <- mcp_read_file env repo_full_name path (token_or_none token) ;;
     match result with
     | ErrorRecord error => ret (error_text error, [])
     | Payload r =>
         ret (CHECK_MARK ++ lit " File read successfully!" ++ NL ++ NL
              ++ PAGE_MARK ++ lit " Path: " ++ GhClient.read_path r ++ NL
              ++ LINK_MARK ++ lit " URL: " ++ GhClient.read_url r ++ NL
              ++ CHART_MARK ++ lit " Size: "
              ++ str_of_int (GhClient.size r) ++ lit " bytes",
              GhClient.content r)
     end)
    (except_Exception (fun e => ret (error_text (exn_str e), []))).

(** [ui_commit_docs] *)
Definition ui_commit_docs (repo_full_name path documentation token : str)
  : M (Sys W) str :=
  try_except
    (if negb (truthy documentation) || startswith CROSS_MARK documentation
     then ret no_documentation_text
     else
       result <- mcp_commit_file env repo_full_name path documentation
                                 docs_commit_message (token_or_none token) ;;
       match result with
       | ErrorRecord error => ret (error_text error)
       | Payload r =>
           ret (CHECK_MARK ++ lit " Documentation committed!" ++ NL ++ NL
                ++ PAGE_MARK ++ lit " Path: " ++ GhClient.commit_path r ++ NL
                ++ LINK_MARK ++ lit " URL: " ++ GhClient.commit_url r ++ NL
                ++ NOTE_MARK ++ lit " Commit: "
                ++ firstn 7 (GhClient.commit_sha r))
       end)
    (except_Exception (fun e => ret (error_text (exn_str e)))).
End UI.

End App.

(* ===================================================================== *)
(** * test_fibonacci.py *)
(* ===================================================================== *)

Module Fibonacci.

(** [calculate_fibonacci].  Python integers have no bound, so argument
    and result are in [Z]; each call is on a smaller argument above 1,
    which is what makes the recursion end.  The depth limit of the
    interpreter's call stack is not modelled. *)
Equations? calculate_fibonacci (n : Z) : Z by wf (Z.to_nat n) lt :=
  calculate_fibonacci n with Z_le_gt_dec n 1 => {
    | left _ := n;
    | right _ :=
        (calculate_fibonacci (n - 1) + calculate_fibonacci (n - 2))%Z }.
Proof. all: lia. Qed.

(** The Fibonacci numbers by the loop [a, b = b, a + b]. *)
Fixpoint fib_loop (k : nat) (a b : Z) : Z :=
  match k with
  | O => a
  | S k' => fib_loop k' b (a + b)%Z
  end.

Definition fibonacci_number (k : nat) : Z := fib_loop k 0%Z 1%Z.

End Fibonacci.

(* ===================================================================== *)
(** * Reference services *)
(* ===================================================================== *)

(** An in-memory source-hosting service that honours the contract the
    client consumes: bearer-token authentication, a request quota,
    repositories addressed by full name, files addressed by path, 404 for
    what is absent, the blob hash of the current content as the token of
    an update.  It serves as the concrete service of the examples. *)
Module MemHub.
Import PyStr Py Provider.

Record HubRepo := {
  hr_name : str;
  hr_private : bool;
  hr_description : str;
  hr_files : list (str * bytes);
  hr_issues : list IssueObj
}.

Record Hub := {
  valid_token : str;
  login : str;
  quota : nat;
  repos : list (str * HubRepo)
}.

Fixpoint lookup {A} (k : str) (m : list (str * A)) : option A :=
  match m with
  | [] => None
  | (k', v) :: m' => if str_eqb k' k then Some v else lookup k m'
  end.

(** Replace the binding of [k], or add one at the end. *)
Fixpoint store {A} (k : str) (v : A) (m : list (str * A)) : list (str * A) :=
  match m with
  | [] => [(k, v)]
  | (k', v') :: m' =>
      if str_eqb k' k then (k, v) :: m' else (k', v') :: store k v m'
  end.

Definition failure (code : Z) (message : str) : GithubException :=
  {| status := code;
     data := [(lit "message", message)];
     ge_str := message |}.

Definition bad_credentials := failure 401 (lit "Bad credentials").
Definition rate_limited := failure 403 (lit "API rate limit exceeded").
Definition not_found := failure 404 (lit "Not Found").
Definition sha_mismatch := failure 409 (lit "does not match").
Definition unprocessable := failure 422 (lit "Validation Failed").

Definition with_quota (h : Hub) (q : nat) : Hub :=
  {| valid_token := valid_token h; login := login h; quota := q;
     repos := repos h |}.

Definition with_repos (h : Hub) (rs : list (str * HubRepo)) : Hub :=
  {| valid_token := valid_token h; login := login h; quota := quota h;
     repos := rs |}.

(** Every request is authenticated, then counted against the quota. *)
Definition accept {A} (tok : str) (h : Hub) (k : Hub -> result A * Hub)
  : result A * Hub :=
  if negb (str_eqb tok (valid_token h))
  then (Raise (GithubExc bad_credentials), h)
  else
    match quota h with
    | O => (Raise (GithubExc rate_limited), h)
    | S q => k (with_quota h q)
    end.

(** The hash of a blob is a function of its content; here the content
    itself under a tag. *)
Definition blob_sha (b : bytes) : str := lit "blob:" ++ map Byte.to_N b.

Definition file_url (full_name path : str) : str :=
  lit "https://github.com/" ++ full_name ++ lit "/blob/main/" ++ path.

Definition repo_url (full_name : str) : str :=
  lit "https://github.com/" ++ full_name.

Definition content_file (full_name path : str) (b : bytes) : ContentFile :=
  {| cf_path := path;
     cf_sha := blob_sha b;
     cf_decoded_content := b;
     cf_html_url := file_url full_name path;
     cf_size := Z.of_nat (length b) |}.

Definition write_result (full_name path message : str) (b : bytes)
  : WriteResult :=
  {| wr_commit := {| c_sha := lit "commit:" ++ message |};
     wr_content := content_file full_name path b |}.

Definition repository_obj (full_name : str) (r : HubRepo) : RepositoryObj :=
  {| r_name := hr_name r;
     r_html_url := repo_url full_name;
     r_private := hr_private r;
     r_description :=
       if truthy (hr_description r) then Some (hr_description r) else None |}.

Definition put_file (full_name path : str) (b : bytes) (r : HubRepo) (h : Hub)
  : Hub :=
  with_repos h
    (store full_name
       {| hr_name := hr_name r;
          hr_private := hr_private r;
          hr_description := hr_description r;
          hr_files := store path b (hr_files r);
          hr_issues := hr_issues r |}
       (repos h)).

Definition readme : bytes := [].

Definition hub_create_repo (tok name : str) (private : bool)
           (description : str) (auto_init : bool) (h : Hub)
  : result RepositoryObj * Hub :=
  accept tok h (fun h =>
    let full_name := login h ++ lit "/" ++ name in
    match lookup full_name (repos h) with
    | Some _ => (Raise (GithubExc unprocessable), h)
    | None =>
        let r := {| hr_name := name;
                    hr_private := private;
                    hr_description := description;
                    hr_files :=
                      if auto_init then [(lit "README.md", readme)] else [];
                    hr_issues := [] |} in
        (Ok (repository_obj full_name r),
         with_repos h (store full_name r (repos h)))
    end).

Definition hub_get_repos (tok : str) (h : Hub)
  : result (list RepositoryObj) * Hub :=
  accept tok h (fun h =>
    (Ok (map (fun kv => repository_obj (fst kv) (snd kv)) (repos h)), h)).

Definition hub_get_repo (tok full_name : str) (h : Hub) : result str * Hub :=
  accept tok h (fun h =>
    match lookup full_name (repos h) with
    | Some _ => (Ok full_name, h)
    | None => (Raise (GithubExc not_found), h)
    end).

Definition hub_create_issue (tok full_name title body : str) (h : Hub)
  : result IssueObj * Hub :=
  accept tok h (fun h =>
    match lookup full_name (repos h) with
    | None => (Raise (GithubExc not_found), h)
    | Some r =>
        let issue :=
          {| i_number := Z.of_nat (S (length (hr_issues r)));
             i_html_url := repo_url full_name ++ lit "/issues";
             i_title := title;
             i_state := lit "open" |} in
        (Ok issue,
         with_repos h
           (store full_name
              {| hr_name := hr_name r;
                 hr_private := hr_private r;
                 hr_description := hr_description r;
                 hr_files := hr_files r;
                 hr_issues := hr_issues r ++ [issue] |}
              (repos h)))
    end).

Definition hub_get_issues (tok full_name state : str) (h : Hub)
  : result (list IssueObj) * Hub :=
  accept tok h (fun h =>
    match lookup full_name (repos h) with
    | None => (Raise (GithubExc not_found), h)
    | Some r =>
        (Ok (filter (fun i => str_eqb state (lit "all")
                              || str_eqb (i_state i) state)
                    (hr_issues r)), h)
    end).

Definition hub_get_contents (tok full_name path : str) (h : Hub)
  : result ContentFile * Hub :=
  accept tok h (fun h =>
    match lookup full_name (repos h) with
    | None => (Raise (GithubExc not_found), h)
    | Some r =>
        match lookup path (hr_files r) with
        | None => (Raise (GithubExc not_found), h)
        | Some b => (Ok (content_file full_name path b), h)
        end
    end).

Definition encode_error : exn :=
  OtherError (lit "UnicodeEncodeError")
             (lit "'utf-8' codec can't encode characters").

(** The library encodes the text before it sends it. *)
Definition hub_update_file (tok full_name path message content sha : str)
           (h : Hub) : result WriteResult * Hub :=
  match utf8_encode content with
  | None => (Raise encode_error, h)
  | Some b =>
      accept tok h (fun h =>
        match lookup full_name (repos h) with
        | None => (Raise (GithubExc not_found), h)
        | Some r =>
            match lookup path (hr_files r) with
            | None => (Raise (GithubExc not_found), h)
            | Some old =>
                if str_eqb sha (blob_sha old)
                then (Ok (write_result full_name path message b),
                      put_file full_name path b r h)
                else (Raise (GithubExc sha_mismatch), h)
            end
        end)
  end.

Definition hub_create_file (tok full_name path message content : str)
           (h : Hub) : result WriteResult * Hub :=
  match utf8_encode content with
  | None => (Raise encode_error, h)
  | Some b =>
      accept tok h (fun h =>
        match lookup full_name (repos h) with
        | None => (Raise (GithubExc not_found), h)
        | Some r =>
            match lookup path (hr_files r) with
            | Some _ => (Raise (GithubExc unprocessable), h)
            | None =>
                (Ok (write_result full_name path message b),
                 put_file full_name path b r h)
            end
        end)
  end.

#[export] Instance api : GithubAPI Hub := {|
  Repository := str;
  user_create_repo := hub_create_repo;
  user_get_repos := hub_get_repos;
  github_get_repo := hub_get_repo;
  repo_create_issue := hub_create_issue;
  repo_get_issues := hub_get_issues;
  repo_get_contents := hub_get_contents;
  repo_update_file := hub_update_file;
  repo_create_file := hub_create_file
|}.

End MemHub.

(** Scripted text and speech services: each answers every request with
    the answer it was set up with. *)
Module ScriptedAI.
Import PyStr Py Provider.

Record Script := {
  text_answer : result str;
  speech_answer : result (list bytes)
}.

#[export] Instance gen : GenerativeAPI Script := {|
  generate_content := fun _ _ _ w => (text_answer w, w)
|}.

#[export] Instance tts : SpeechAPI Script := {|
  tts_convert := fun _ _ _ _ w => (speech_answer w, w)
|}.

End ScriptedAI.

(** A source-hosting service with fixed answers: each operation answers
    every request with the answer it was set up with, whatever was sent
    before.  It stands for races and outages the in-memory hub cannot
    show. *)
Module ScriptedHub.
Import PyStr Py Provider.

Record Script := {
  create_repo_answer : result RepositoryObj;
  get_repos_answer : result (list RepositoryObj);
  get_repo_answer : result unit;
  create_issue_answer : result IssueObj;
  get_issues_answer : result (list IssueObj);
  get_contents_answer : result ContentFile;
  update_file_answer : result WriteResult;
  create_file_answer : result WriteResult
}.

#[export] Instance api : GithubAPI Script := {|
  Repository := unit;
  user_create_repo := fun _ _ _ _ _ w => (create_repo_answer w, w);
  user_get_repos := fun _ w => (get_repos_answer w, w);
  github_get_repo := fun _ _ w => (get_repo_answer w, w);
  repo_create_issue := fun _ _ _ _ w => (create_issue_answer w, w);
  repo_get_issues := fun _ _ _ w => (get_issues_answer w, w);
  repo_get_contents := fun _ _ _ w => (get_contents_answer w, w);
  repo_update_file := fun _ _ _ _ _ _ w => (update_file_answer w, w);
  repo_create_file := fun _ _ _ _ _ w => (create_file_answer w, w)
|}.

End ScriptedHub.

(* ===================================================================== *)
(** * The vocabulary of the specification *)
(* ===================================================================== *)

Module Spec.
Import PyStr Py Provider.

Definition slash : char := 47%N.

(** The two-segment form [owner/name], both segments non-empty. *)
Definition WellFormedRepoId (s : str) : Prop :=
  exists owner name,
    s = owner ++ [slash] ++ name /\
    owner <> [] /\ name <> [] /\ ~ In slash owner /\ ~ In slash name.

(** The malformed identifiers the specification lists: the empty string,
    no slash, an empty owner segment, an empty name segment, more than
    one slash. *)
Definition MalformedRepoId (s : str) : Prop :=
  s = [] \/
  ~ In slash s \/
  (exists rest, s = slash :: rest) \/
  (exists front, s = front ++ [slash]) \/
  2 <= count_occ N.eq_dec s slash.

(** Cutting a text at every character that satisfies [p]. *)
Fixpoint cut_at (p : char -> bool) (s : str) : list str :=
  match s with
  | [] => [[]]
  | c :: s' =>
      if p c then [] :: cut_at p s'
      else
        match cut_at p s' with
        | piece :: pieces => (c :: piece) :: pieces
        | [] => [[c]]
        end
  end.

Definition newline : char := 10%N.

(** The lines of a text. *)
Definition lines (s : str) : list str := cut_at (N.eqb newline) s.

(** The sentence fragments of a text: what stands between the
    delimiters ".", "!" and "?". *)
Definition sentence_fragments (s : str) : list str :=
  cut_at is_sentence_delim s.

(** The pieces that are not blank, each trimmed. *)
Definition nonblank_trimmed (l : list str) : list str :=
  map strip (filter (fun piece => negb (is_empty (strip piece))) l).

Definition first_two_lines (s : str) : list str :=
  firstn 2 (nonblank_trimmed (lines s)).

Definition first_two_fragments (s : str) : list str :=
  firstn 2 (nonblank_trimmed (sentence_fragments s)).

(** A text without white space at either end. *)
Definition Trimmed (s : str) : Prop := strip s = s.

(** What the round trip asks of the source-hosting service: once a create
    or an update of [path] with [content] has succeeded on a repository
    obtained for [name], a lookup of [name] and of [path] made in the
    state the write left, if it succeeds, returns the UTF-8 encoding of
    [content]. *)
Definition ReadYourWrites {W : Type} {api : GithubAPI W} : Prop :=
  forall (tok name path message content : str) (w0 w0' w w1 : W)
         (r : Repository) (wr : WriteResult),
    github_get_repo tok name w0 = (Ok r, w0') ->
    (repo_create_file tok r path message content w = (Ok wr, w1) \/
     exists sha,
       repo_update_file tok r path message content sha w = (Ok wr, w1)) ->
    forall (r' : Repository) (w2 : W) (cf : ContentFile) (w3 : W),
      github_get_repo tok name w1 = (Ok r', w2) ->
      repo_get_contents tok r' path w2 = (Ok cf, w3) ->
      utf8_encode content = Some (cf_decoded_content cf).

(** The requests sent to the speech service. *)
Definition is_speech_call (c : call) : bool :=
  match c with
  | TextToSpeech _ _ _ _ => true
  | _ => false
  end.

Definition speech_calls (t : list call) : list call :=
  filter is_speech_call t.

End Spec.

(** Further words for the behaviour of the code at its edges. *)
Module Edge.
Import PyStr Py Provider.

(** An optional string that counts as missing: [None] or empty. *)
Definition Absent (o : option str) : Prop := o = None \/ o = Some [].

(** A text of white space only. *)
Definition Blank (s : str) : Prop := forall c, In c s -> isspace c = true.

(** The requests sent to the generative-text service. *)
Definition is_text_call (c : call) : bool :=
  match c with
  | GenerateContent _ _ _ => true
  | _ => false
  end.

(** A handler that returned the record of its operation: it neither
    raised nor answered an error record. *)
Definition is_payload {A : Type} (r : result (App.reply A)) : bool :=
  match r with
  | Ok (App.Payload _) => true
  | _ => false
  end.

End Edge.

(* ===================================================================== *)
(** * Concrete situations used in the examples *)
(* ===================================================================== *)

Module Examples.
Import PyStr Py Provider.

(** A hub that knows the token "t" of the user "me", with one public
    repository "me/r" holding the file "old.txt". *)
Definition demo_repo : MemHub.HubRepo :=
  {| MemHub.hr_name := lit "r";
     MemHub.hr_private := false;
     MemHub.hr_description := [];
     MemHub.hr_files := [(lit "old.txt", [Byte.x68; Byte.x69])];
     MemHub.hr_issues := [] |}.

Definition demo_hub (requests_left : nat) : MemHub.Hub :=
  {| MemHub.valid_token := lit "t";
     MemHub.login := lit "me";
     MemHub.quota := requests_left;
     MemHub.repos := [(lit "me/r", demo_repo)] |}.

Definition demo_sys (requests_left : nat) : Sys MemHub.Hub :=
  {| world := demo_hub requests_left; trace := [] |}.

Definition demo_client : GhClient.GitHubClient :=
  {| GhClient.token := lit "t" |}.

(** An environment that sets the three keys. *)
Definition demo_env : Env :=
  fun name =>
    if str_eqb name GhClient.GITHUB_TOKEN then Some (lit "env-token")
    else if str_eqb name AIHelper.GEMINI_API_KEY then Some (lit "env-gemini")
    else if str_eqb name AIHelper.ELEVENLABS_API_KEY
         then Some (lit "env-speech")
    else None.

(** Text and speech services with fixed answers. *)
Definition scripted (text : result str) (speech : result (list bytes))
  : Sys ScriptedAI.Script :=
  {| world := {| ScriptedAI.text_answer := text;
                 ScriptedAI.speech_answer := speech |};
     trace := [] |}.

Definition demo_generator : AIHelper.AIDocumentationGenerator :=
  AIHelper.__init__ None demo_env.

Definition demo_model : AIHelper.GenerativeModel :=
  {| AIHelper.model_api_key := lit "env-gemini";
     AIHelper.model_name := AIHelper.GEMINI_MODEL |}.

Definition one_marker_left : str :=
  Eval cbv in lit "## Documentation

Adds numbers.

".

Definition one_marker_right : str :=
  Eval cbv in lit "

Adds two numbers.   

Returns the sum.
Never fails.".

Definition one_marker_response : str :=
  Eval cbv in one_marker_left ++ AIHelper.SUMMARY_MARKER ++ one_marker_right.

Definition no_marker_response : str :=
  Eval cbv in lit "Adds two numbers!  Returns the sum... Never fails.".

(** A repository whose file "bad.bin" is not valid UTF-8. *)
Definition binary_repo : MemHub.HubRepo :=
  {| MemHub.hr_name := lit "r";
     MemHub.hr_private := false;
     MemHub.hr_description := [];
     MemHub.hr_files := [(lit "bad.bin", [Byte.xff; Byte.xfe])];
     MemHub.hr_issues := [] |}.

Definition binary_sys (requests_left : nat) : Sys MemHub.Hub :=
  {| world := {| MemHub.valid_token := lit "t";
                 MemHub.login := lit "me";
                 MemHub.quota := requests_left;
                 MemHub.repos := [(lit "me/r", binary_repo)] |};
     trace := [] |}.

(** A race: the existence check finds "old.txt", the file is deleted by
    someone else, the update is answered 404, the create succeeds. *)
Definition found_file : ContentFile :=
  MemHub.content_file (lit "me/r") (lit "old.txt") [Byte.x68; Byte.x69].

Definition created_file : WriteResult :=
  MemHub.write_result (lit "me/r") (lit "old.txt") (lit "change")
                      [Byte.x68; Byte.x65; Byte.x6c; Byte.x6c; Byte.x6f].

Definition deleted_in_between : Sys ScriptedHub.Script :=
  {| world :=
       {| ScriptedHub.create_repo_answer :=
            Raise (GithubExc MemHub.unprocessable);
          ScriptedHub.get_repos_answer := Ok [];
          ScriptedHub.get_repo_answer := Ok tt;
          ScriptedHub.create_issue_answer :=
            Raise (GithubExc MemHub.not_found);
          ScriptedHub.get_issues_answer := Ok [];
          ScriptedHub.get_contents_answer := Ok found_file;
          ScriptedHub.update_file_answer :=
            Raise (GithubExc MemHub.not_found);
          ScriptedHub.create_file_answer := Ok created_file |};
     trace := [] |}.

(** Two repositories as the provider lists them, one without a
    description. *)
Definition listed_repos : list RepositoryObj :=
  [ {| r_name := lit "r"; r_html_url := lit "https://github.com/me/r";
       r_private := false; r_description := None |};
    {| r_name := lit "s"; r_html_url := lit "https://github.com/me/s";
       r_private := true; r_description := Some (lit "secret") |} ].

Definition listing (repos : result (list RepositoryObj))
           (issues : result (list IssueObj)) : Sys ScriptedHub.Script :=
  {| world :=
       {| ScriptedHub.create_repo_answer :=
            Raise (GithubExc MemHub.unprocessable);
          ScriptedHub.get_repos_answer := repos;
          ScriptedHub.get_repo_answer := Ok tt;
          ScriptedHub.create_issue_answer :=
            Raise (GithubExc MemHub.not_found);
          ScriptedHub.get_issues_answer := issues;
          ScriptedHub.get_contents_answer :=
            Raise (GithubExc MemHub.not_found);
          ScriptedHub.update_file_answer :=
            Raise (GithubExc MemHub.not_found);
          ScriptedHub.create_file_answer :=
            Raise (GithubExc MemHub.not_found) |};
     trace := [] |}.

Definition closed_issue : IssueObj :=
  {| i_number := 7;
     i_html_url := lit "https://github.com/me/r/issues/7";
     i_title := lit "Bug";
     i_state := lit "closed" |}.

(** An environment without any key, and one with the text key only. *)
Definition empty_env : Env := fun _ => None.

Definition text_only_env : Env :=
  fun name =>
    if str_eqb name AIHelper.GEMINI_API_KEY then Some (lit "env-gemini")
    else None.

Definition text_only_generator : AIHelper.AIDocumentationGenerator :=
  AIHelper.__init__ None text_only_env.

Definition demo_speech_client : AIHelper.ElevenLabs :=
  {| AIHelper.client_api_key := lit "env-speech" |}.

(** A response that stops after its marker. *)
Definition trailing_marker_left : str :=
  Eval cbv in lit "Adds numbers.

".

Definition trailing_marker_right : str :=
  Eval cbv in lit "
   
".

Definition trailing_marker_response : str :=
  Eval cbv in
    trailing_marker_left ++ AIHelper.SUMMARY_MARKER ++ trailing_marker_right.

(** A response without marker and without sentence delimiter. *)
Definition undelimited_response : str :=
  Eval cbv in lit "  Adds two numbers and returns the sum  ".

End Examples.

(* ===================================================================== *)
(** * Facts about the string operations *)
(* ===================================================================== *)

Unset Implicit Arguments.

Module PyStrFacts.
Import PyStr.

Lemma str_eqb_refl (s : str) : str_eqb s s = true.
Proof.
  induction s as [|c s IH]; simpl; [reflexivity|].
  rewrite N.eqb_refl. exact IH.
Qed.

Lemma str_eqb_eq (a b : str) : str_eqb a b = true <-> a = b.
Proof.
  split.
  - revert b. induction a as [|x a IH]; intros [|y b] H; simpl in H;
      try discriminate; [reflexivity|].
    apply andb_true_iff in H. destruct H as [Hxy Hab].
    apply N.eqb_eq in Hxy. subst y. f_equal. apply IH. exact Hab.
  - intros ->. apply str_eqb_refl.
Qed.

Lemma str_eqb_neq (a b : str) : str_eqb a b = false <-> a <> b.
Proof.
  split.
  - intros H E. apply str_eqb_eq in E. congruence.
  - intros H. destruct (str_eqb a b) eqn:E; [|reflexivity].
    apply str_eqb_eq in E. contradiction.
Qed.

(** ** Prefixes *)

Lemma strip_prefix_app (p r : str) : strip_prefix p (p ++ r) = Some r.
Proof.
  induction p as [|a p IH]; simpl; [reflexivity|].
  rewrite N.eqb_refl. exact IH.
Qed.

Lemma strip_prefix_Some (p s r : str) :
  strip_prefix p s = Some r -> s = p ++ r.
Proof.
  revert s. induction p as [|a p IH]; intros s H; simpl in H.
  - injection H as ->. reflexivity.
  - destruct s as [|b s]; [discriminate|].
    destruct (N.eqb_spec a b) as [->|]; [|discriminate].
    simpl. f_equal. apply IH. exact H.
Qed.

Lemma startswith_true (p s : str) :
  startswith p s = true <-> exists r, s = p ++ r.
Proof.
  unfold startswith. split.
  - destruct (strip_prefix p s) as [r|] eqn:E; [|discriminate].
    intros _. exists r. apply strip_prefix_Some. exact E.
  - intros [r ->]. rewrite strip_prefix_app. reflexivity.
Qed.

Lemma startswith_false_None (p s : str) :
  startswith p s = false <-> strip_prefix p s = None.
Proof.
  unfold startswith. destruct (strip_prefix p s); split; congruence.
Qed.

(** ** The leftmost occurrence *)

Lemma find_split_Some (sep s a b : str) :
  find_split sep s = Some (a, b) -> s = a ++ sep ++ b.
Proof.
  revert a. induction s as [|c s IH]; intros a H; simpl in H.
  - destruct (strip_prefix sep []) as [r|] eqn:E; [|discriminate].
    injection H as <- <-. apply strip_prefix_Some in E. exact E.
  - destruct (strip_prefix sep (c :: s)) as [r|] eqn:E.
    + injection H as <- <-. apply strip_prefix_Some in E. exact E.
    + destruct (find_split sep s) as [[a' b']|] eqn:F; [|discriminate].
      injection H as <- <-. simpl. f_equal. apply IH. reflexivity.
Qed.

Lemma find_split_None (sep s : str) :
  find_split sep s = None -> forall a b, s <> a ++ sep ++ b.
Proof.
  induction s as [|c s IH]; intros H a b E; simpl in H.
  - destruct (strip_prefix sep []) eqn:P; [discriminate|].
    destruct a; [|discriminate]. simpl in E.
    rewrite E, strip_prefix_app in P. discriminate.
  - destruct (strip_prefix sep (c :: s)) eqn:P; [discriminate|].
    destruct (find_split sep s) as [[a' b']|] eqn:F; [discriminate|].
    destruct a as [|x a]; simpl in E.
    + rewrite E, strip_prefix_app in P. discriminate.
    + injection E as -> E. exact (IH eq_refl a b E).
Qed.

Lemma find_split_shorter (sep s a b : str) :
  sep <> [] -> find_split sep s = Some (a, b) -> length b < length s.
Proof.
  intros Hsep H. apply find_split_Some in H. subst s.
  rewrite !length_app. destruct sep; [contradiction|]. simpl. lia.
Qed.

(** Occurrences are counted by position, so none means no cut and one at
    least means a cut. *)
Lemma count_zero_find_None (sep s : str) :
  count_occurrences sep s = 0 <-> find_split sep s = None.
Proof.
  induction s as [|c s IH]; simpl.
  - unfold startswith. destruct (strip_prefix sep []); simpl; split;
      congruence.
  - unfold startswith at 1. destruct (strip_prefix sep (c :: s)); simpl.
    + split; [lia | congruence].
    + rewrite IH. destruct (find_split sep s) as [[a b]|]; split;
        congruence.
Qed.

Lemma count_occ_app_ge (sep a b : str) :
  1 <= count_occurrences sep (a ++ sep ++ b).
Proof.
  destruct (count_occurrences sep (a ++ sep ++ b)) eqn:E; [|lia].
  apply count_zero_find_None in E.
  exfalso. exact (find_split_None _ _ E a b eq_refl).
Qed.

(** Two different cut points are two occurrences. *)
Lemma count_occ_two_cuts (sep a b a' b' : str) :
  a ++ sep ++ b = a' ++ sep ++ b' -> length a < length a' ->
  2 <= count_occurrences sep (a ++ sep ++ b).
Proof.
  revert a'. induction a as [|c a IH]; intros a' E L.
  - destruct a' as [|c' a']; [simpl in L; lia|].
    simpl app at 1. simpl app at 1 in E.
    destruct (sep ++ b) as [|x t] eqn:S.
    + discriminate.
    + assert (St : startswith sep (x :: t) = true).
      { apply startswith_true. exists b. symmetry. exact S. }
      simpl. rewrite St. simpl in E. injection E as _ ->.
      pose proof (count_occ_app_ge sep a' b'). lia.
  - destruct a' as [|c' a']; [simpl in L; lia|].
    simpl in E. injection E as _ E. simpl in L.
    specialize (IH a' E ltac:(lia)). simpl.
    destruct (startswith sep (c :: a ++ sep ++ b)); simpl; lia.
Qed.

Lemma cut_unique (sep s a b a' b' : str) :
  count_occurrences sep s = 1 ->
  s = a ++ sep ++ b -> s = a' ++ sep ++ b' -> a = a' /\ b = b'.
Proof.
  intros C E E'.
  assert (L : length a = length a').
  { destruct (Nat.lt_trichotomy (length a) (length a')) as [H|[H|H]];
      [|exact H|].
    - pose proof (@count_occ_two_cuts sep a b a' b') as T.
      rewrite <- E in T. specialize (T E' H). lia.
    - pose proof (@count_occ_two_cuts sep a' b' a b) as T.
      rewrite <- E' in T. specialize (T E H). lia. }
  rewrite E in E'. clear E C.
  revert a' L E'. induction a as [|c a IH]; intros [|c' a'] L E';
    simpl in L; try discriminate.
  - simpl in E'. apply app_inv_head in E'. split; [reflexivity|exact E'].
  - simpl in E'. injection E' as -> E'.
    destruct (IH a' ltac:(lia) E') as [-> ->]. split; reflexivity.
Qed.

Lemma nonempty_cons (l : str) : l <> [] -> exists x t, l = x :: t.
Proof.
  destruct l as [|x t]; [contradiction|]. intros _. exists x, t.
  reflexivity.
Qed.

(** ** Separators that do not overlap themselves *)

Section Borderless.
Variable sep : str.
Hypothesis sep_nonempty : sep <> [].

(** No proper, non-empty suffix of [sep] starts an occurrence of
    [sep], whatever follows. *)
Hypothesis borderless :
  forall k rest, 0 < k < length sep ->
                 startswith sep (skipn k sep ++ rest) = false.

Lemma count_skip_suffix (k : nat) (rest : str) :
  0 < k <= length sep ->
  count_occurrences sep (skipn k sep ++ rest) = count_occurrences sep rest.
Proof.
  intros Hk.
  remember (length sep - k) as d eqn:Hd.
  revert k Hk Hd. induction d as [|d IH]; intros k Hk Hd.
  - assert (k = length sep) by lia. subst k.
    rewrite skipn_all. reflexivity.
  - assert (Hlt : k < length sep) by lia.
    destruct (skipn k sep) as [|c t] eqn:Sk.
    + apply (f_equal (@length _)) in Sk. rewrite length_skipn in Sk.
      simpl in Sk. lia.
    + assert (St : skipn (S k) sep = t).
      { replace (S k) with (1 + k) by lia.
        rewrite <- skipn_skipn, Sk. reflexivity. }
      pose proof (borderless k rest (conj (proj1 Hk) Hlt)) as B.
      rewrite Sk in B. simpl app. simpl count_occurrences.
      simpl app in B. rewrite B. simpl.
      rewrite <- St. apply IH; lia.
Qed.

Lemma count_after_cut (s a b : str) :
  find_split sep s = Some (a, b) ->
  count_occurrences sep s = S (count_occurrences sep b).
Proof.
  destruct (nonempty_cons sep sep_nonempty) as (x & t & Hs).
  assert (Sk : skipn 1 sep = t) by (rewrite Hs; reflexivity).
  revert a. induction s as [|c s IH]; intros a H.
  - simpl in H. destruct (strip_prefix sep []) as [r|] eqn:E;
      [|discriminate].
    apply strip_prefix_Some in E. rewrite Hs in E. discriminate.
  - simpl in H. simpl count_occurrences. unfold startswith at 1.
    destruct (strip_prefix sep (c :: s)) as [r|] eqn:E.
    + injection H as <- <-. apply strip_prefix_Some in E.
      rewrite Hs in E. simpl in E. injection E as -> ->.
      pose proof (@count_skip_suffix 1 r) as K. rewrite Sk in K.
      rewrite K; [reflexivity|].
      rewrite Hs. simpl. lia.
    + destruct (find_split sep s) as [[a' b']|] eqn:F; [|discriminate].
      injection H as <- <-. simpl. f_equal.
      rewrite (IH a' eq_refl). reflexivity.
Qed.

Lemma split_fuel_length (n : nat) (s : str) :
  length s < n ->
  length (split_fuel n sep s) = S (count_occurrences sep s).
Proof.
  revert s. induction n as [|n IH]; intros s L; [lia|].
  simpl. destruct (find_split sep s) as [[a b]|] eqn:F.
  - simpl. rewrite (count_after_cut s a b F). f_equal. apply IH.
    pose proof (find_split_shorter sep s a b sep_nonempty F). lia.
  - apply count_zero_find_None in F. rewrite F. reflexivity.
Qed.

(** [len(s.split(sep))] is one more than the number of occurrences. *)
Lemma split_length (s : str) :
  length (split sep s) = S (count_occurrences sep s).
Proof. apply split_fuel_length. lia. Qed.

(** Exactly one occurrence: the two parts are what stands before and
    what stands after it. *)
Lemma split_one_occurrence (s : str) :
  count_occurrences sep s = 1 ->
  exists a b, s = a ++ sep ++ b /\ split sep s = [a; b].
Proof.
  intros C. unfold split. simpl.
  destruct (find_split sep s) as [[a b]|] eqn:F.
  - exists a, b. split; [apply find_split_Some; exact F|].
    f_equal. pose proof (count_after_cut s a b F) as K.
    assert (Cb : count_occurrences sep b = 0) by lia.
    apply count_zero_find_None in Cb.
    destruct (length s) eqn:Ls.
    + reflexivity.
    + simpl. rewrite Cb. reflexivity.
  - apply count_zero_find_None in F. lia.
Qed.
End Borderless.

End PyStrFacts.

(* ===================================================================== *)
(** * Facts about the repository identifier *)
(* ===================================================================== *)

Module ValidateFacts.
Import PyStr Py GhClient Spec PyStrFacts.

(** ** Cutting at a single character *)

Lemma find_split_char_left (c : char) (s a b : str) :
  find_split [c] s = Some (a, b) -> ~ In c a.
Proof.
  revert a. induction s as [|x s IH]; intros a H; simpl in H.
  - discriminate.
  - destruct (N.eqb_spec c x) as [->|Hne].
    + injection H as <- <-. intros [].
    + destruct (find_split [c] s) as [[a' b']|] eqn:F; [|discriminate].
      injection H as <- <-. intros [E|I]; [congruence|].
      exact (IH a' eq_refl I).
Qed.

Lemma find_split_char_None (c : char) (s : str) :
  find_split [c] s = None <-> ~ In c s.
Proof.
  induction s as [|x s IH]; simpl.
  - split; [intros _ [] | reflexivity].
  - destruct (N.eqb_spec c x) as [->|Hne].
    + split; [discriminate | intros H; exfalso; apply H; left; reflexivity].
    + destruct (find_split [c] s) as [[a b]|].
      * split; [discriminate|]. intros H. exfalso.
        assert (I : In c s).
        { destruct (in_dec N.eq_dec c s) as [I|I]; [exact I|].
          apply IH in I. discriminate. }
        apply H. right. exact I.
      * split; [|reflexivity]. intros _ [E|I]; [congruence|].
        apply (proj1 IH eq_refl). exact I.
Qed.

Lemma find_split_char_app (c : char) (a b : str) :
  ~ In c a -> find_split [c] (a ++ c :: b) = Some (a, b).
Proof.
  induction a as [|x a IH]; intros H; simpl.
  - rewrite N.eqb_refl. reflexivity.
  - destruct (N.eqb_spec c x) as [->|Hne].
    + exfalso. apply H. left. reflexivity.
    + rewrite IH; [reflexivity|]. intros I. apply H. right. exact I.
Qed.

Lemma contains_char (c : char) (s : str) :
  contains [c] s = true <-> In c s.
Proof.
  unfold contains. destruct (find_split [c] s) as [[a b]|] eqn:F.
  - split; [intros _|reflexivity].
    apply find_split_Some in F. subst s. apply in_or_app. right. left.
    reflexivity.
  - split; [discriminate|]. intros I.
    apply find_split_char_None in F. contradiction.
Qed.

(** ** [_validate_repo_name] *)

Lemma split_fuel_S (n : nat) (sep s : str) :
  split_fuel (S n) sep s =
  match find_split sep s with
  | None => [s]
  | Some (a, b) => a :: split_fuel n sep b
  end.
Proof. reflexivity. Qed.

Lemma validate_total (s : str) :
  _validate_repo_name s = Ok tt \/
  _validate_repo_name s = Raise (ValueError invalid_repo_name_message).
Proof.
  unfold _validate_repo_name.
  destruct (negb (truthy s) || negb (contains SLASH s)); [right; reflexivity|].
  destruct (negb (length (split SLASH s) =? 2) ||
            negb (all_truthy (split SLASH s))); [right|left]; reflexivity.
Qed.

Lemma validate_wellformed (s : str) :
  WellFormedRepoId s -> _validate_repo_name s = Ok tt.
Proof.
  intros (owner & name & -> & Ho & Hn & Io & In_).
  unfold _validate_repo_name, SLASH, split. fold slash.
  assert (F : find_split [slash] (owner ++ [slash] ++ name)
              = Some (owner, name)).
  { apply find_split_char_app. exact Io. }
  assert (T : truthy (owner ++ [slash] ++ name) = true).
  { destruct owner; [contradiction|reflexivity]. }
  assert (L : length (owner ++ [slash] ++ name)
              = S (length owner + length name)).
  { rewrite !length_app. simpl. lia. }
  apply find_split_char_None in In_.
  unfold contains. rewrite T, L, split_fuel_S, F. cbv beta iota.
  rewrite split_fuel_S, In_.
  destruct owner; [contradiction|]. destruct name; [contradiction|].
  reflexivity.
Qed.

Lemma validate_ok_wellformed (s : str) :
  _validate_repo_name s = Ok tt -> WellFormedRepoId s.
Proof.
  unfold _validate_repo_name, SLASH, split, contains. fold slash.
  rewrite split_fuel_S.
  destruct (find_split [slash] s) as [[a b]|] eqn:F.
  2:{ rewrite orb_true_r. discriminate. }
  pose proof (find_split_Some _ _ _ _ F) as E.
  assert (L : exists n, length s = S n).
  { rewrite E, !length_app. simpl. eexists. rewrite Nat.add_succ_r.
    reflexivity. }
  destruct L as [n L]. rewrite L, split_fuel_S.
  destruct (truthy s) eqn:T; [|discriminate].
  destruct (find_split [slash] b) as [[a' b']|] eqn:Fb.
  - destruct n as [|n]; simpl;
      [|destruct (find_split [slash] b') as [[? ?]|]; simpl];
      intros H; discriminate H.
  - intros H. exists a, b. split; [exact E|].
    destruct a as [|x a]; [simpl in H; discriminate H|].
    destruct b as [|y b]; [simpl in H; discriminate H|].
    repeat split; try discriminate.
    + apply (find_split_char_left _ _ _ _ F).
    + apply find_split_char_None. exact Fb.
Qed.

Lemma validate_ok_iff (s : str) :
  _validate_repo_name s = Ok tt <-> WellFormedRepoId s.
Proof.
  split; [apply validate_ok_wellformed | apply validate_wellformed].
Qed.

Lemma malformed_not_wellformed (s : str) :
  MalformedRepoId s -> ~ WellFormedRepoId s.
Proof.
  intros M (owner & name & E & Ho & Hn & Io & In_).
  destruct M as [M|[M|[M|[M|M]]]].
  - subst s. destruct owner; discriminate.
  - apply M. rewrite E. apply in_or_app. right. left. reflexivity.
  - destruct M as [rest M]. rewrite M in E.
    destruct owner as [|x owner]; [contradiction|].
    injection E as <- _. apply Io. left. reflexivity.
  - destruct M as [front M]. rewrite M in E.
    apply (f_equal (@rev _)) in E. rewrite !rev_app_distr in E.
    simpl in E. apply In_. apply in_rev.
    destruct (rev name) as [|y r] eqn:R.
    + apply (f_equal (@rev _)) in R. rewrite rev_involutive in R.
      contradiction.
    + simpl in E. injection E as <- _. left. reflexivity.
  - rewrite E in M. rewrite !count_occ_app in M. simpl in M.
    destruct (N.eq_dec slash slash) as [_|N]; [|contradiction].
    rewrite (proj1 (count_occ_not_In N.eq_dec owner slash) Io) in M.
    rewrite (proj1 (count_occ_not_In N.eq_dec name slash) In_) in M.
    lia.
Qed.

(** The list of the specification leaves nothing out. *)
Lemma not_wellformed_malformed (s : str) :
  ~ WellFormedRepoId s -> MalformedRepoId s.
Proof.
  intros NW. unfold MalformedRepoId.
  destruct (in_dec N.eq_dec slash s) as [I|I]; [|right; left; exact I].
  destruct (find_split [slash] s) as [[a b]|] eqn:F.
  2:{ apply find_split_char_None in F. contradiction. }
  pose proof (find_split_Some _ _ _ _ F) as E.
  pose proof (find_split_char_left _ _ _ _ F) as Ia.
  destruct a as [|x a].
  - right. right. left. exists b. exact E.
  - destruct (in_dec N.eq_dec slash b) as [Ib|Ib].
    + right. right. right. right. rewrite E. rewrite !count_occ_app.
      simpl count_occ at 2.
      destruct (N.eq_dec slash slash) as [_|N]; [|contradiction].
      apply (count_occ_In N.eq_dec) in Ib. lia.
    + destruct b as [|y b].
      * right. right. right. left. exists (x :: a). exact E.
      * exfalso. apply NW. exists (x :: a), (y :: b).
        repeat split; try discriminate; assumption.
Qed.

Lemma validate_malformed (s : str) :
  MalformedRepoId s ->
  _validate_repo_name s = Raise (ValueError invalid_repo_name_message).
Proof.
  intros M. destruct (validate_total s) as [H|H]; [|exact H].
  apply validate_ok_wellformed in H.
  exfalso. exact (malformed_not_wellformed s M H).
Qed.

End ValidateFacts.

(* ===================================================================== *)
(** * Facts about the repository client *)
(* ===================================================================== *)

Module GhClientFacts.
Import PyStr Py Provider GhClient Spec PyStrFacts ValidateFacts.

(** Running one request whose answer is known. *)
Lemma request_run {W A : Type} (c : call) (op : W -> result A * W)
      (st : Sys W) (r : result A) (w' : W) :
  op (world st) = (r, w') ->
  request c op st = (r, {| world := w'; trace := trace st ++ [c] |}).
Proof. unfold request. intros ->. reflexivity. Qed.

Ltac run_request H :=
  erewrite request_run by (simpl; exact H); cbv beta iota; simpl world;
  simpl trace.

Ltac open_method :=
  unfold create_issue, list_issues, commit_file, read_file, create_repo,
    check_then_write, try_except, bind, lift, ret, raise,
    except_GithubException.

Ltac tidy_trace := simpl; rewrite <- ?app_assoc; simpl; try reflexivity.

Section Client.
Context {W : Type} {api : GithubAPI W}.
Variable self : GitHubClient.

(** C2. A malformed repository identifier makes [create_issue],
    [list_issues], [commit_file] and [read_file] raise the [ValueError]
    of the validation and leave the state as it was: no request is
    recorded and the service is not touched.  An identifier of the form
    owner/name with both segments non-empty passes the validation. *)
Theorem malformed_repo_id_rejected_before_any_request
        (repo_full_name title body state path content message : str)
        (st : Sys W) :
  (MalformedRepoId repo_full_name ->
     create_issue self repo_full_name title body st
       = (Raise (ValueError invalid_repo_name_message), st) /\
     list_issues self repo_full_name state st
       = (Raise (ValueError invalid_repo_name_message), st) /\
     commit_file self repo_full_name path content message st
       = (Raise (ValueError invalid_repo_name_message), st) /\
     read_file self repo_full_name path st
       = (Raise (ValueError invalid_repo_name_message), st))
  /\
  (WellFormedRepoId repo_full_name ->
     _validate_repo_name repo_full_name = Ok tt).
Proof.
  split.
  - intros M. apply validate_malformed in M.
    repeat split; open_method; rewrite M; reflexivity.
  - apply validate_wellformed.
Qed.

(** C1. With a well-formed identifier and the repository found,
    [commit_file] first asks for the current file.  When that check
    answers 404, the next and last request is a create, and when the
    create succeeds the record says "created".  When the check finds the
    file, the next request is an update carrying the hash the check
    returned, and when the update succeeds it is the last request and
    the record says "updated". *)
Theorem commit_file_creates_or_updates
        (repo_full_name path content message : str) (st : Sys W)
        (repo : Repository) (w1 : W) :
  WellFormedRepoId repo_full_name ->
  github_get_repo (token self) repo_full_name (world st) = (Ok repo, w1) ->
  (forall e w2,
      repo_get_contents (token self) repo path w1
        = (Raise (GithubExc e), w2) ->
      status e = 404%Z ->
      trace (snd (commit_file self repo_full_name path content message st))
        = trace st ++
            [GetRepo (token self) repo_full_name;
             GetContents (token self) repo_full_name path;
             CreateFile (token self) repo_full_name path message content]
      /\
      forall result w3,
        repo_create_file (token self) repo path message content w2
          = (Ok result, w3) ->
        commit_file self repo_full_name path content message st =
          (Ok {| commit_sha := c_sha (wr_commit result);
                 commit_url := cf_html_url (wr_content result);
                 action := lit "created";
                 commit_path := path |},
           {| world := w3;
              trace := trace st ++
                [GetRepo (token self) repo_full_name;
                 GetContents (token self) repo_full_name path;
                 CreateFile (token self) repo_full_name path message
                            content] |}))
  /\
  (forall existing_file w2,
      repo_get_contents (token self) repo path w1
        = (Ok existing_file, w2) ->
      (exists rest,
          trace (snd (commit_file self repo_full_name path content message
                                  st))
          = trace st ++
              [GetRepo (token self) repo_full_name;
               GetContents (token self) repo_full_name path;
               UpdateFile (token self) repo_full_name path message content
                          (cf_sha existing_file)] ++ rest)
      /\
      forall result w3,
        repo_update_file (token self) repo path message content
                         (cf_sha existing_file) w2 = (Ok result, w3) ->
        commit_file self repo_full_name path content message st =
          (Ok {| commit_sha := c_sha (wr_commit result);
                 commit_url := cf_html_url (wr_content result);
                 action := lit "updated";
                 commit_path := path |},
           {| world := w3;
              trace := trace st ++
                [GetRepo (token self) repo_full_name;
                 GetContents (token self) repo_full_name path;
                 UpdateFile (token self) repo_full_name path message content
                            (cf_sha existing_file)] |})).
Proof.
  intros WF Hrepo. apply validate_wellformed in WF. split.
  - intros e w2 Hcheck H404. split.
    + open_method. rewrite WF. run_request Hrepo. run_request Hcheck.
      rewrite H404. simpl. unfold request. simpl.
      destruct (repo_create_file (token self) repo path message content w2)
        as [[result|e'] w3]; [|destruct e']; tidy_trace.
    + intros result w3 Hcreate.
      open_method. rewrite WF. run_request Hrepo. run_request Hcheck.
      rewrite H404. simpl. run_request Hcreate. tidy_trace.
  - intros existing_file w2 Hcheck. split.
    + open_method. rewrite WF. run_request Hrepo. run_request Hcheck.
      unfold request. simpl.
      destruct (repo_update_file (token self) repo path message content
                                 (cf_sha existing_file) w2)
        as [[result|e'] w3].
      * exists []. tidy_trace.
      * destruct e' as [m|g|m|m|cls m]; try solve [exists []; tidy_trace].
        simpl. destruct (status g =? 404)%Z.
        -- exists [CreateFile (token self) repo_full_name path message
                              content].
           simpl.
           destruct (repo_create_file (token self) repo path message content
                                      w3)
             as [[result|e'] w4]; [|destruct e']; tidy_trace.
        -- exists []. tidy_trace.
    + intros result w3 Hupdate.
      open_method. rewrite WF. run_request Hrepo. run_request Hcheck.
      run_request Hupdate. tidy_trace.
Qed.

(** C7, as the code has it.  When the existence check fails with a
    status other than 404, the inner block re-raises that exception
    unchanged and sends no write; [commit_file] then hands the caller an
    [Exception] whose message is "Failed to commit file: " followed by
    the provider's message. *)
Theorem commit_file_wraps_existence_check_failure
        (repo_full_name path content message : str) (st : Sys W)
        (repo : Repository) (w1 w2 : W) (e : GithubException) :
  WellFormedRepoId repo_full_name ->
  github_get_repo (token self) repo_full_name (world st) = (Ok repo, w1) ->
  repo_get_contents (token self) repo path w1 = (Raise (GithubExc e), w2) ->
  status e <> 404%Z ->
  (forall t,
      check_then_write self repo repo_full_name path content message
                       {| world := w1; trace := t |}
      = (Raise (GithubExc e),
         {| world := w2;
            trace := t ++ [GetContents (token self) repo_full_name
                                       path] |}))
  /\
  commit_file self repo_full_name path content message st =
    (Raise (Exception (lit "Failed to commit file: "
                       ++ provider_message e)),
     {| world := w2;
        trace := trace st ++
          [GetRepo (token self) repo_full_name;
           GetContents (token self) repo_full_name path] |}).
Proof.
  intros WF Hrepo Hcheck Hne. apply validate_wellformed in WF.
  apply Z.eqb_neq in Hne. split.
  - intros t. open_method. run_request Hcheck. rewrite Hne. reflexivity.
  - open_method. rewrite WF. run_request Hrepo. run_request Hcheck.
    rewrite Hne. tidy_trace.
Qed.

(** C10. In [read_file] a [GithubException] with status 404 gives the
    message "File not found: " followed by the path, whether it comes
    from the repository lookup or from the file lookup; any other
    status gives "Failed to read file: " followed by the provider's
    message.  The two messages are never equal. *)
Theorem read_file_failure_messages
        (repo_full_name path : str) (st : Sys W) :
  WellFormedRepoId repo_full_name ->
  (forall e w1,
      github_get_repo (token self) repo_full_name (world st)
        = (Raise (GithubExc e), w1) ->
      read_file self repo_full_name path st =
        (Raise (Exception
                  (if (status e =? 404)%Z
                   then lit "File not found: " ++ path
                   else lit "Failed to read file: " ++ provider_message e)),
         {| world := w1;
            trace := trace st ++ [GetRepo (token self) repo_full_name] |}))
  /\
  (forall repo w1 e w2,
      github_get_repo (token self) repo_full_name (world st)
        = (Ok repo, w1) ->
      repo_get_contents (token self) repo path w1
        = (Raise (GithubExc e), w2) ->
      read_file self repo_full_name path st =
        (Raise (Exception
                  (if (status e =? 404)%Z
                   then lit "File not found: " ++ path
                   else lit "Failed to read file: " ++ provider_message e)),
         {| world := w2;
            trace := trace st ++
              [GetRepo (token self) repo_full_name;
               GetContents (token self) repo_full_name path] |}))
  /\
  (forall m, lit "File not found: " ++ path
             <> lit "Failed to read file: " ++ m).
Proof.
  intros WF. apply validate_wellformed in WF. repeat split.
  - intros e w1 Hrepo. open_method. rewrite WF. run_request Hrepo.
    destruct (status e =? 404)%Z; reflexivity.
  - intros repo w1 e w2 Hrepo Hfile. open_method. rewrite WF.
    run_request Hrepo. run_request Hfile.
    destruct (status e =? 404)%Z; tidy_trace.
  - intros m. simpl. discriminate.
Qed.

(** [create_repo] sends one request, which carries
    the [private] argument it was given, and the record repeats the
    visibility the provider reports. *)
Lemma create_repo_forwards_private
      (name description : str) (private : bool) (st : Sys W) :
  trace (snd (create_repo self name private description st))
    = trace st ++ [CreateRepo (token self) name private description true]
  /\
  (forall repo w',
      user_create_repo (token self) name private description true
                       (world st) = (Ok repo, w') ->
      create_repo self name private description st =
        (Ok {| repo_name := r_name repo;
               repo_url := r_html_url repo;
               repo_private := r_private repo;
               repo_description := r_description repo |},
         {| world := w';
            trace := trace st ++
              [CreateRepo (token self) name private description true] |})).
Proof.
  split.
  - open_method. unfold request.
    destruct (user_create_repo (token self) name private description true
                               (world st)) as [[repo|e] w'];
      [reflexivity|].
    destruct e; reflexivity.
  - intros repo w' H. open_method. run_request H. reflexivity.
Qed.
End Client.

End GhClientFacts.

(** ** The client on the in-memory hub *)

Module GhClientExamples.
Import PyStr Py Provider GhClient Spec PyStrFacts ValidateFacts.
Import GhClientFacts MemHub Examples.

Lemma me_r_wellformed : WellFormedRepoId (lit "me/r").
Proof.
  exists (lit "me"), (lit "r").
  repeat split; try discriminate; simpl; intuition discriminate.
Defined.

Lemma malformed_repo_id_rejected_before_any_request_witness :
  (create_issue demo_client (lit "a/b/c") (lit "title") [] (demo_sys 5)
     = (Raise (ValueError invalid_repo_name_message), demo_sys 5) /\
   list_issues demo_client (lit "a/b/c") (lit "open") (demo_sys 5)
     = (Raise (ValueError invalid_repo_name_message), demo_sys 5) /\
   commit_file demo_client (lit "a/b/c") (lit "f") (lit "x") (lit "m")
               (demo_sys 5)
     = (Raise (ValueError invalid_repo_name_message), demo_sys 5) /\
   read_file demo_client (lit "a/b/c") (lit "f") (demo_sys 5)
     = (Raise (ValueError invalid_repo_name_message), demo_sys 5))
  /\ _validate_repo_name (lit "me/r") = Ok tt.
Proof.
  split.
  - apply (proj1 (@malformed_repo_id_rejected_before_any_request Hub api
                    demo_client (lit "a/b/c") (lit "title") [] (lit "open")
                    (lit "f") (lit "x") (lit "m") (demo_sys 5))).
    right. right. right. right. vm_compute. apply le_n.
  - apply (proj2 (@malformed_repo_id_rejected_before_any_request Hub api
                    demo_client (lit "me/r") [] [] [] [] [] []
                    (demo_sys 5))).
    exact me_r_wellformed.
Defined.

Lemma commit_file_creates_or_updates_witness :
  (exists r s,
      commit_file demo_client (lit "me/r") (lit "new.txt") (lit "hello")
                  (lit "add") (demo_sys 5) = (Ok r, s)
      /\ action r = lit "created"
      /\ trace s = [GetRepo (lit "t") (lit "me/r");
                    GetContents (lit "t") (lit "me/r") (lit "new.txt");
                    CreateFile (lit "t") (lit "me/r") (lit "new.txt")
                               (lit "add") (lit "hello")])
  /\
  (exists r s,
      commit_file demo_client (lit "me/r") (lit "old.txt") (lit "hello")
                  (lit "change") (demo_sys 5) = (Ok r, s)
      /\ action r = lit "updated"
      /\ trace s = [GetRepo (lit "t") (lit "me/r");
                    GetContents (lit "t") (lit "me/r") (lit "old.txt");
                    UpdateFile (lit "t") (lit "me/r") (lit "old.txt")
                               (lit "change") (lit "hello")
                               (blob_sha [Byte.x68; Byte.x69])]).
Proof.
  split.
  - eexists. eexists. split.
    { eapply (proj2 (proj1 (@commit_file_creates_or_updates Hub api
                       demo_client (lit "me/r") (lit "new.txt") (lit "hello")
                       (lit "add") (demo_sys 5) (lit "me/r") (demo_hub 4)
                       me_r_wellformed eq_refl)
                    not_found (demo_hub 3) eq_refl eq_refl));
        reflexivity. }
    split; reflexivity.
  - eexists. eexists. split.
    { eapply (proj2 (proj2 (@commit_file_creates_or_updates Hub api
                       demo_client (lit "me/r") (lit "old.txt") (lit "hello")
                       (lit "change") (demo_sys 5) (lit "me/r") (demo_hub 4)
                       me_r_wellformed eq_refl)
                    (content_file (lit "me/r") (lit "old.txt")
                                  [Byte.x68; Byte.x69])
                    (demo_hub 3) eq_refl));
        reflexivity. }
    split; reflexivity.
Defined.

(** With one request left, the lookup passes and the existence check is
    refused with status 403. *)
Lemma commit_file_wraps_existence_check_failure_witness :
  commit_file demo_client (lit "me/r") (lit "old.txt") (lit "hello")
              (lit "change") (demo_sys 1) =
    (Raise (Exception (lit "Failed to commit file: API rate limit exceeded")),
     {| world := demo_hub 0;
        trace := [GetRepo (lit "t") (lit "me/r");
                  GetContents (lit "t") (lit "me/r") (lit "old.txt")] |}).
Proof.
  apply (proj2 (@commit_file_wraps_existence_check_failure Hub api
                  demo_client (lit "me/r") (lit "old.txt") (lit "hello")
                  (lit "change") (demo_sys 1) (lit "me/r") (demo_hub 0)
                  (demo_hub 0) rate_limited
                  me_r_wellformed eq_refl eq_refl
                  ltac:(discriminate))).
Defined.

(** The existence check fails with the 403 exception of the hub, and
    what [commit_file] raises is not that exception. *)
Lemma commit_file_existence_check_failure_not_unchanged :
  let check := repo_get_contents (lit "t") (lit "me/r") (lit "old.txt")
                                 (demo_hub 0) in
  let outcome := commit_file demo_client (lit "me/r") (lit "old.txt")
                             (lit "hello") (lit "change") (demo_sys 1) in
  fst check = Raise (GithubExc rate_limited) /\
  status rate_limited <> 404%Z /\
  fst outcome
    = Raise (Exception
               (lit "Failed to commit file: API rate limit exceeded")) /\
  fst outcome <> Raise (GithubExc rate_limited).
Proof.
  split; [reflexivity|]. split; [discriminate|].
  split; [reflexivity | discriminate].
Qed.

Lemma read_file_failure_messages_witness :
  read_file demo_client (lit "me/x") (lit "old.txt") (demo_sys 5) =
    (Raise (Exception (lit "File not found: old.txt")),
     {| world := demo_hub 4; trace := [GetRepo (lit "t") (lit "me/x")] |})
  /\
  read_file demo_client (lit "me/r") (lit "new.txt") (demo_sys 5) =
    (Raise (Exception (lit "File not found: new.txt")),
     {| world := demo_hub 3;
        trace := [GetRepo (lit "t") (lit "me/r");
                  GetContents (lit "t") (lit "me/r") (lit "new.txt")] |})
  /\
  read_file demo_client (lit "me/r") (lit "old.txt") (demo_sys 1) =
    (Raise (Exception (lit "Failed to read file: API rate limit exceeded")),
     {| world := demo_hub 0;
        trace := [GetRepo (lit "t") (lit "me/r");
                  GetContents (lit "t") (lit "me/r") (lit "old.txt")] |}).
Proof.
  assert (WX : WellFormedRepoId (lit "me/x")).
  { exists (lit "me"), (lit "x").
    repeat split; try discriminate; simpl; intuition discriminate. }
  split; [|split].
  - apply (proj1 (@read_file_failure_messages Hub api
                    demo_client (lit "me/x") (lit "old.txt") (demo_sys 5) WX)
                 not_found (demo_hub 4) eq_refl).
  - apply (proj1 (proj2 (@read_file_failure_messages Hub api
                    demo_client (lit "me/r") (lit "new.txt") (demo_sys 5)
                    me_r_wellformed))
                 (lit "me/r") (demo_hub 4) not_found (demo_hub 3)
                 eq_refl eq_refl).
  - apply (proj1 (proj2 (@read_file_failure_messages Hub api
                    demo_client (lit "me/r") (lit "old.txt") (demo_sys 1)
                    me_r_wellformed))
                 (lit "me/r") (demo_hub 0) rate_limited (demo_hub 0)
                 eq_refl eq_refl).
Defined.

End GhClientExamples.

(* ===================================================================== *)
(** * Facts about credentials and the create-repository handler *)
(* ===================================================================== *)

Module AppFacts.
Import PyStr Py Provider Spec PyStrFacts GhClientFacts.

Lemma py_or_truthy (s : str) (b : option str) :
  truthy s = true -> py_or (Some s) b = Some s.
Proof. unfold py_or. intros ->. reflexivity. Qed.

(** The constructor of the client raises nothing but [ValueError], so
    [get_github_client] answers a client or [None]. *)
Lemma get_github_client_cases (token : option str) (env : Env) :
  App.get_github_client token env = Ok None \/
  exists client, App.get_github_client token env = Ok (Some client).
Proof.
  unfold App.get_github_client, GhClient.__init__.
  destruct (py_or token (env GhClient.GITHUB_TOKEN)) as [t|];
    [|left; reflexivity].
  destruct (truthy t); [right; eexists; reflexivity | left; reflexivity].
Qed.

(** C8, as the code has it.  A non-empty token given to [GitHubClient]
    and a non-empty key given to [AIDocumentationGenerator] are used in
    place of GITHUB_TOKEN and GEMINI_API_KEY; without one, the
    environment's value is used.  The speech key is read from
    ELEVENLABS_API_KEY whatever credential is given. *)
Theorem explicit_credentials_take_precedence
        (explicit : str) (given : option str) (env : Env) :
  truthy explicit = true ->
  GhClient.__init__ (Some explicit) env
    = Ok {| GhClient.token := explicit |} /\
  AIHelper.gemini_key (AIHelper.__init__ (Some explicit) env)
    = Some explicit /\
  AIHelper.gemini_model (AIHelper.__init__ (Some explicit) env)
    = Some {| AIHelper.model_api_key := explicit;
              AIHelper.model_name := AIHelper.GEMINI_MODEL |} /\
  AIHelper.gemini_key (AIHelper.__init__ None env)
    = env AIHelper.GEMINI_API_KEY /\
  AIHelper.elevenlabs_key (AIHelper.__init__ given env)
    = env AIHelper.ELEVENLABS_API_KEY /\
  AIHelper.elevenlabs_client (AIHelper.__init__ given env)
    = match AIHelper.configured (env AIHelper.ELEVENLABS_API_KEY) with
      | Some k => Some {| AIHelper.client_api_key := k |}
      | None => None
      end.
Proof.
  intros T. unfold GhClient.__init__, AIHelper.__init__.
  rewrite !(py_or_truthy explicit _ T). simpl. rewrite T.
  repeat split; reflexivity.
Qed.

Lemma explicit_credentials_take_precedence_witness :
  GhClient.__init__ (Some (lit "user-key")) Examples.demo_env
    = Ok {| GhClient.token := lit "user-key" |} /\
  AIHelper.gemini_key (AIHelper.__init__ (Some (lit "user-key"))
                                         Examples.demo_env)
    = Some (lit "user-key") /\
  AIHelper.elevenlabs_key (AIHelper.__init__ (Some (lit "user-key"))
                                             Examples.demo_env)
    = Some (lit "env-speech").
Proof.
  pose proof (explicit_credentials_take_precedence
                (lit "user-key") (Some (lit "user-key")) Examples.demo_env
                eq_refl) as (H1 & H2 & _ & _ & H5 & _).
  split; [exact H1|]. split; [exact H2|]. exact H5.
Defined.

(** The generator built with the explicit credential "user-key" still
    holds the environment's speech key. *)
Lemma speech_key_not_overridable :
  let g := AIHelper.__init__ (Some (lit "user-key")) Examples.demo_env in
  AIHelper.elevenlabs_key g = Some (lit "env-speech") /\
  AIHelper.elevenlabs_key g <> Some (lit "user-key") /\
  AIHelper.elevenlabs_client g
    = Some {| AIHelper.client_api_key := lit "env-speech" |}.
Proof.
  split; [reflexivity|]. split; [discriminate | reflexivity].
Qed.

Section Handler.
Context {W : Type} {api : GithubAPI W}.

(** C5, as the code has it.  The handler [mcp_create_repo] has no
    visibility parameter: either no client could be built and it
    answers the error record without a request, or it sends one
    create request with [private = False].  [create_repo] itself sends
    the [private] argument it is given.  In both the record repeats
    the flag of the repository the provider returns. *)
Theorem create_repo_visibility
        (env : Env) (self : GhClient.GitHubClient)
        (name description : str) (private : bool) (token : option str)
        (st : Sys W) :
  ((App.get_github_client token env = Ok None /\
    App.mcp_create_repo env name description token st
      = (Ok (App.ErrorRecord App.token_not_configured), st))
   \/
   (exists client,
       App.get_github_client token env = Ok (Some client) /\
       trace (snd (App.mcp_create_repo env name description token st))
         = trace st ++
             [CreateRepo (GhClient.token client) name false description
                         true] /\
       forall repo w',
         user_create_repo (GhClient.token client) name false description
                          true (world st) = (Ok repo, w') ->
         fst (App.mcp_create_repo env name description token st)
           = Ok (App.Payload
                   {| GhClient.repo_name := r_name repo;
                      GhClient.repo_url := r_html_url repo;
                      GhClient.repo_private := r_private repo;
                      GhClient.repo_description := r_description repo |})))
  /\
  trace (snd (GhClient.create_repo self name private description st))
    = trace st ++
        [CreateRepo (GhClient.token self) name private description true]
  /\
  (forall repo w',
      user_create_repo (GhClient.token self) name private description true
                       (world st) = (Ok repo, w') ->
      fst (GhClient.create_repo self name private description st)
        = Ok {| GhClient.repo_name := r_name repo;
                GhClient.repo_url := r_html_url repo;
                GhClient.repo_private := r_private repo;
                GhClient.repo_description := r_description repo |}).
Proof.
  split; [|split].
  - unfold App.mcp_create_repo, App.with_client.
    destruct (get_github_client_cases token env) as [E|[client E]].
    + left. split; [exact E|]. unfold bind, lift. rewrite E. reflexivity.
    + right. exists client. split; [exact E|].
      destruct (create_repo_forwards_private client name description false
                                             st) as [T R].
      unfold bind, lift, ret. rewrite E. split.
      * destruct (GhClient.create_repo client name false description st)
          as [[r|e] s'] eqn:C; simpl in T |- *; exact T.
      * intros repo w' H. rewrite (R repo w' H). reflexivity.
  - apply create_repo_forwards_private.
  - intros repo w' H.
    rewrite (proj2 (create_repo_forwards_private self name description
                                                 private st) repo w' H).
    reflexivity.
Qed.
End Handler.

Import MemHub Examples.

Lemma create_repo_visibility_witness :
  fst (App.mcp_create_repo demo_env (lit "demo") (lit "desc")
                           (Some (lit "t")) (demo_sys 5))
    = Ok (App.Payload
            {| GhClient.repo_name := lit "demo";
               GhClient.repo_url := lit "https://github.com/me/demo";
               GhClient.repo_private := false;
               GhClient.repo_description := Some (lit "desc") |}).
Proof.
  destruct (@create_repo_visibility Hub api demo_env demo_client
              (lit "demo") (lit "desc") true (Some (lit "t")) (demo_sys 5))
    as [[[E _]|(client & E & _ & R)] _].
  - discriminate E.
  - injection E as <-. exact (R _ _ eq_refl).
Defined.

(** A call of [create_repo] with [private = True]: the request asks for
    a private repository and the record says so. *)
Lemma create_repo_private_request :
  let outcome := GhClient.create_repo demo_client (lit "demo") true
                                      (lit "desc") (demo_sys 5) in
  trace (snd outcome)
    = [CreateRepo (lit "t") (lit "demo") true (lit "desc") true] /\
  exists record,
    fst outcome = Ok record /\ GhClient.repo_private record = true.
Proof.
  split; [reflexivity|]. eexists. split; reflexivity.
Qed.

End AppFacts.

(* ===================================================================== *)
(** * Facts about trimming, lines and sentence fragments *)
(* ===================================================================== *)

Module TextFacts.
Import PyStr Py Spec PyStrFacts ValidateFacts.

(** ** [strip] *)

Lemma lstrip_head (s t : str) (c : char) :
  lstrip s = c :: t -> isspace c = false.
Proof.
  induction s as [|x s IH]; simpl; [discriminate|].
  destruct (isspace x) eqn:E; [exact IH|].
  intros H. injection H as <- _. exact E.
Qed.

Lemma lstrip_fixed (s : str) (c : char) :
  isspace c = false -> lstrip (c :: s) = c :: s.
Proof. intros E. simpl. rewrite E. reflexivity. Qed.

Lemma lstrip_idempotent (s : str) : lstrip (lstrip s) = lstrip s.
Proof.
  destruct (lstrip s) as [|c t] eqn:E; [reflexivity|].
  apply lstrip_fixed. exact (lstrip_head s t c E).
Qed.

Lemma lstrip_snoc (s : str) (c : char) :
  isspace c = false -> lstrip (s ++ [c]) = lstrip s ++ [c].
Proof.
  intros E. induction s as [|x s IH]; simpl.
  - rewrite E. reflexivity.
  - destruct (isspace x); [exact IH | reflexivity].
Qed.

Lemma strip_idempotent (s : str) : strip (strip s) = strip s.
Proof.
  unfold strip, rstrip.
  destruct (lstrip s) as [|c t] eqn:E; [reflexivity|].
  pose proof (lstrip_head s t c E) as Hc.
  assert (K : rev (lstrip (rev (c :: t))) = c :: rev (lstrip (rev t))).
  { simpl. rewrite (lstrip_snoc _ c Hc), rev_app_distr. reflexivity. }
  rewrite K, (lstrip_fixed _ c Hc).
  change (rev (c :: rev (lstrip (rev t))))
    with (rev (rev (lstrip (rev t))) ++ [c]).
  rewrite rev_involutive, (lstrip_snoc _ c Hc), lstrip_idempotent,
    rev_app_distr.
  reflexivity.
Qed.

Lemma In_lstrip (s : str) (c : char) : In c (lstrip s) -> In c s.
Proof.
  induction s as [|x s IH]; simpl; [tauto|].
  destruct (isspace x); [intros H; right; exact (IH H) | tauto].
Qed.

Lemma In_strip (s : str) (c : char) : In c (strip s) -> In c s.
Proof.
  unfold strip, rstrip. intros H.
  apply in_rev, In_lstrip, in_rev in H. apply In_lstrip. exact H.
Qed.

(** ** Cutting at characters *)

Lemma cut_at_nonempty (p : char -> bool) (s : str) : cut_at p s <> [].
Proof.
  destruct s as [|c s]; simpl; [discriminate|].
  destruct (p c); [discriminate|].
  destruct (cut_at p s); discriminate.
Qed.

Lemma cut_at_pieces (p : char -> bool) (s piece : str) (c : char) :
  In piece (cut_at p s) -> In c piece -> p c = false.
Proof.
  revert piece. induction s as [|x s IH]; intros piece; simpl.
  - intros [<-|[]] [].
  - destruct (p x) eqn:Px.
    + intros [<-|H]; [intros []|]. apply IH. exact H.
    + destruct (cut_at p s) as [|q qs] eqn:C.
      * intros [<-|[]] [<-|[]]. exact Px.
      * intros [<-|H].
        -- intros [<-|I]; [exact Px|]. apply (IH q); [left; reflexivity|].
           exact I.
        -- apply IH. right. exact H.
Qed.

Lemma cut_at_no_cut (c : char) (s : str) :
  ~ In c s -> cut_at (N.eqb c) s = [s].
Proof.
  induction s as [|x s IH]; intros H; simpl; [reflexivity|].
  destruct (N.eqb_spec c x) as [->|Hne].
  - exfalso. apply H. left. reflexivity.
  - rewrite IH; [reflexivity|]. intros I. apply H. right. exact I.
Qed.

Lemma cut_at_first_cut (c : char) (a b : str) :
  ~ In c a -> cut_at (N.eqb c) (a ++ c :: b) = a :: cut_at (N.eqb c) b.
Proof.
  induction a as [|x a IH]; intros H; simpl.
  - rewrite N.eqb_refl. reflexivity.
  - destruct (N.eqb_spec c x) as [->|Hne].
    + exfalso. apply H. left. reflexivity.
    + rewrite IH; [reflexivity|]. intros I. apply H. right. exact I.
Qed.

Lemma split_fuel_char (n : nat) (c : char) (s : str) :
  length s < n -> split_fuel n [c] s = cut_at (N.eqb c) s.
Proof.
  revert s. induction n as [|n IH]; intros s L; [lia|].
  rewrite split_fuel_S.
  destruct (find_split [c] s) as [[a b]|] eqn:F.
  - pose proof (find_split_Some _ _ _ _ F) as E.
    pose proof (find_split_char_left _ _ _ _ F) as Ia.
    rewrite E. simpl app.
    rewrite (cut_at_first_cut c a b Ia). f_equal. apply IH.
    rewrite E, !length_app in L. simpl in L. lia.
  - apply find_split_char_None in F. symmetry.
    apply cut_at_no_cut. exact F.
Qed.

(** [s.split("\n")] gives the lines of [s]. *)
Lemma split_newline_lines (s : str) : split [newline] s = lines s.
Proof. apply split_fuel_char. lia. Qed.

(** ** [replace] and [join] *)

Lemma split_fuel_nonempty (n : nat) (sep s : str) : split_fuel n sep s <> [].
Proof.
  destruct n; simpl; [discriminate|].
  destruct (find_split sep s) as [[a b]|]; discriminate.
Qed.

Lemma join_cons (sep x : str) (l : list str) :
  l <> [] -> join sep (x :: l) = x ++ sep ++ join sep l.
Proof. destruct l; [contradiction | reflexivity]. Qed.

(** [s.replace(old, new)] is [new.join(s.split(old))]. *)
Lemma replace_join_split (old new s : str) :
  replace old new s = join new (split old s).
Proof.
  unfold replace, split. generalize (S (length s)) as n. intros n.
  revert s. induction n as [|n IH]; intros s; simpl; [reflexivity|].
  destruct (find_split old s) as [[a b]|]; [|reflexivity].
  rewrite IH. symmetry. apply join_cons. apply split_fuel_nonempty.
Qed.

(** Without an occurrence nothing is replaced; with one occurrence the
    text around it is kept. *)
Lemma replace_no_occurrence (old new s : str) :
  count_occurrences old s = 0 -> replace old new s = s.
Proof.
  intros C. apply count_zero_find_None in C.
  unfold replace. simpl. rewrite C. reflexivity.
Qed.

Lemma join_snoc (sep : str) (l : list str) (x : str) :
  l <> [] -> join sep (l ++ [x]) = join sep l ++ sep ++ x.
Proof.
  induction l as [|y l IH]; [contradiction|]. intros _.
  destruct l as [|z l].
  - reflexivity.
  - change (join sep ((y :: z :: l) ++ [x]))
      with (y ++ sep ++ join sep ((z :: l) ++ [x])).
    rewrite IH by discriminate.
    change (join sep (y :: z :: l)) with (y ++ sep ++ join sep (z :: l)).
    rewrite <- !app_assoc. reflexivity.
Qed.

(** A joined text ends as its last piece ends. *)
Lemma join_ends (sep : str) (l : list str) (c : char) :
  l <> [] ->
  (forall x, In x l -> exists x' d, x = x' ++ [d] /\ d <> c) ->
  forall body, join sep l <> body ++ [c].
Proof.
  intros Hl Hx body E.
  destruct (exists_last Hl) as (pre & x & ->).
  destruct (Hx x) as (x' & d & -> & Hd).
  { apply in_or_app. right. left. reflexivity. }
  destruct pre as [|y pre].
  - simpl in E. apply app_inj_tail in E. destruct E as [_ E]. congruence.
  - rewrite join_snoc in E by discriminate.
    rewrite !app_assoc in E. apply app_inj_tail in E.
    destruct E as [_ E]. congruence.
Qed.

(** ** Non-blank, trimmed pieces *)

Lemma nonblank_trimmed_spec (l : list str) (x : str) :
  In x (nonblank_trimmed l) ->
  x <> [] /\ Trimmed x /\ exists raw, In raw l /\ x = strip raw.
Proof.
  unfold nonblank_trimmed. intros H. apply in_map_iff in H.
  destruct H as (raw & <- & H). apply filter_In in H.
  destruct H as [H T]. split; [|split].
  - destruct (strip raw); [discriminate T | discriminate].
  - apply strip_idempotent.
  - exists raw. split; [exact H | reflexivity].
Qed.

Lemma In_firstn {A : Type} (n : nat) (l : list A) (x : A) :
  In x (firstn n l) -> In x l.
Proof.
  revert l. induction n as [|n IH]; intros [|y l]; simpl; try tauto.
  intros [H|H]; [left; exact H | right; apply IH; exact H].
Qed.

Lemma nonblank_trimmed_cons_blank (x : str) (l : list str) :
  strip x = [] -> nonblank_trimmed (x :: l) = nonblank_trimmed l.
Proof. unfold nonblank_trimmed. simpl. intros ->. reflexivity. Qed.

Lemma nonblank_trimmed_cons (x : str) (l l' : list str) :
  nonblank_trimmed l = nonblank_trimmed l' ->
  nonblank_trimmed (x :: l) = nonblank_trimmed (x :: l').
Proof.
  unfold nonblank_trimmed. simpl. intros H.
  destruct (negb (is_empty (strip x))); simpl; rewrite H; reflexivity.
Qed.

(** ** [re.split] on runs of delimiters *)

(** The pieces between runs of delimiters are the pieces between single
    delimiters, without the empty pieces inside a run. *)
Lemma re_split_delims_fragments (s : str) :
  exists piece rest rest',
    re_split_delims s = piece :: rest /\
    sentence_fragments s = piece :: rest' /\
    nonblank_trimmed rest = nonblank_trimmed rest'.
Proof.
  unfold sentence_fragments.
  induction s as [|c s (piece & rest & rest' & R & F & E)]; simpl.
  - exists [], [], []. repeat split.
  - destruct (is_sentence_delim c) eqn:D.
    + destruct s as [|c' s]; simpl head_is_delim.
      * exists [], [[]], [[]]. repeat split.
      * destruct (is_sentence_delim c') eqn:D'.
        -- simpl in F. rewrite D' in F. injection F as <- F.
           exists [], rest, ([] :: rest'). split; [exact R|].
           split; [cbn [cut_at]; rewrite D', F; reflexivity|].
           rewrite nonblank_trimmed_cons_blank by reflexivity. exact E.
        -- exists [], (piece :: rest), (piece :: rest').
           split; [f_equal; exact R|]. split; [f_equal; exact F|].
           apply nonblank_trimmed_cons. exact E.
    + rewrite R, F. exists (c :: piece), rest, rest'. repeat split.
      exact E.
Qed.

Lemma re_split_delims_refines (s : str) :
  nonblank_trimmed (re_split_delims s)
  = nonblank_trimmed (sentence_fragments s).
Proof.
  destruct (re_split_delims_fragments s)
    as (piece & rest & rest' & -> & -> & E).
  apply nonblank_trimmed_cons. exact E.
Qed.

End TextFacts.

(* ===================================================================== *)
(** * Facts about the documentation generator *)
(* ===================================================================== *)

Module AIHelperFacts.
Import PyStr Py Provider AIHelper Spec PyStrFacts ValidateFacts TextFacts.
Import GhClientFacts.

Lemma summary_marker_nonempty : SUMMARY_MARKER <> [].
Proof. discriminate. Qed.

(** "## Summary" does not overlap itself. *)
Lemma summary_marker_borderless (k : nat) (rest : str) :
  0 < k < length SUMMARY_MARKER ->
  startswith SUMMARY_MARKER (skipn k SUMMARY_MARKER ++ rest) = false.
Proof.
  intros [H0 H1]. simpl in H1.
  do 10 (destruct k as [|k]; [first [lia | reflexivity]|]). lia.
Qed.

Lemma stripped_nonblank_spec (l : list str) :
  stripped_nonblank l = nonblank_trimmed l.
Proof. reflexivity. Qed.

Lemma parse_one_marker (full_response : str) :
  count_occurrences SUMMARY_MARKER full_response = 1 ->
  exists left right,
    full_response = left ++ SUMMARY_MARKER ++ right /\
    parse_response full_response =
      {| documentation := strip (replace DOCUMENTATION_MARKER [] left);
         summary := join SPACE (first_two_lines (strip right)) |}.
Proof.
  intros C.
  destruct (split_one_occurrence SUMMARY_MARKER summary_marker_nonempty
              summary_marker_borderless full_response C)
    as (left & right & E & S).
  exists left, right. split; [exact E|].
  unfold parse_response. rewrite S. simpl length. simpl Nat.eqb.
  cbv iota. simpl nth. unfold first_two_lines.
  rewrite <- split_newline_lines. reflexivity.
Qed.

Lemma parse_other (full_response : str) :
  count_occurrences SUMMARY_MARKER full_response <> 1 ->
  parse_response full_response =
    {| documentation := full_response;
       summary := join (lit ". ") (first_two_fragments full_response)
                  ++ lit "." |}.
Proof.
  intros C. unfold parse_response.
  rewrite (split_length SUMMARY_MARKER summary_marker_nonempty
             summary_marker_borderless).
  destruct (Nat.eqb_spec (S (count_occurrences SUMMARY_MARKER full_response))
                         2) as [E|_]; [lia|].
  unfold _extract_summary_fallback, first_two_fragments.
  rewrite stripped_nonblank_spec, re_split_delims_refines. reflexivity.
Qed.

Lemma length_firstn_le {A : Type} (n : nat) (l : list A) :
  length (firstn n l) <= n.
Proof. rewrite length_firstn. lia. Qed.

Lemma first_two_lines_spec (s line : str) :
  In line (first_two_lines s) ->
  line <> [] /\ Trimmed line /\ ~ In newline line /\
  exists raw, In raw (lines s) /\ line = strip raw.
Proof.
  unfold first_two_lines. intros H. apply In_firstn in H.
  apply nonblank_trimmed_spec in H.
  destruct H as (Hne & Ht & raw & Hraw & ->).
  split; [exact Hne|]. split; [exact Ht|]. split.
  - intros I. apply In_strip in I.
    pose proof (cut_at_pieces _ _ _ _ Hraw I) as P.
    rewrite N.eqb_refl in P. discriminate.
  - exists raw. split; [exact Hraw | reflexivity].
Qed.

Lemma first_two_fragments_spec (s fragment : str) :
  In fragment (first_two_fragments s) ->
  fragment <> [] /\ Trimmed fragment /\
  (forall c, In c fragment -> is_sentence_delim c = false) /\
  exists raw, In raw (sentence_fragments s) /\ fragment = strip raw.
Proof.
  unfold first_two_fragments. intros H. apply In_firstn in H.
  apply nonblank_trimmed_spec in H.
  destruct H as (Hne & Ht & raw & Hraw & ->).
  split; [exact Hne|]. split; [exact Ht|]. split.
  - intros c I. apply In_strip in I.
    exact (cut_at_pieces _ _ _ _ Hraw I).
  - exists raw. split; [exact Hraw | reflexivity].
Qed.

(** The fallback summary ends with one full stop, not two. *)
Lemma fallback_single_full_stop (s body : str) :
  join (lit ". ") (first_two_fragments s) ++ lit "." <> body ++ lit "..".
Proof.
  change (lit "..") with ([46%N] ++ [46%N]). change (lit ".") with [46%N].
  rewrite app_assoc. intros E. apply app_inj_tail in E.
  destruct E as [E _].
  destruct (first_two_fragments s) as [|f fs] eqn:F.
  - destruct body; discriminate E.
  - revert E. apply join_ends; [discriminate|].
    intros x Hx. rewrite <- F in Hx.
    destruct (first_two_fragments_spec s x Hx) as (Hne & _ & Hd & _).
    destruct (exists_last Hne) as (x' & d & ->).
    exists x', d. split; [reflexivity|]. intros ->.
    specialize (Hd 46%N). rewrite in_app_iff in Hd. simpl in Hd.
    discriminate Hd. right. left. reflexivity.
Qed.

Section Generator.
Context {W : Type} {gen : GenerativeAPI W} {tts : SpeechAPI W}.
Variable self : AIDocumentationGenerator.

Lemma generate_documentation_run
      (model : GenerativeModel) (code_content language filename : str)
      (st : Sys W) (full_response : str) (w' : W) :
  gemini_model self = Some model ->
  generate_content (model_api_key model) (model_name model)
                   (build_prompt code_content language filename) (world st)
    = (Ok full_response, w') ->
  generate_documentation self code_content language filename st =
    (Ok (parse_response full_response),
     {| world := w';
        trace := trace st ++
          [GenerateContent (model_api_key model) (model_name model)
                           (build_prompt code_content language filename)] |}).
Proof.
  intros Hm Hg. unfold generate_documentation. rewrite Hm.
  unfold try_except, bind, ret. run_request Hg. reflexivity.
Qed.

(** C3. When the text service answers with a response that contains the
    marker "## Summary" exactly once, the response is the text before the
    marker, the marker and the text after it, in one way only, and
    [generate_documentation] returns as documentation the text before
    with "## Documentation" replaced by nothing, trimmed, and as summary
    the first two non-blank lines of the trimmed text after, each
    trimmed, joined by one space.  These are at most two pieces, none
    empty, none containing a line break. *)
Theorem one_marker_response_is_split
        (model : GenerativeModel) (code_content language filename : str)
        (st : Sys W) (full_response : str) (w' : W) :
  gemini_model self = Some model ->
  generate_content (model_api_key model) (model_name model)
                   (build_prompt code_content language filename) (world st)
    = (Ok full_response, w') ->
  count_occurrences SUMMARY_MARKER full_response = 1 ->
  exists left right,
    full_response = left ++ SUMMARY_MARKER ++ right /\
    (forall l r, full_response = l ++ SUMMARY_MARKER ++ r ->
                 l = left /\ r = right) /\
    generate_documentation self code_content language filename st =
      (Ok {| documentation := strip (replace DOCUMENTATION_MARKER [] left);
             summary := join SPACE (first_two_lines (strip right)) |},
       {| world := w';
          trace := trace st ++
            [GenerateContent (model_api_key model) (model_name model)
               (build_prompt code_content language filename)] |}) /\
    length (first_two_lines (strip right)) <= 2 /\
    (forall line,
        In line (first_two_lines (strip right)) ->
        line <> [] /\ Trimmed line /\ ~ In newline line /\
        exists raw, In raw (lines (strip right)) /\ line = strip raw).
Proof.
  intros Hm Hg C.
  destruct (parse_one_marker full_response C) as (left & right & E & P).
  exists left, right. split; [exact E|]. split; [|split; [|split]].
  - intros l r E'.
    destruct (cut_unique SUMMARY_MARKER full_response left right l r C E E')
      as [-> ->].
    split; reflexivity.
  - rewrite (generate_documentation_run model code_content language filename
               st full_response w' Hm Hg), P.
    reflexivity.
  - apply length_firstn_le.
  - apply first_two_lines_spec.
Qed.

(** C4. When the response contains the marker "## Summary" not at all or
    more than once, [generate_documentation] returns the whole response
    as documentation, and as summary the first two non-blank sentence
    fragments of the response (cut at ".", "!" and "?"), each trimmed,
    joined by ". " and followed by ".".  These are at most two fragments,
    none empty, none containing a delimiter, and the summary does not end
    with two full stops. *)
Theorem other_response_falls_back
        (model : GenerativeModel) (code_content language filename : str)
        (st : Sys W) (full_response : str) (w' : W) :
  gemini_model self = Some model ->
  generate_content (model_api_key model) (model_name model)
                   (build_prompt code_content language filename) (world st)
    = (Ok full_response, w') ->
  count_occurrences SUMMARY_MARKER full_response <> 1 ->
  generate_documentation self code_content language filename st =
    (Ok {| documentation := full_response;
           summary := join (lit ". ") (first_two_fragments full_response)
                      ++ lit "." |},
     {| world := w';
        trace := trace st ++
          [GenerateContent (model_api_key model) (model_name model)
             (build_prompt code_content language filename)] |}) /\
  length (first_two_fragments full_response) <= 2 /\
  (forall fragment,
      In fragment (first_two_fragments full_response) ->
      fragment <> [] /\ Trimmed fragment /\
      (forall c, In c fragment -> is_sentence_delim c = false) /\
      exists raw,
        In raw (sentence_fragments full_response) /\ fragment = strip raw) /\
  (forall body,
      join (lit ". ") (first_two_fragments full_response) ++ lit "."
      <> body ++ lit "..").
Proof.
  intros Hm Hg C. split; [|split; [|split]].
  - rewrite (generate_documentation_run model code_content language filename
               st full_response w' Hm Hg), (parse_other full_response C).
    reflexivity.
  - apply length_firstn_le.
  - apply first_two_fragments_spec.
  - apply fallback_single_full_stop.
Qed.

(** [generate_documentation] sends nothing to the speech service. *)
Lemma generate_documentation_no_speech
      (code_content language filename : str) (st : Sys W) :
  speech_calls
    (trace (snd (generate_documentation self code_content language filename
                                        st)))
  = speech_calls (trace st).
Proof.
  unfold generate_documentation.
  destruct (gemini_model self) as [model|]; [|reflexivity].
  unfold try_except, bind, ret, request, except_Exception, raise.
  destruct (generate_content (model_api_key model) (model_name model)
              (build_prompt code_content language filename) (world st))
    as [[r|e] w']; simpl; unfold speech_calls;
    rewrite filter_app; simpl; apply app_nil_r.
Qed.

(** C6. [process_file] follows [generate_documentation]: when that
    raises, [process_file] raises the same exception in the same state,
    and no request to the speech service has been added to the trace;
    when it returns and [text_to_speech] raises, [process_file] raises
    that exception; when both return, [process_file] returns the
    documentation, the summary and the audio.  There is no other
    outcome. *)
Theorem process_file_all_or_first_failure
        (file_content language filename : str) (st : Sys W) :
  match generate_documentation self file_content language filename st with
  | (Raise e, st1) =>
      process_file self file_content language filename st = (Raise e, st1)
      /\ speech_calls (trace st1) = speech_calls (trace st)
  | (Ok result, st1) =>
      match text_to_speech self (summary result) st1 with
      | (Raise e, st2) =>
          process_file self file_content language filename st
            = (Raise e, st2)
      | (Ok audio, st2) =>
          process_file self file_content language filename st
            = (Ok (documentation result, summary result, audio), st2)
      end
  end.
Proof.
  pose proof (generate_documentation_no_speech file_content language filename
                                               st) as NS.
  unfold process_file, bind, ret.
  destruct (generate_documentation self file_content language filename st)
    as [[result|e] st1].
  - destruct (text_to_speech self (summary result) st1) as [[audio|e] st2];
      reflexivity.
  - split; [reflexivity | exact NS].
Qed.
End Generator.

End AIHelperFacts.

(** ** The generator on scripted services *)

Module AIHelperExamples.
Import PyStr Py Provider AIHelper Spec AIHelperFacts ScriptedAI Examples.

Lemma one_marker_response_is_split_witness :
  fst (generate_documentation demo_generator (lit "print(1)") (lit "python")
         (lit "a.py") (scripted (Ok one_marker_response) (Ok [])))
  = Ok {| documentation := lit "Adds numbers.";
          summary := lit "Adds two numbers. Returns the sum." |}.
Proof.
  destruct (@one_marker_response_is_split Script gen demo_generator
              demo_model (lit "print(1)") (lit "python") (lit "a.py")
              (scripted (Ok one_marker_response) (Ok []))
              one_marker_response
              {| text_answer := Ok one_marker_response;
                 speech_answer := Ok [] |}
              eq_refl eq_refl eq_refl)
    as (left & right & _ & U & G & _).
  destruct (U one_marker_left one_marker_right eq_refl) as [<- <-].
  rewrite G. reflexivity.
Defined.

Lemma other_response_falls_back_witness :
  fst (generate_documentation demo_generator (lit "print(1)") (lit "python")
         (lit "a.py") (scripted (Ok no_marker_response) (Ok [])))
  = Ok {| documentation := no_marker_response;
          summary := lit "Adds two numbers. Returns the sum." |}.
Proof.
  rewrite (proj1 (@other_response_falls_back Script gen demo_generator
              demo_model (lit "print(1)") (lit "python") (lit "a.py")
              (scripted (Ok no_marker_response) (Ok []))
              no_marker_response
              {| text_answer := Ok no_marker_response;
                 speech_answer := Ok [] |}
              eq_refl eq_refl ltac:(discriminate))).
  reflexivity.
Defined.

(** The text service is down: [process_file] raises the wrapped failure
    and the trace holds the one request to the text service. *)
Example process_file_text_failure :
  process_file demo_generator (lit "print(1)") (lit "python") (lit "a.py")
               (scripted (Raise (OtherError (lit "Timeout") (lit "timed out")))
                         (Ok []))
  = (Raise (Exception (lit "Failed to generate documentation: timed out")),
     {| world := {| text_answer :=
                      Raise (OtherError (lit "Timeout") (lit "timed out"));
                    speech_answer := Ok [] |};
        trace := [GenerateContent (lit "env-gemini") GEMINI_MODEL
                    (build_prompt (lit "print(1)") (lit "python")
                                  (lit "a.py"))] |}).
Proof. reflexivity. Qed.

(** Both services answer: the three results come back together. *)
Example process_file_success :
  fst (process_file demo_generator (lit "print(1)") (lit "python")
         (lit "a.py")
         (scripted (Ok no_marker_response)
                   (Ok [[Byte.x49; Byte.x44]; [Byte.x33]])))
  = Ok (no_marker_response, lit "Adds two numbers. Returns the sum.",
        [Byte.x49; Byte.x44; Byte.x33]).
Proof. reflexivity. Qed.

End AIHelperExamples.

(* ===================================================================== *)
(** * UTF-8: decoding what was encoded *)
(* ===================================================================== *)

Module Utf8Facts.
Import PyStr.

#[local] Ltac Zify.zify_post_hook ::= Z.to_euclidean_division_equations.

Lemma to_N_byte_of_N (n : N) : (n < 256)%N -> Byte.to_N (byte_of_N n) = n.
Proof.
  intros H. unfold byte_of_N. destruct (Byte.of_N n) as [b|] eqn:E.
  - apply Byte.to_of_N. exact E.
  - apply Byte.of_N_None_iff in E. lia.
Qed.

(** One step of the decoder. *)
Lemma utf8_decode_cons (b1 : Byte.byte) (t1 : bytes) :
  utf8_decode (b1 :: t1) =
  let n1 := Byte.to_N b1 in
  if (n1 <? 0x80)%N then option_map (cons n1) (utf8_decode t1)
  else
    match t1 with
    | [] => None
    | b2 :: t2 =>
        let n2 := Byte.to_N b2 in
        if negb (is_continuation n2) then None
        else if ((0xC2 <=? n1) && (n1 <=? 0xDF))%N then
          option_map (cons ((n1 - 0xC0) * 64 + (n2 - 0x80))%N)
                     (utf8_decode t2)
        else
          match t2 with
          | [] => None
          | b3 :: t3 =>
              let n3 := Byte.to_N b3 in
              if negb (is_continuation n3) then None
              else if ((0xE0 <=? n1) && (n1 <=? 0xEF))%N then
                let c := ((n1 - 0xE0) * 4096 + (n2 - 0x80) * 64
                          + (n3 - 0x80))%N in
                if ((0x800 <=? c)%N && negb (is_surrogate c))%bool
                then option_map (cons c) (utf8_decode t3)
                else None
              else
                match t3 with
                | [] => None
                | b4 :: t4 =>
                    let n4 := Byte.to_N b4 in
                    if negb (is_continuation n4) then None
                    else if ((0xF0 <=? n1) && (n1 <=? 0xF4))%N then
                      let c := ((n1 - 0xF0) * 262144
                                + (n2 - 0x80) * 4096
                                + (n3 - 0x80) * 64 + (n4 - 0x80))%N in
                      if ((0x10000 <=? c) && (c <? 0x110000))%N
                      then option_map (cons c) (utf8_decode t4)
                      else None
                    else None
                end
          end
    end.
Proof. reflexivity. Qed.

(** Settle the comparisons of the goal by arithmetic. *)
Ltac settle_tests :=
  repeat match goal with
  | |- context [(?a <? ?b)%N] =>
      first [ rewrite (proj2 (N.ltb_lt a b)) by lia
            | rewrite (proj2 (N.ltb_ge a b)) by lia ]
  | |- context [(?a <=? ?b)%N] =>
      first [ rewrite (proj2 (N.leb_le a b)) by lia
            | rewrite (proj2 (N.leb_gt a b)) by lia ]
  end.

Ltac name_byte b H n :=
  pose proof (to_N_byte_of_N n ltac:(lia)) as H;
  generalize dependent (byte_of_N n); intros b H.

Lemma decode_one_byte (c : char) (rest : bytes) :
  (c < 0x80)%N ->
  utf8_decode (byte_of_N c :: rest) = option_map (cons c) (utf8_decode rest).
Proof.
  intros H1. name_byte b1 B1 c.
  rewrite utf8_decode_cons. cbv zeta. rewrite B1. settle_tests.
  reflexivity.
Qed.

Lemma decode_two_bytes (c : char) (rest : bytes) :
  (0x80 <= c < 0x800)%N ->
  utf8_decode (byte_of_N (0xC0 + c / 64) :: byte_of_N (0x80 + c mod 64)
               :: rest)
  = option_map (cons c) (utf8_decode rest).
Proof.
  intros H.
  name_byte b1 B1 (0xC0 + c / 64)%N.
  name_byte b2 B2 (0x80 + c mod 64)%N.
  rewrite utf8_decode_cons. cbv zeta. unfold is_continuation.
  rewrite B1, B2.
  replace ((0xC0 + c / 64 - 0xC0) * 64 + (0x80 + c mod 64 - 0x80))%N
    with c by lia.
  settle_tests. reflexivity.
Qed.

Lemma decode_three_bytes (c : char) (rest : bytes) :
  (0x800 <= c < 0x10000)%N -> is_surrogate c = false ->
  utf8_decode (byte_of_N (0xE0 + c / 4096)
               :: byte_of_N (0x80 + (c / 64) mod 64)
               :: byte_of_N (0x80 + c mod 64) :: rest)
  = option_map (cons c) (utf8_decode rest).
Proof.
  intros H S.
  name_byte b1 B1 (0xE0 + c / 4096)%N.
  name_byte b2 B2 (0x80 + (c / 64) mod 64)%N.
  name_byte b3 B3 (0x80 + c mod 64)%N.
  rewrite utf8_decode_cons. cbv zeta. unfold is_continuation.
  rewrite B1, B2, B3.
  replace ((0xE0 + c / 4096 - 0xE0) * 4096
           + (0x80 + (c / 64) mod 64 - 0x80) * 64
           + (0x80 + c mod 64 - 0x80))%N with c by lia.
  rewrite S. settle_tests. reflexivity.
Qed.

Lemma decode_four_bytes (c : char) (rest : bytes) :
  (0x10000 <= c < 0x110000)%N ->
  utf8_decode (byte_of_N (0xF0 + c / 262144)
               :: byte_of_N (0x80 + (c / 4096) mod 64)
               :: byte_of_N (0x80 + (c / 64) mod 64)
               :: byte_of_N (0x80 + c mod 64) :: rest)
  = option_map (cons c) (utf8_decode rest).
Proof.
  intros H.
  name_byte b1 B1 (0xF0 + c / 262144)%N.
  name_byte b2 B2 (0x80 + (c / 4096) mod 64)%N.
  name_byte b3 B3 (0x80 + (c / 64) mod 64)%N.
  name_byte b4 B4 (0x80 + c mod 64)%N.
  rewrite utf8_decode_cons. cbv zeta. unfold is_continuation.
  rewrite B1, B2, B3, B4.
  replace ((0xF0 + c / 262144 - 0xF0) * 262144
           + (0x80 + (c / 4096) mod 64 - 0x80) * 4096
           + (0x80 + (c / 64) mod 64 - 0x80) * 64
           + (0x80 + c mod 64 - 0x80))%N with c by lia.
  settle_tests. reflexivity.
Qed.

Lemma utf8_decode_encode_char (c : char) (bs : list N) (rest : bytes) :
  utf8_encode_char c = Some bs ->
  utf8_decode (map byte_of_N bs ++ rest)
  = option_map (cons c) (utf8_decode rest).
Proof.
  unfold utf8_encode_char.
  destruct (N.ltb_spec c 0x80) as [H1|H1].
  { intros E. injection E as <-. apply decode_one_byte. exact H1. }
  destruct (N.ltb_spec c 0x800) as [H2|H2].
  { intros E. injection E as <-. apply decode_two_bytes. lia. }
  destruct (N.ltb_spec c 0x10000) as [H3|H3].
  { destruct (is_surrogate c) eqn:S; [discriminate|].
    intros E. injection E as <-. apply decode_three_bytes; [lia|exact S]. }
  destruct (N.ltb_spec c 0x110000) as [H4|H4]; [|discriminate].
  intros E. injection E as <-. apply decode_four_bytes. lia.
Qed.

(** Decoding the encoding of a text gives the text back. *)
Lemma utf8_decode_encode (s : str) (b : bytes) :
  utf8_encode s = Some b -> utf8_decode b = Some s.
Proof.
  revert b. induction s as [|c s IH]; intros b; simpl.
  - intros E. injection E as <-. reflexivity.
  - destruct (utf8_encode_char c) as [bs|] eqn:C; [|discriminate].
    destruct (utf8_encode s) as [r|]; [|discriminate].
    intros E. injection E as <-.
    rewrite (utf8_decode_encode_char c bs r C), (IH r eq_refl).
    reflexivity.
Qed.

End Utf8Facts.

(* ===================================================================== *)
(** * Committing a file, then reading it *)
(* ===================================================================== *)

Module RoundTripFacts.
Import PyStr Py Provider GhClient Spec PyStrFacts ValidateFacts.
Import GhClientFacts Utf8Facts.

Section Client.
Context {W : Type} {api : GithubAPI W}.
Variable self : GitHubClient.

(** A successful [commit_file] has validated the identifier, found the
    repository, and ended with a create or an update that succeeded and
    left the service in the final state. *)
Lemma commit_file_success_inv
      (repo_full_name path content message : str) (st st1 : Sys W)
      (res : FileCommitResult) :
  commit_file self repo_full_name path content message st = (Ok res, st1) ->
  _validate_repo_name repo_full_name = Ok tt /\
  exists repo w0 w wr,
    github_get_repo (token self) repo_full_name (world st) = (Ok repo, w0) /\
    (repo_create_file (token self) repo path message content w
       = (Ok wr, world st1) \/
     exists sha,
       repo_update_file (token self) repo path message content sha w
         = (Ok wr, world st1)).
Proof.
  open_method. unfold request.
  destruct (_validate_repo_name repo_full_name) as [[]|e] eqn:V.
  2:{ destruct e; discriminate. }
  destruct (github_get_repo (token self) repo_full_name (world st))
    as [[repo|e] w0] eqn:R.
  2:{ destruct e; discriminate. }
  simpl.
  destruct (repo_get_contents (token self) repo path w0)
    as [[existing|e] w1] eqn:C; simpl.
  - destruct (repo_update_file (token self) repo path message content
                               (cf_sha existing) w1)
      as [[wr|e] w2] eqn:U; simpl.
    + intros H. injection H as _ <-. split; [reflexivity|].
      exists repo, w0, w1, wr. split; [reflexivity|].
      right. exists (cf_sha existing). exact U.
    + destruct e as [m|g|m|m|cls m]; simpl; try discriminate.
      destruct (status g =? 404)%Z; simpl; [|discriminate].
      destruct (repo_create_file (token self) repo path message content w2)
        as [[wr|e] w3] eqn:K; simpl.
      * intros H. injection H as _ <-. split; [reflexivity|].
        exists repo, w0, w2, wr. split; [reflexivity|]. left. exact K.
      * destruct e; discriminate.
  - destruct e as [m|g|m|m|cls m]; simpl; try discriminate.
    destruct (status g =? 404)%Z; simpl; [|discriminate].
    destruct (repo_create_file (token self) repo path message content w1)
      as [[wr|e] w2] eqn:K; simpl.
    + intros H. injection H as _ <-. split; [reflexivity|].
      exists repo, w0, w1, wr. split; [reflexivity|]. left. exact K.
    + destruct e; discriminate.
Qed.

(** C9. On a service that returns what was last written, after a
    [commit_file] of [content] that succeeded, a [read_file] of the same
    path of the same repository in the state the commit left, whose two
    lookups succeed, returns a record whose content is [content]. *)
Theorem commit_then_read_round_trip
        (repo_full_name path content message : str) (st st1 : Sys W)
        (res : FileCommitResult) :
  ReadYourWrites ->
  commit_file self repo_full_name path content message st = (Ok res, st1) ->
  forall repo w2 file_content w3,
    github_get_repo (token self) repo_full_name (world st1) = (Ok repo, w2) ->
    repo_get_contents (token self) repo path w2 = (Ok file_content, w3) ->
    read_file self repo_full_name path st1 =
      (Ok {| read_path := cf_path file_content;
             GhClient.content := content;
             read_url := cf_html_url file_content;
             size := cf_size file_content |},
       {| world := w3;
          trace := trace st1 ++
            [GetRepo (token self) repo_full_name;
             GetContents (token self) repo_full_name path] |}).
Proof.
  intros RYW Hcommit repo w2 file_content w3 Hrepo Hfile.
  destruct (commit_file_success_inv _ _ _ _ _ _ _ Hcommit)
    as (V & repo0 & w0 & w & wr & Hrepo0 & Hwrite).
  pose proof (RYW (token self) repo_full_name path message content
                  (world st) w0 w (world st1) repo0 wr Hrepo0 Hwrite
                  repo w2 file_content w3 Hrepo Hfile) as Henc.
  apply utf8_decode_encode in Henc.
  open_method. rewrite V. run_request Hrepo. run_request Hfile.
  unfold decode_utf8. rewrite Henc. tidy_trace.
Qed.
End Client.

(** ** The in-memory hub returns what was last written *)

Import MemHub.

Lemma lookup_store {A : Type} (k : str) (v : A) (m : list (str * A)) :
  lookup k (store k v m) = Some v.
Proof.
  induction m as [|[k' v'] m IH]; simpl.
  - rewrite str_eqb_refl. reflexivity.
  - destruct (str_eqb k' k) eqn:E; simpl.
    + rewrite str_eqb_refl. reflexivity.
    + rewrite E. exact IH.
Qed.

Lemma accept_ok {A : Type} (tok : str) (h h' : Hub)
      (k : Hub -> result A * Hub) (a : A) :
  accept tok h k = (Ok a, h') ->
  exists q, quota h = S q /\ k (with_quota h q) = (Ok a, h').
Proof.
  unfold accept. destruct (negb (str_eqb tok (valid_token h)));
    [discriminate|].
  destruct (quota h) as [|q]; [discriminate|].
  intros H. exists q. split; [reflexivity | exact H].
Qed.

Lemma hub_get_repo_ok (tok name : str) (h h' : Hub) (r : str) :
  hub_get_repo tok name h = (Ok r, h') ->
  r = name /\ repos h' = repos h.
Proof.
  unfold hub_get_repo. intros H. apply accept_ok in H.
  destruct H as (q & _ & H). simpl in H.
  destruct (lookup name (repos h)); [|discriminate].
  injection H as <- <-. split; reflexivity.
Qed.

Lemma hub_get_contents_ok (tok name path : str) (h h' : Hub)
      (cf : ContentFile) :
  hub_get_contents tok name path h = (Ok cf, h') ->
  exists r b,
    lookup name (repos h) = Some r /\ lookup path (hr_files r) = Some b /\
    cf_decoded_content cf = b.
Proof.
  unfold hub_get_contents. intros H. apply accept_ok in H.
  destruct H as (q & _ & H). simpl in H.
  destruct (lookup name (repos h)) as [r|] eqn:L1; [|discriminate].
  destruct (lookup path (hr_files r)) as [b|] eqn:L2; [|discriminate].
  injection H as <- _. exists r, b.
  split; [reflexivity|]. split; [exact L2 | reflexivity].
Qed.

Lemma hub_write_ok (tok name path message content : str) (h h' : Hub)
      (wr : WriteResult) :
  hub_create_file tok name path message content h = (Ok wr, h') \/
  (exists sha,
      hub_update_file tok name path message content sha h = (Ok wr, h')) ->
  exists b r,
    utf8_encode content = Some b /\
    lookup name (repos h') = Some r /\ lookup path (hr_files r) = Some b.
Proof.
  intros [H|[sha H]].
  - unfold hub_create_file in H.
    destruct (utf8_encode content) as [b|]; [|discriminate].
    apply accept_ok in H. destruct H as (q & _ & H). simpl in H.
    destruct (lookup name (repos h)) as [r|]; [|discriminate].
    destruct (lookup path (hr_files r)); [discriminate|].
    injection H as _ <-. eexists. eexists. split; [reflexivity|].
    simpl. rewrite lookup_store. split; [reflexivity|]. simpl.
    apply lookup_store.
  - unfold hub_update_file in H.
    destruct (utf8_encode content) as [b|]; [|discriminate].
    apply accept_ok in H. destruct H as (q & _ & H). simpl in H.
    destruct (lookup name (repos h)) as [r|]; [|discriminate].
    destruct (lookup path (hr_files r)) as [old|]; [|discriminate].
    destruct (str_eqb sha (blob_sha old)); [|discriminate].
    injection H as _ <-. eexists. eexists. split; [reflexivity|].
    simpl. rewrite lookup_store. split; [reflexivity|]. simpl.
    apply lookup_store.
Qed.

Lemma memhub_read_your_writes : @ReadYourWrites Hub api.
Proof.
  intros tok name path message content w0 w0' w w1 r wr Hr Hw
         r' w2 cf w3 Hr' Hc.
  simpl in *.
  apply hub_get_repo_ok in Hr. destruct Hr as [-> _].
  apply hub_get_repo_ok in Hr'. destruct Hr' as [-> E2].
  apply hub_write_ok in Hw. destruct Hw as (b & rp & Henc & L1 & L2).
  apply hub_get_contents_ok in Hc.
  destruct Hc as (rp' & b' & L1' & L2' & D).
  rewrite E2, L1 in L1'. injection L1' as <-.
  rewrite L2 in L2'. injection L2' as <-.
  rewrite Henc, D. reflexivity.
Qed.

Import Examples.

(** Committing a text with characters of one to four bytes to a new
    file, then reading it. *)
Lemma commit_then_read_round_trip_witness :
  exists res st1 rd st2,
    commit_file demo_client (lit "me/r") (lit "new.txt")
                [0x41; 0xE9; 0x20AC; 0x1F600]%N (lit "add") (demo_sys 6)
      = (Ok res, st1) /\
    read_file demo_client (lit "me/r") (lit "new.txt") st1 = (Ok rd, st2) /\
    GhClient.content rd = [0x41; 0xE9; 0x20AC; 0x1F600]%N.
Proof.
  eexists. eexists. eexists. eexists.
  split; [reflexivity|]. split.
  - eapply (@commit_then_read_round_trip Hub api demo_client
              (lit "me/r") (lit "new.txt") [0x41; 0xE9; 0x20AC; 0x1F600]%N
              (lit "add") (demo_sys 6) _ _ memhub_read_your_writes eq_refl);
      reflexivity.
  - reflexivity.
Defined.

End RoundTripFacts.

(* ===================================================================== *)
(** * More about the repository client *)
(* ===================================================================== *)

Module GhClientMore.
Import PyStr Py Provider GhClient Spec PyStrFacts ValidateFacts.
Import GhClientFacts.

(** X1. [GitHubClient.__init__] keeps the first non-empty token among the
    argument and GITHUB_TOKEN: a non-empty argument is kept as it is; an
    absent or empty one gives way to the environment; a client that was
    built never holds an empty token; and the constructor raises its
    [ValueError] exactly when neither place has a non-empty token. *)
Theorem client_holds_first_nonempty_token (token : option str) (env : Env) :
  match __init__ token env with
  | Ok client =>
      GhClient.token client <> [] /\
      match token with
      | Some (c :: t) => GhClient.token client = c :: t
      | _ => env GITHUB_TOKEN = Some (GhClient.token client)
      end
  | Raise e =>
      e = ValueError token_missing_message /\
      (token = None \/ token = Some []) /\
      (env GITHUB_TOKEN = None \/ env GITHUB_TOKEN = Some [])
  end.
Proof.
  unfold __init__, py_or.
  destruct token as [[|c t]|]; simpl.
  - destruct (env GITHUB_TOKEN) as [[|c t]|]; simpl.
    + split; [reflexivity|]. split; right; reflexivity.
    + split; [discriminate | reflexivity].
    + split; [reflexivity|]. split; [right | left]; reflexivity.
  - split; [discriminate | reflexivity].
  - destruct (env GITHUB_TOKEN) as [[|c t]|]; simpl.
    + split; [reflexivity|]. split; [left | right]; reflexivity.
    + split; [discriminate | reflexivity].
    + split; [reflexivity|]. split; left; reflexivity.
Qed.

(** A block that turns every [GithubException] into an [Exception] lets
    no [GithubException] out. *)
Lemma wrapped_block_outcome {St A : Type} (body : M St A)
      (h : GithubException -> M St A) (st : St) (g : GithubException) :
  (forall e s, fst (h e s) <> Raise (GithubExc g)) ->
  fst (try_except body (except_GithubException h) st) <> Raise (GithubExc g).
Proof.
  intros Hh. unfold try_except, except_GithubException.
  destruct (body st) as [[a|e] s']; simpl; [discriminate|].
  destruct e; simpl; try discriminate. apply Hh.
Qed.

Section Client.
Context {W : Type} {api : GithubAPI W}.
Variable self : GitHubClient.

(** X2. No method of the client lets a [GithubException] reach its
    caller: whatever the service answers, the outcome of [create_repo],
    [list_repos], [create_issue], [list_issues], [commit_file] and
    [read_file] is never that exception. *)
Theorem no_github_exception_escapes
        (name description repo_full_name title body state path content
         message : str) (private : bool) (st : Sys W)
        (g : GithubException) :
  fst (create_repo self name private description st) <> Raise (GithubExc g)
  /\ fst (list_repos self st) <> Raise (GithubExc g)
  /\ fst (create_issue self repo_full_name title body st)
       <> Raise (GithubExc g)
  /\ fst (list_issues self repo_full_name state st) <> Raise (GithubExc g)
  /\ fst (commit_file self repo_full_name path content message st)
       <> Raise (GithubExc g)
  /\ fst (read_file self repo_full_name path st) <> Raise (GithubExc g).
Proof.
  repeat split; apply wrapped_block_outcome; intros e s; unfold raise;
    simpl; try discriminate.
  destruct (status e =? 404)%Z; discriminate.
Qed.

(** X3. The requests of one [commit_file], whatever the service answers:
    none (the identifier was refused), or the repository lookup, then
    the existence check, then one write, and a create after an update in
    one case only.  So there are at most four requests, a write is never
    sent before the check, and there is never a second update or a
    second create. *)
Theorem commit_file_requests
        (repo_full_name path content message : str) (st : Sys W) :
  let lookup := GetRepo (token self) repo_full_name in
  let check := GetContents (token self) repo_full_name path in
  let create :=
    CreateFile (token self) repo_full_name path message content in
  exists new,
    trace (snd (commit_file self repo_full_name path content message st))
      = trace st ++ new /\
    (new = [] \/ new = [lookup] \/ new = [lookup; check] \/
     new = [lookup; check; create] \/
     exists sha,
       let update :=
         UpdateFile (token self) repo_full_name path message content sha in
       new = [lookup; check; update] \/
       new = [lookup; check; update; create]).
Proof.
  intros lookup check create. subst lookup check create.
  open_method. unfold request.
  destruct (_validate_repo_name repo_full_name) as [[]|e]; simpl.
  2:{ exists []. rewrite app_nil_r.
      split; [destruct e; reflexivity | left; reflexivity]. }
  destruct (github_get_repo (token self) repo_full_name (world st))
    as [[repo|e] w1]; simpl.
  2:{ eexists. split; [destruct e; reflexivity|]. right. left.
      reflexivity. }
  destruct (repo_get_contents (token self) repo path w1)
    as [[existing|e] w2]; simpl.
  - destruct (repo_update_file (token self) repo path message content
                               (cf_sha existing) w2)
      as [[result|e] w3]; simpl.
    + eexists. split; [tidy_trace|].
      do 4 right. exists (cf_sha existing). left. reflexivity.
    + destruct e as [m|g|m|m|cls m]; simpl;
        try (eexists; split; [tidy_trace|]; do 4 right;
             exists (cf_sha existing); left; reflexivity).
      destruct (status g =? 404)%Z; simpl.
      * destruct (repo_create_file (token self) repo path message content
                                   w3) as [[result|e] w4]; simpl;
          [|destruct e]; (eexists; split; [tidy_trace|]; do 4 right;
                          exists (cf_sha existing); right; reflexivity).
      * eexists. split; [tidy_trace|]. do 4 right.
        exists (cf_sha existing). left. reflexivity.
  - destruct e as [m|g|m|m|cls m]; simpl;
      try (eexists; split; [tidy_trace|]; do 2 right; left; reflexivity).
    destruct (status g =? 404)%Z; simpl.
    + destruct (repo_create_file (token self) repo path message content w2)
        as [[result|e] w3]; simpl;
        [|destruct e]; (eexists; split; [tidy_trace|]; do 3 right; left;
                        reflexivity).
    + eexists. split; [tidy_trace|]. do 2 right. left. reflexivity.
Qed.


(** X5. The update sits in the same block as the existence check.  When
    the check finds the file but the update is answered 404, [commit_file]
    sends a create with the same content, and when that succeeds it
    reports "created" although the path existed when it was checked. *)
Theorem commit_file_update_not_found_creates
        (repo_full_name path content message : str) (st : Sys W)
        (repo : Repository) (w1 w2 w3 w4 : W) (existing_file : ContentFile)
        (e : GithubException) (result : WriteResult) :
  WellFormedRepoId repo_full_name ->
  github_get_repo (token self) repo_full_name (world st) = (Ok repo, w1) ->
  repo_get_contents (token self) repo path w1 = (Ok existing_file, w2) ->
  repo_update_file (token self) repo path message content
                   (cf_sha existing_file) w2 = (Raise (GithubExc e), w3) ->
  status e = 404%Z ->
  repo_create_file (token self) repo path message content w3
    = (Ok result, w4) ->
  commit_file self repo_full_name path content message st =
    (Ok {| commit_sha := c_sha (wr_commit result);
           commit_url := cf_html_url (wr_content result);
           action := lit "created";
           commit_path := path |},
     {| world := w4;
        trace := trace st ++
          [GetRepo (token self) repo_full_name;
           GetContents (token self) repo_full_name path;
           UpdateFile (token self) repo_full_name path message content
                      (cf_sha existing_file);
           CreateFile (token self) repo_full_name path message content] |}).
Proof.
  intros WF Hrepo Hcheck Hupdate H404 Hcreate.
  apply validate_wellformed in WF.
  open_method. rewrite WF. run_request Hrepo. run_request Hcheck.
  run_request Hupdate. rewrite H404. simpl. run_request Hcreate.
  tidy_trace.
Qed.

(** X6. When both lookups of [read_file] succeed, the path, the address
    and the size of the record are the provider's, and the content is
    the file's bytes decoded as UTF-8.  Bytes that are not valid UTF-8
    make [read_file] raise the decoding error as it is, not wrapped into
    the "Failed to read file" exception, after both requests. *)
Theorem read_file_decodes_or_raises
        (repo_full_name path : str) (st : Sys W)
        (repo : Repository) (w1 w2 : W) (file_content : ContentFile) :
  WellFormedRepoId repo_full_name ->
  github_get_repo (token self) repo_full_name (world st) = (Ok repo, w1) ->
  repo_get_contents (token self) repo path w1 = (Ok file_content, w2) ->
  read_file self repo_full_name path st =
    (match utf8_decode (cf_decoded_content file_content) with
     | Some text =>
         Ok {| read_path := cf_path file_content;
               GhClient.content := text;
               read_url := cf_html_url file_content;
               size := cf_size file_content |}
     | None => Raise (UnicodeDecodeError decode_error_message)
     end,
     {| world := w2;
        trace := trace st ++
          [GetRepo (token self) repo_full_name;
           GetContents (token self) repo_full_name path] |}).
Proof.
  intros WF Hrepo Hfile. apply validate_wellformed in WF.
  open_method. rewrite WF. run_request Hrepo. run_request Hfile.
  unfold decode_utf8.
  destruct (utf8_decode (cf_decoded_content file_content)); tidy_trace.
Qed.

(** X7. [list_repos] returns one record for each repository the provider
    lists, in the provider's order, with its name, address and
    visibility, and with a description that is never [None]: a missing
    or empty description becomes the empty string. *)
Theorem list_repos_keeps_order_and_fills_descriptions
        (st : Sys W) (repos : list RepositoryObj) (w' : W) :
  user_get_repos (token self) (world st) = (Ok repos, w') ->
  exists records,
    list_repos self st =
      (Ok records,
       {| world := w'; trace := trace st ++ [GetRepos (token self)] |}) /\
    map repo_name records = map r_name repos /\
    map repo_url records = map r_html_url repos /\
    map repo_private records = map r_private repos /\
    map repo_description records =
      map (fun repo =>
             match r_description repo with
             | Some (c :: d) => Some (c :: d)
             | _ => Some []
             end) repos.
Proof.
  intros H. eexists. split.
  - unfold list_repos, try_except, bind, ret. run_request H. reflexivity.
  - rewrite !map_map. repeat split; apply map_ext; intros repo;
      try reflexivity.
    simpl. unfold description_or_empty, py_or.
    destruct (r_description repo) as [[|c d]|]; reflexivity.
Qed.

(** X8. [create_issue] creates nothing in a repository it could not look
    up: when the lookup fails, no create request is sent and the caller
    gets "Failed to create issue: " with the provider's message.  When
    lookup and create succeed, the record repeats the number, address,
    title and state of the issue the provider returns. *)
Theorem create_issue_needs_the_repository
        (repo_full_name title body : str) (st : Sys W) :
  WellFormedRepoId repo_full_name ->
  (forall e w1,
      github_get_repo (token self) repo_full_name (world st)
        = (Raise (GithubExc e), w1) ->
      create_issue self repo_full_name title body st =
        (Raise (Exception (lit "Failed to create issue: "
                           ++ provider_message e)),
         {| world := w1;
            trace := trace st ++ [GetRepo (token self) repo_full_name] |}))
  /\
  (forall repo w1 issue w2,
      github_get_repo (token self) repo_full_name (world st)
        = (Ok repo, w1) ->
      repo_create_issue (token self) repo title body w1 = (Ok issue, w2) ->
      create_issue self repo_full_name title body st =
        (Ok {| issue_number := i_number issue;
               issue_url := i_html_url issue;
               issue_title := i_title issue;
               issue_state := i_state issue |},
         {| world := w2;
            trace := trace st ++
              [GetRepo (token self) repo_full_name;
               CreateIssue (token self) repo_full_name title body] |})).
Proof.
  intros WF. apply validate_wellformed in WF. split.
  - intros e w1 Hrepo. open_method. rewrite WF. run_request Hrepo.
    reflexivity.
  - intros repo w1 issue w2 Hrepo Hissue. open_method. rewrite WF.
    run_request Hrepo. run_request Hissue. tidy_trace.
Qed.

(** X9. [list_issues] hands the state filter to the provider as it is,
    whatever string it is, and filters nothing itself: it returns one
    record for each issue the provider returns, in the same order, with
    the state the provider reports. *)
Theorem list_issues_leaves_filtering_to_the_provider
        (repo_full_name state : str) (st : Sys W)
        (repo : Repository) (w1 w2 : W) (issues : list IssueObj) :
  WellFormedRepoId repo_full_name ->
  github_get_repo (token self) repo_full_name (world st) = (Ok repo, w1) ->
  repo_get_issues (token self) repo state w1 = (Ok issues, w2) ->
  exists records,
    list_issues self repo_full_name state st =
      (Ok records,
       {| world := w2;
          trace := trace st ++
            [GetRepo (token self) repo_full_name;
             GetIssues (token self) repo_full_name state] |}) /\
    length records = length issues /\
    map issue_number records = map i_number issues /\
    map issue_title records = map i_title issues /\
    map issue_url records = map i_html_url issues /\
    map issue_state records = map i_state issues.
Proof.
  intros WF Hrepo Hissues. apply validate_wellformed in WF.
  eexists. split.
  - open_method. rewrite WF. run_request Hrepo. run_request Hissues.
    tidy_trace.
  - rewrite length_map, !map_map. repeat split.
Qed.
End Client.

End GhClientMore.

(* ===================================================================== *)
(** * UTF-8: encoding what was decoded *)
(* ===================================================================== *)

Module Utf8More.
Import PyStr Utf8Facts.

#[local] Ltac Zify.zify_post_hook ::= Z.to_euclidean_division_equations.

Lemma byte_of_N_to_N (b : Byte.byte) : byte_of_N (Byte.to_N b) = b.
Proof. unfold byte_of_N. rewrite Byte.of_to_N. reflexivity. Qed.

Ltac settle :=
  repeat match goal with
  | |- context [(?a <? ?b)%N] =>
      first [ rewrite (proj2 (N.ltb_lt a b)) by lia
            | rewrite (proj2 (N.ltb_ge a b)) by lia ]
  | |- context [(?a <=? ?b)%N] =>
      first [ rewrite (proj2 (N.leb_le a b)) by lia
            | rewrite (proj2 (N.leb_gt a b)) by lia ]
  end.

Lemma encode_one (n1 : N) :
  (n1 < 0x80)%N -> utf8_encode_char n1 = Some [n1].
Proof. intros H. unfold utf8_encode_char. settle. reflexivity. Qed.

Lemma encode_two (n1 n2 : N) :
  (0xC2 <= n1 <= 0xDF)%N -> (0x80 <= n2 <= 0xBF)%N ->
  utf8_encode_char ((n1 - 0xC0) * 64 + (n2 - 0x80)) = Some [n1; n2].
Proof.
  intros H1 H2. unfold utf8_encode_char. settle.
  f_equal. f_equal; [lia|]. f_equal. lia.
Qed.

Lemma encode_three (n1 n2 n3 : N) :
  (0xE0 <= n1 <= 0xEF)%N -> (0x80 <= n2 <= 0xBF)%N ->
  (0x80 <= n3 <= 0xBF)%N ->
  let c := ((n1 - 0xE0) * 4096 + (n2 - 0x80) * 64 + (n3 - 0x80))%N in
  (0x800 <= c)%N -> is_surrogate c = false ->
  utf8_encode_char c = Some [n1; n2; n3].
Proof.
  intros H1 H2 H3 c Hc Hs. unfold utf8_encode_char. rewrite Hs.
  subst c. settle.
  f_equal. f_equal; [lia|]. f_equal; [lia|]. f_equal. lia.
Qed.

Lemma encode_four (n1 n2 n3 n4 : N) :
  (0xF0 <= n1 <= 0xF4)%N -> (0x80 <= n2 <= 0xBF)%N ->
  (0x80 <= n3 <= 0xBF)%N -> (0x80 <= n4 <= 0xBF)%N ->
  let c := ((n1 - 0xF0) * 262144 + (n2 - 0x80) * 4096
            + (n3 - 0x80) * 64 + (n4 - 0x80))%N in
  (0x10000 <= c < 0x110000)%N ->
  utf8_encode_char c = Some [n1; n2; n3; n4].
Proof.
  intros H1 H2 H3 H4 c Hc. unfold utf8_encode_char. subst c. settle.
  f_equal. f_equal; [lia|]. f_equal; [lia|]. f_equal; [lia|]. f_equal.
  lia.
Qed.

Lemma continuation_bounds (n : N) :
  negb (is_continuation n) = false -> (0x80 <= n <= 0xBF)%N.
Proof.
  unfold is_continuation. intros H. apply negb_false_iff in H.
  apply andb_true_iff in H. destruct H as [A B].
  apply N.leb_le in A. apply N.leb_le in B. lia.
Qed.

Lemma range_bounds (lo hi n : N) :
  ((lo <=? n) && (n <=? hi))%N = true -> (lo <= n <= hi)%N.
Proof.
  intros H. apply andb_true_iff in H. destruct H as [A B].
  apply N.leb_le in A. apply N.leb_le in B. lia.
Qed.

Lemma option_map_cons_Some (c : N) (o : option str) (s : str) :
  option_map (cons c) o = Some s -> exists s', o = Some s' /\ s = c :: s'.
Proof.
  destruct o as [s'|]; simpl; [|discriminate].
  intros H. injection H as <-. exists s'. split; reflexivity.
Qed.

Lemma encode_cons (c : N) (s : str) (bs : list N) (r : bytes) :
  utf8_encode_char c = Some bs -> utf8_encode s = Some r ->
  utf8_encode (c :: s) = Some (map byte_of_N bs ++ r).
Proof. intros Hc Hs. simpl. rewrite Hc, Hs. reflexivity. Qed.

(** Encoding the decoding of a byte string gives the byte string back. *)
Lemma utf8_encode_decode_bounded (n : nat) (b : bytes) (s : str) :
  length b <= n -> utf8_decode b = Some s -> utf8_encode s = Some b.
Proof.
  revert b s. induction n as [|n IH]; intros b s L H.
  { destruct b; [|simpl in L; lia]. simpl in H. injection H as <-.
    reflexivity. }
  destruct b as [|b1 t1].
  { simpl in H. injection H as <-. reflexivity. }
  rewrite utf8_decode_cons in H. cbv zeta in H.
  destruct (N.ltb_spec (Byte.to_N b1) 0x80) as [A1|A1].
  { apply option_map_cons_Some in H. destruct H as (s' & H & ->).
    rewrite (encode_cons _ _ _ _ (encode_one _ A1)
                         (IH t1 s' ltac:(simpl in L; lia) H)).
    cbn [map app]. rewrite byte_of_N_to_N. reflexivity. }
  destruct t1 as [|b2 t2]; [discriminate|].
  destruct (negb (is_continuation (Byte.to_N b2))) eqn:C2; [discriminate|].
  apply continuation_bounds in C2.
  destruct ((0xC2 <=? Byte.to_N b1) && (Byte.to_N b1 <=? 0xDF))%N eqn:R2.
  { apply range_bounds in R2.
    apply option_map_cons_Some in H. destruct H as (s' & H & ->).
    rewrite (encode_cons _ _ _ _ (encode_two _ _ R2 C2)
                         (IH t2 s' ltac:(simpl in L; lia) H)).
    cbn [map app]. rewrite !byte_of_N_to_N. reflexivity. }
  destruct t2 as [|b3 t3]; [discriminate|].
  destruct (negb (is_continuation (Byte.to_N b3))) eqn:C3; [discriminate|].
  apply continuation_bounds in C3.
  destruct ((0xE0 <=? Byte.to_N b1) && (Byte.to_N b1 <=? 0xEF))%N eqn:R3.
  { apply range_bounds in R3.
    match type of H with
    | (if (?t && negb ?u)%bool then _ else _) = _ =>
        destruct t eqn:T; [destruct u eqn:U|]; simpl in H;
        try discriminate
    end.
    apply N.leb_le in T.
    apply option_map_cons_Some in H. destruct H as (s' & H & ->).
    rewrite (encode_cons _ _ _ _ (encode_three _ _ _ R3 C2 C3 T U)
                         (IH t3 s' ltac:(simpl in L; lia) H)).
    cbn [map app]. rewrite !byte_of_N_to_N. reflexivity. }
  destruct t3 as [|b4 t4]; [discriminate|].
  destruct (negb (is_continuation (Byte.to_N b4))) eqn:C4; [discriminate|].
  apply continuation_bounds in C4.
  destruct ((0xF0 <=? Byte.to_N b1) && (Byte.to_N b1 <=? 0xF4))%N eqn:R4;
    [|discriminate].
  apply range_bounds in R4.
  match type of H with
  | (if (?t && ?u)%bool then _ else _) = _ =>
      destruct t eqn:T; [destruct u eqn:U|]; simpl in H; try discriminate
  end.
  apply N.leb_le in T. apply N.ltb_lt in U.
  apply option_map_cons_Some in H. destruct H as (s' & H & ->).
  rewrite (encode_cons _ _ _ _
             (encode_four _ _ _ _ R4 C2 C3 C4 (conj T U))
             (IH t4 s' ltac:(simpl in L; lia) H)).
  cbn [map app]. rewrite !byte_of_N_to_N. reflexivity.
Qed.

Lemma utf8_encode_decode (b : bytes) (s : str) :
  utf8_decode b = Some s -> utf8_encode s = Some b.
Proof. apply (utf8_encode_decode_bounded (length b)). lia. Qed.

End Utf8More.

(* ===================================================================== *)
(** * Reading loses nothing *)
(* ===================================================================== *)

Module ReadBackFacts.
Import PyStr Py Provider GhClient Spec PyStrFacts ValidateFacts.
Import GhClientFacts Utf8More.

Section Client.
Context {W : Type} {api : GithubAPI W}.
Variable self : GitHubClient.

(** X10. The text [read_file] returns encodes back to exactly the bytes
    of the file it read: decoding replaces or normalises nothing, so
    committing that text again sends the provider the same bytes. *)
Theorem read_file_content_encodes_to_the_bytes
        (repo_full_name path : str) (st st' : Sys W)
        (record : FileReadResult) :
  read_file self repo_full_name path st = (Ok record, st') ->
  forall repo w1 file_content w2,
    github_get_repo (token self) repo_full_name (world st) = (Ok repo, w1) ->
    repo_get_contents (token self) repo path w1 = (Ok file_content, w2) ->
    utf8_encode (GhClient.content record)
      = Some (cf_decoded_content file_content).
Proof.
  intros Hread repo w1 file_content w2 Hrepo Hfile.
  revert Hread. open_method.
  destruct (_validate_repo_name repo_full_name) as [[]|e].
  2:{ destruct e as [m|g|m|m|cls m]; try discriminate.
      destruct (status g =? 404)%Z; discriminate. }
  run_request Hrepo. run_request Hfile. unfold decode_utf8.
  destruct (utf8_decode (cf_decoded_content file_content)) as [text|] eqn:D;
    [|discriminate].
  intros H. injection H as <- _. simpl.
  apply utf8_encode_decode. exact D.
Qed.
End Client.

End ReadBackFacts.

(** ** The further facts on concrete services *)

Module GhClientMoreExamples.
Import PyStr Py Provider GhClient Spec GhClientFacts GhClientMore.
Import ReadBackFacts Examples.
Import MemHub ScriptedHub.

Lemma commit_file_update_not_found_creates_witness :
  commit_file demo_client (lit "me/r") (lit "old.txt") (lit "hello")
              (lit "change") deleted_in_between
  = (Ok {| commit_sha := lit "commit:change";
           commit_url := lit "https://github.com/me/r/blob/main/old.txt";
           action := lit "created";
           commit_path := lit "old.txt" |},
     {| world := world deleted_in_between;
        trace :=
          [GetRepo (lit "t") (lit "me/r");
           GetContents (lit "t") (lit "me/r") (lit "old.txt");
           UpdateFile (lit "t") (lit "me/r") (lit "old.txt") (lit "change")
                      (lit "hello") (MemHub.blob_sha [Byte.x68; Byte.x69]);
           CreateFile (lit "t") (lit "me/r") (lit "old.txt") (lit "change")
                      (lit "hello")] |}).
Proof.
  apply (@commit_file_update_not_found_creates
           ScriptedHub.Script ScriptedHub.api demo_client
           (lit "me/r") (lit "old.txt") (lit "hello") (lit "change")
           deleted_in_between tt
           (world deleted_in_between) (world deleted_in_between)
           (world deleted_in_between) (world deleted_in_between)
           found_file MemHub.not_found created_file
           GhClientExamples.me_r_wellformed
           eq_refl eq_refl eq_refl eq_refl eq_refl).
Defined.

Lemma read_file_decodes_or_raises_witness :
  fst (read_file demo_client (lit "me/r") (lit "old.txt") (demo_sys 5))
    = Ok {| read_path := lit "old.txt";
            GhClient.content := lit "hi";
            read_url := lit "https://github.com/me/r/blob/main/old.txt";
            size := 2 |}
  /\
  read_file demo_client (lit "me/r") (lit "bad.bin") (binary_sys 5)
    = (Raise (UnicodeDecodeError decode_error_message),
       {| world := world (binary_sys 3);
          trace := [GetRepo (lit "t") (lit "me/r");
                    GetContents (lit "t") (lit "me/r") (lit "bad.bin")] |}).
Proof.
  split.
  - rewrite (@read_file_decodes_or_raises MemHub.Hub MemHub.api demo_client
               (lit "me/r") (lit "old.txt") (demo_sys 5) (lit "me/r")
               (demo_hub 4) (demo_hub 3)
               (MemHub.content_file (lit "me/r") (lit "old.txt")
                                    [Byte.x68; Byte.x69])
               GhClientExamples.me_r_wellformed eq_refl eq_refl).
    reflexivity.
  - apply (@read_file_decodes_or_raises MemHub.Hub MemHub.api demo_client
             (lit "me/r") (lit "bad.bin") (binary_sys 5) (lit "me/r")
             (world (binary_sys 4)) (world (binary_sys 3))
             (MemHub.content_file (lit "me/r") (lit "bad.bin")
                                  [Byte.xff; Byte.xfe])
             GhClientExamples.me_r_wellformed eq_refl eq_refl).
Defined.

Lemma list_repos_keeps_order_and_fills_descriptions_witness :
  exists records,
    fst (list_repos demo_client (listing (Ok listed_repos) (Ok [])))
      = Ok records /\
    map repo_name records = [lit "r"; lit "s"] /\
    map repo_private records = [false; true] /\
    map repo_description records = [Some []; Some (lit "secret")].
Proof.
  destruct (@list_repos_keeps_order_and_fills_descriptions
              ScriptedHub.Script ScriptedHub.api demo_client
              (listing (Ok listed_repos) (Ok [])) listed_repos
              (world (listing (Ok listed_repos) (Ok []))) eq_refl)
    as (records & R & N & _ & P & D).
  exists records. rewrite R, N, P, D. repeat split.
Defined.

Lemma create_issue_needs_the_repository_witness :
  create_issue demo_client (lit "me/x") (lit "Bug") (lit "It broke")
               (demo_sys 5)
    = (Raise (Exception (lit "Failed to create issue: Not Found")),
       {| world := demo_hub 4; trace := [GetRepo (lit "t") (lit "me/x")] |})
  /\
  fst (create_issue demo_client (lit "me/r") (lit "Bug") (lit "It broke")
                    (demo_sys 5))
    = Ok {| issue_number := 1;
            issue_url := lit "https://github.com/me/r/issues";
            issue_title := lit "Bug";
            issue_state := lit "open" |}.
Proof.
  assert (WX : WellFormedRepoId (lit "me/x")).
  { exists (lit "me"), (lit "x").
    repeat split; try discriminate; simpl; intuition discriminate. }
  split.
  - apply (proj1 (@create_issue_needs_the_repository MemHub.Hub MemHub.api
                    demo_client (lit "me/x") (lit "Bug") (lit "It broke")
                    (demo_sys 5) WX)
                 MemHub.not_found (demo_hub 4) eq_refl).
  - erewrite (proj2 (@create_issue_needs_the_repository MemHub.Hub
                       MemHub.api demo_client (lit "me/r") (lit "Bug")
                       (lit "It broke") (demo_sys 5)
                       GhClientExamples.me_r_wellformed)
                    (lit "me/r") (demo_hub 4) _ _ eq_refl eq_refl).
    reflexivity.
Defined.

(** A state the provider does not know is sent all the same, and the
    closed issue the service answers with is returned. *)
Lemma list_issues_leaves_filtering_to_the_provider_witness :
  exists records,
    list_issues demo_client (lit "me/r") (lit "open")
                (listing (Ok []) (Ok [closed_issue]))
      = (Ok records,
         {| world := world (listing (Ok []) (Ok [closed_issue]));
            trace := [GetRepo (lit "t") (lit "me/r");
                      GetIssues (lit "t") (lit "me/r") (lit "open")] |}) /\
    map issue_state records = [lit "closed"].
Proof.
  destruct (@list_issues_leaves_filtering_to_the_provider
              ScriptedHub.Script ScriptedHub.api demo_client
              (lit "me/r") (lit "open")
              (listing (Ok []) (Ok [closed_issue])) tt
              (world (listing (Ok []) (Ok [closed_issue])))
              (world (listing (Ok []) (Ok [closed_issue])))
              [closed_issue]
              GhClientExamples.me_r_wellformed eq_refl eq_refl)
    as (records & R & _ & _ & _ & _ & S).
  exists records. split; [exact R | exact S].
Defined.

Lemma read_file_content_encodes_to_the_bytes_witness :
  exists record,
    fst (read_file demo_client (lit "me/r") (lit "old.txt") (demo_sys 5))
      = Ok record /\
    utf8_encode (GhClient.content record) = Some [Byte.x68; Byte.x69].
Proof.
  eexists. split; [reflexivity|].
  apply (@read_file_content_encodes_to_the_bytes MemHub.Hub MemHub.api
           demo_client (lit "me/r") (lit "old.txt") (demo_sys 5) _ _
           eq_refl (lit "me/r") (demo_hub 4)
           (MemHub.content_file (lit "me/r") (lit "old.txt")
                                [Byte.x68; Byte.x69])
           (demo_hub 3) eq_refl eq_refl).
Defined.

End GhClientMoreExamples.

(* ===================================================================== *)
(** * More about the documentation generator *)
(* ===================================================================== *)

Module AIHelperMore.
Import PyStr Py Provider AIHelper Spec Edge PyStrFacts ValidateFacts.
Import TextFacts GhClientFacts AIHelperFacts.

Lemma absent_configured (o : option str) : Absent o -> configured o = None.
Proof. intros [->| ->]; reflexivity. Qed.

Lemma absent_py_or (a b : option str) : Absent a -> py_or a b = b.
Proof. intros [->| ->]; reflexivity. Qed.

(** ** Texts without white space at their ends *)

Lemma trimmed_ends (s : str) :
  Trimmed s -> s <> [] ->
  (exists c t, s = c :: t /\ isspace c = false) /\
  (exists t d, s = t ++ [d] /\ isspace d = false).
Proof.
  unfold Trimmed, strip, rstrip. intros T Hne.
  destruct (lstrip s) as [|c t] eqn:E.
  { simpl in T. congruence. }
  pose proof (lstrip_head s t c E) as Hc.
  destruct (lstrip (rev (c :: t))) as [|d u] eqn:R.
  { simpl in T. congruence. }
  pose proof (lstrip_head _ _ _ R) as Hd.
  split.
  - simpl in R. rewrite (lstrip_snoc _ c Hc) in R.
    assert (K : rev (d :: u) = c :: rev (lstrip (rev t))).
    { rewrite <- R, rev_app_distr. reflexivity. }
    rewrite K in T. exists c, (rev (lstrip (rev t))).
    split; [symmetry; exact T | exact Hc].
  - exists (rev u), d. split; [|exact Hd].
    rewrite <- T. reflexivity.
Qed.

Lemma ends_trimmed (s : str) (c d : char) (t t' : str) :
  s = c :: t -> isspace c = false ->
  s = t' ++ [d] -> isspace d = false -> Trimmed s.
Proof.
  intros E1 Hc E2 Hd. unfold Trimmed, strip, rstrip.
  rewrite E1 at 1. rewrite (lstrip_fixed t c Hc), <- E1.
  rewrite E2 at 1. rewrite rev_app_distr. simpl.
  rewrite Hd. change (d :: rev t') with (rev [d] ++ rev t').
  rewrite <- rev_app_distr, rev_involutive. symmetry. exact E2.
Qed.

Lemma In_join (sep : str) (l : list str) (c : char) :
  In c (join sep l) -> In c sep \/ exists x, In x l /\ In c x.
Proof.
  induction l as [|x l IH]; [intros []|].
  destruct l as [|y l].
  - simpl. intros H. right. exists x. split; [left; reflexivity | exact H].
  - rewrite join_cons by discriminate. rewrite !in_app_iff.
    intros [H|[H|H]].
    + right. exists x. split; [left; reflexivity | exact H].
    + left. exact H.
    + destruct (IH H) as [I|(z & Iz & Ic)]; [left; exact I|].
      right. exists z. split; [right; exact Iz | exact Ic].
Qed.

(** Pieces that are trimmed and not empty join to a trimmed text. *)
Lemma join_trimmed (sep : str) (l : list str) :
  (forall x, In x l -> x <> [] /\ Trimmed x) -> Trimmed (join sep l).
Proof.
  intros H. destruct l as [|x l]; [reflexivity|].
  destruct (H x (or_introl eq_refl)) as [Hx Tx].
  destruct (proj1 (trimmed_ends x Tx Hx)) as (c & t & Ex & Hc).
  assert (Hl : x :: l <> []) by discriminate.
  destruct (exists_last Hl) as (pre & y & Ey).
  destruct (H y) as [Hy Ty].
  { rewrite Ey. apply in_or_app. right. left. reflexivity. }
  destruct (proj2 (trimmed_ends y Ty Hy)) as (t' & d & Ed & Hd).
  assert (Hhead : exists u, join sep (x :: l) = c :: u).
  { destruct l as [|z l].
    - exists t. exact Ex.
    - rewrite join_cons by discriminate. rewrite Ex. eexists.
      reflexivity. }
  assert (Hlast : exists u, join sep (x :: l) = u ++ [d]).
  { rewrite Ey. destruct pre as [|z pre].
    - exists t'. exact Ed.
    - rewrite join_snoc by discriminate. rewrite Ed.
      eexists. rewrite !app_assoc. reflexivity. }
  destruct Hhead as [u Hu]. destruct Hlast as [u' Hu'].
  exact (ends_trimmed _ c d u u' Hu Hc Hu' Hd).
Qed.

Lemma blank_lstrip (s : str) : Blank s -> lstrip s = [].
Proof.
  induction s as [|c s IH]; intros B; [reflexivity|].
  simpl. rewrite (B c (or_introl eq_refl)). apply IH.
  intros x Hx. apply B. right. exact Hx.
Qed.

Lemma blank_strip (s : str) : Blank s -> strip s = [].
Proof.
  intros B. unfold strip, rstrip. rewrite (blank_lstrip s B). reflexivity.
Qed.

Lemma cut_at_nowhere (p : char -> bool) (s : str) :
  (forall c, In c s -> p c = false) -> cut_at p s = [s].
Proof.
  induction s as [|c s IH]; intros H; [reflexivity|].
  simpl. rewrite (H c (or_introl eq_refl)).
  rewrite IH; [reflexivity|]. intros x Hx. apply H. right. exact Hx.
Qed.

(** ** The parsed response *)

(** X15. When the response holds the marker "## Summary" exactly once,
    the documentation and the summary that come out have no white space
    at either end, and the summary holds no line break: it is one
    line. *)
Theorem one_marker_output_is_trimmed (full_response : str) :
  count_occurrences SUMMARY_MARKER full_response = 1 ->
  Trimmed (documentation (parse_response full_response)) /\
  Trimmed (summary (parse_response full_response)) /\
  ~ In newline (summary (parse_response full_response)).
Proof.
  intros C.
  destruct (parse_one_marker full_response C) as (left & right & _ & ->).
  simpl. split; [apply strip_idempotent|]. split.
  - apply join_trimmed. intros line Hline.
    destruct (first_two_lines_spec _ _ Hline) as (Hne & Ht & _).
    split; assumption.
  - intros I. apply In_join in I. destruct I as [I|(line & Hline & I)].
    + destruct I as [I|[]]. discriminate I.
    + destruct (first_two_lines_spec _ _ Hline) as (_ & _ & Hnl & _).
      contradiction.
Qed.

(** X16. The summary can be empty, but only with a marker: when the one
    marker is followed by white space only, the summary is the empty
    string; without exactly one marker the summary is never empty, since
    it ends with a full stop. *)
Theorem summary_empty_only_after_a_marker (full_response : str) :
  (forall left right,
      full_response = left ++ SUMMARY_MARKER ++ right ->
      count_occurrences SUMMARY_MARKER full_response = 1 ->
      Blank right ->
      summary (parse_response full_response) = []) /\
  (count_occurrences SUMMARY_MARKER full_response <> 1 ->
   summary (parse_response full_response) <> []).
Proof.
  split.
  - intros left right E C B.
    destruct (parse_one_marker full_response C) as (l & r & E' & ->).
    destruct (cut_unique SUMMARY_MARKER full_response l r left right C E' E)
      as [_ ->].
    simpl. rewrite (blank_strip right B). reflexivity.
  - intros C. rewrite (parse_other full_response C). simpl.
    intros H. apply app_eq_nil in H. destruct H as [_ H]. discriminate H.
Qed.

(** X17. The fallback cuts nothing off: a response without the single
    marker and without ".", "!" or "?" comes back whole as
    documentation, and trimmed, followed by ".", as summary, however long
    it is. *)
Theorem fallback_keeps_an_undelimited_response (full_response : str) :
  count_occurrences SUMMARY_MARKER full_response <> 1 ->
  (forall c, In c full_response -> is_sentence_delim c = false) ->
  strip full_response <> [] ->
  parse_response full_response =
    {| documentation := full_response;
       summary := strip full_response ++ lit "." |}.
Proof.
  intros C D N. rewrite (parse_other full_response C). f_equal.
  unfold first_two_fragments, sentence_fragments, nonblank_trimmed.
  rewrite (cut_at_nowhere _ _ D). simpl.
  destruct (strip full_response) as [|c t] eqn:S; [contradiction|].
  simpl. rewrite S. reflexivity.
Qed.

Section Generator.
Context {W : Type} {gen : GenerativeAPI W} {tts : SpeechAPI W}.

(** X11. A generator is built whatever keys there are.  Built without a
    non-empty text key (neither the argument nor GEMINI_API_KEY),
    [generate_documentation] raises its [ValueError]; built without a
    non-empty ELEVENLABS_API_KEY, [text_to_speech] raises its own.  In
    both cases no request is sent and the state is as it was. *)
Theorem missing_key_fails_before_any_request
        (user_gemini_key : option str) (env : Env)
        (code_content language filename text : str) (st : Sys W) :
  (Absent user_gemini_key -> Absent (env GEMINI_API_KEY) ->
   generate_documentation (__init__ user_gemini_key env) code_content
                          language filename st
     = (Raise (ValueError gemini_missing_message), st))
  /\
  (Absent (env ELEVENLABS_API_KEY) ->
   text_to_speech (__init__ user_gemini_key env) text st
     = (Raise (ValueError elevenlabs_missing_message), st)).
Proof.
  split.
  - intros A1 A2. unfold generate_documentation, __init__. simpl.
    rewrite (absent_py_or _ _ A1), (absent_configured _ A2). reflexivity.
  - intros A. unfold text_to_speech, __init__. simpl.
    rewrite (absent_configured _ A). reflexivity.
Qed.

Variable self : AIDocumentationGenerator.

(** X12. What [process_file] can raise: the [ValueError] of a missing
    text key, the [ValueError] of a missing speech key, or an
    [Exception] whose message starts with "Failed to generate
    documentation: " or with "Failed to generate audio: ".  Whatever a
    provider raises arrives as one of the last two. *)
Theorem process_file_raises_only
        (file_content language filename : str) (st : Sys W) (e : exn) :
  fst (process_file self file_content language filename st) = Raise e ->
  (gemini_model self = None /\ e = ValueError gemini_missing_message) \/
  (exists x,
      e = Exception (lit "Failed to generate documentation: " ++ exn_str x))
  \/
  (elevenlabs_client self = None /\
   e = ValueError elevenlabs_missing_message) \/
  (exists x, e = Exception (lit "Failed to generate audio: " ++ exn_str x)).
Proof.
  unfold process_file, generate_documentation, text_to_speech, bind, ret,
    raise, try_except, except_Exception, request.
  destruct (gemini_model self) as [model|].
  2:{ simpl. intros H. injection H as <-. left. split; reflexivity. }
  destruct (generate_content (model_api_key model) (model_name model)
              (build_prompt file_content language filename) (world st))
    as [[r|x] w1]; simpl.
  2:{ intros H. injection H as <-. right. left. exists x. reflexivity. }
  destruct (elevenlabs_client self) as [client|].
  2:{ simpl. intros H. injection H as <-. right. right. left.
      split; reflexivity. }
  match goal with
  | |- context [tts_convert ?k ?t ?v ?m ?w] =>
      destruct (tts_convert k t v m w) as [[chunks|x] w2]; simpl;
      [intros H; discriminate H|]
  end.
  intros H. injection H as <-. right. right. right. exists x. reflexivity.
Qed.

(** X13. With a text key but no speech key, [process_file] does not stop
    at the start: it sends the text request, parses the answer, and only
    then raises the [ValueError] of the missing speech key, so the
    documentation just generated is lost. *)
Theorem process_file_without_speech_key_spends_the_text_request
        (model : GenerativeModel) (file_content language filename : str)
        (st : Sys W) (full_response : str) (w' : W) :
  gemini_model self = Some model ->
  elevenlabs_client self = None ->
  generate_content (model_api_key model) (model_name model)
                   (build_prompt file_content language filename) (world st)
    = (Ok full_response, w') ->
  process_file self file_content language filename st =
    (Raise (ValueError elevenlabs_missing_message),
     {| world := w';
        trace := trace st ++
          [GenerateContent (model_api_key model) (model_name model)
             (build_prompt file_content language filename)] |}).
Proof.
  intros Hm Hc Hg. unfold process_file, bind.
  rewrite (generate_documentation_run self model file_content language
             filename st full_response w' Hm Hg).
  unfold text_to_speech. rewrite Hc. reflexivity.
Qed.

(** X14. When both services answer, [process_file] sends two requests:
    the prompt to the text service, then the summary, and nothing but
    the summary, to the speech service with the fixed voice and model.
    It returns the documentation, that summary, and the audio chunks
    joined in the order they came. *)
Theorem process_file_speaks_the_summary
        (model : GenerativeModel) (client : ElevenLabs)
        (file_content language filename : str) (st : Sys W)
        (full_response : str) (w1 w2 : W) (chunks : list bytes) :
  gemini_model self = Some model ->
  elevenlabs_client self = Some client ->
  generate_content (model_api_key model) (model_name model)
                   (build_prompt file_content language filename) (world st)
    = (Ok full_response, w1) ->
  tts_convert (client_api_key client)
              (summary (parse_response full_response)) VOICE_ID MODEL_ID w1
    = (Ok chunks, w2) ->
  process_file self file_content language filename st =
    (Ok (documentation (parse_response full_response),
         summary (parse_response full_response),
         concat chunks),
     {| world := w2;
        trace := trace st ++
          [GenerateContent (model_api_key model) (model_name model)
             (build_prompt file_content language filename);
           TextToSpeech (client_api_key client)
             (summary (parse_response full_response)) VOICE_ID
             MODEL_ID] |}).
Proof.
  intros Hm Hc Hg Ht. unfold process_file, bind.
  rewrite (generate_documentation_run self model file_content language
             filename st full_response w1 Hm Hg).
  unfold text_to_speech. rewrite Hc.
  unfold try_except, bind, ret. run_request Ht. tidy_trace.
Qed.
End Generator.

End AIHelperMore.

(** ** The further facts on scripted services *)

Module AIHelperMoreExamples.
Import PyStr Py Provider AIHelper Spec Edge AIHelperFacts AIHelperMore.
Import ScriptedAI Examples.

Lemma missing_key_fails_before_any_request_witness :
  generate_documentation (__init__ None empty_env) (lit "print(1)")
                         (lit "python") (lit "a.py")
                         (scripted (Ok no_marker_response) (Ok []))
    = (Raise (ValueError gemini_missing_message),
       scripted (Ok no_marker_response) (Ok []))
  /\
  text_to_speech (__init__ (Some (lit "user-key")) text_only_env)
                 (lit "Adds two numbers.")
                 (scripted (Ok no_marker_response) (Ok []))
    = (Raise (ValueError elevenlabs_missing_message),
       scripted (Ok no_marker_response) (Ok [])).
Proof.
  split.
  - apply (proj1 (@missing_key_fails_before_any_request Script gen tts
                    None empty_env (lit "print(1)") (lit "python")
                    (lit "a.py") [] _)
                 (or_introl eq_refl) (or_introl eq_refl)).
  - apply (proj2 (@missing_key_fails_before_any_request Script gen tts
                    (Some (lit "user-key")) text_only_env [] [] []
                    (lit "Adds two numbers.") _)
                 (or_introl eq_refl)).
Defined.

Lemma process_file_raises_only_witness :
  exists x,
    Exception (lit "Failed to generate documentation: timed out")
    = Exception (lit "Failed to generate documentation: " ++ exn_str x).
Proof.
  destruct (@process_file_raises_only Script gen tts demo_generator
              (lit "print(1)") (lit "python") (lit "a.py")
              (scripted (Raise (OtherError (lit "Timeout") (lit "timed out")))
                        (Ok []))
              (Exception (lit "Failed to generate documentation: timed out"))
              eq_refl)
    as [[H _]|[H|[[H _]|[x H]]]].
  - discriminate H.
  - exact H.
  - discriminate H.
  - exfalso. simpl in H. discriminate H.
Defined.

Lemma process_file_without_speech_key_witness :
  process_file text_only_generator (lit "print(1)") (lit "python")
               (lit "a.py") (scripted (Ok no_marker_response) (Ok []))
  = (Raise (ValueError elevenlabs_missing_message),
     {| world := world (scripted (Ok no_marker_response) (Ok []));
        trace := [GenerateContent (lit "env-gemini") GEMINI_MODEL
                    (build_prompt (lit "print(1)") (lit "python")
                                  (lit "a.py"))] |}).
Proof.
  apply (@process_file_without_speech_key_spends_the_text_request
           Script gen tts text_only_generator demo_model (lit "print(1)")
           (lit "python") (lit "a.py")
           (scripted (Ok no_marker_response) (Ok [])) no_marker_response
           (world (scripted (Ok no_marker_response) (Ok [])))
           eq_refl eq_refl eq_refl).
Defined.

Lemma process_file_speaks_the_summary_witness :
  process_file demo_generator (lit "print(1)") (lit "python") (lit "a.py")
               (scripted (Ok one_marker_response)
                         (Ok [[Byte.x49; Byte.x44]; []; [Byte.x33]]))
  = (Ok (lit "Adds numbers.", lit "Adds two numbers. Returns the sum.",
         [Byte.x49; Byte.x44; Byte.x33]),
     {| world :=
          world (scripted (Ok one_marker_response)
                          (Ok [[Byte.x49; Byte.x44]; []; [Byte.x33]]));
        trace :=
          [GenerateContent (lit "env-gemini") GEMINI_MODEL
             (build_prompt (lit "print(1)") (lit "python") (lit "a.py"));
           TextToSpeech (lit "env-speech")
             (lit "Adds two numbers. Returns the sum.") VOICE_ID
             MODEL_ID] |}).
Proof.
  apply (@process_file_speaks_the_summary
           Script gen tts demo_generator demo_model demo_speech_client
           (lit "print(1)") (lit "python") (lit "a.py")
           (scripted (Ok one_marker_response)
                     (Ok [[Byte.x49; Byte.x44]; []; [Byte.x33]]))
           one_marker_response
           (world (scripted (Ok one_marker_response)
                            (Ok [[Byte.x49; Byte.x44]; []; [Byte.x33]])))
           (world (scripted (Ok one_marker_response)
                            (Ok [[Byte.x49; Byte.x44]; []; [Byte.x33]])))
           [[Byte.x49; Byte.x44]; []; [Byte.x33]]
           eq_refl eq_refl eq_refl eq_refl).
Defined.

Lemma one_marker_output_is_trimmed_witness :
  Trimmed (lit "Adds numbers.") /\
  Trimmed (lit "Adds two numbers. Returns the sum.") /\
  ~ In newline (lit "Adds two numbers. Returns the sum.").
Proof.
  exact (one_marker_output_is_trimmed one_marker_response eq_refl).
Defined.

Lemma summary_empty_only_after_a_marker_witness :
  summary (parse_response trailing_marker_response) = [] /\
  summary (parse_response no_marker_response) <> [].
Proof.
  split.
  - apply (proj1 (summary_empty_only_after_a_marker
                    trailing_marker_response)
                 trailing_marker_left trailing_marker_right
                 eq_refl eq_refl).
    intros c H. simpl in H.
    repeat (destruct H as [<-|H]; [reflexivity|]). destruct H.
  - apply (proj2 (summary_empty_only_after_a_marker no_marker_response)).
    discriminate.
Defined.

Lemma fallback_keeps_an_undelimited_response_witness :
  parse_response undelimited_response =
    {| documentation := undelimited_response;
       summary := lit "Adds two numbers and returns the sum." |}.
Proof.
  apply (fallback_keeps_an_undelimited_response undelimited_response).
  - discriminate.
  - intros c H. simpl in H.
    repeat (destruct H as [<-|H]; [reflexivity|]). destruct H.
  - discriminate.
Defined.

End AIHelperMoreExamples.

(* ===================================================================== *)
(** * More about the dispatch handlers *)
(* ===================================================================== *)

Module AppMore.
Import PyStr Py Provider Spec Edge PyStrFacts GhClientFacts AppFacts.
Import AIHelperFacts.

Lemma no_token_no_client (token : option str) (env : Env) :
  Absent token -> Absent (env GhClient.GITHUB_TOKEN) ->
  App.get_github_client token env = Ok None.
Proof.
  intros [->| ->] [E|E]; unfold App.get_github_client, GhClient.__init__;
    simpl; rewrite E; reflexivity.
Qed.

Section Handlers.
Context {W : Type} {api : GithubAPI W}.
Variable env : Env.

Lemma with_client_without_client {A : Type} (token : option str)
      (k : GhClient.GitHubClient -> M (Sys W) A) (st : Sys W) :
  App.get_github_client token env = Ok None ->
  App.with_client env token k st
    = (Ok (App.ErrorRecord App.token_not_configured), st).
Proof.
  intros E. unfold App.with_client, bind, lift. rewrite E. reflexivity.
Qed.

Lemma with_client_with_client {A : Type} (token : option str)
      (k : GhClient.GitHubClient -> M (Sys W) A) (st : Sys W)
      (client : GhClient.GitHubClient) :
  App.get_github_client token env = Ok (Some client) ->
  App.with_client env token k st =
    match k client st with
    | (Ok a, s) => (Ok (App.Payload a), s)
    | (Raise e, s) => (Raise e, s)
    end.
Proof.
  intros E. unfold App.with_client, bind, lift, ret. rewrite E.
  destruct (k client st) as [[a|e] s]; reflexivity.
Qed.

Lemma with_client_error_record {A : Type} (token : option str)
      (k : GhClient.GitHubClient -> M (Sys W) A) (st : Sys W) (m : str) :
  fst (App.with_client env token k st) = Ok (App.ErrorRecord m) ->
  m = App.token_not_configured /\
  snd (App.with_client env token k st) = st.
Proof.
  destruct (get_github_client_cases token env) as [E|[client E]].
  - rewrite (with_client_without_client token k st E). simpl.
    intros H. injection H as <-. split; reflexivity.
  - rewrite (with_client_with_client token k st client E).
    destruct (k client st) as [[a|e] s]; simpl; intros H; discriminate H.
Qed.

Lemma with_client_raises {A : Type} (token : option str)
      (k : GhClient.GitHubClient -> M (Sys W) A) (st s' : Sys W)
      (client : GhClient.GitHubClient) (e : exn) :
  App.get_github_client token env = Ok (Some client) ->
  k client st = (Raise e, s') ->
  App.with_client env token k st = (Raise e, s').
Proof.
  intros E H. rewrite (with_client_with_client token k st client E), H.
  reflexivity.
Qed.

(** X18. Without a non-empty token, neither as argument nor in
    GITHUB_TOKEN, every repository handler answers the error record
    "GitHub token not configured" (the two listing handlers a list
    holding that record), sends no request and leaves the state as it
    was. *)
Theorem handlers_without_token_send_nothing
        (token : option str)
        (name description repo_full_name title body state path content
         message : str) (st : Sys W) :
  Absent token -> Absent (env GhClient.GITHUB_TOKEN) ->
  App.mcp_create_repo env name description token st
    = (Ok (App.ErrorRecord App.token_not_configured), st) /\
  App.mcp_list_repos env token st
    = (Ok [App.ErrorRecord App.token_not_configured], st) /\
  App.mcp_create_issue env repo_full_name title body token st
    = (Ok (App.ErrorRecord App.token_not_configured), st) /\
  App.mcp_list_issues env repo_full_name state token st
    = (Ok [App.ErrorRecord App.token_not_configured], st) /\
  App.mcp_commit_file env repo_full_name path content message token st
    = (Ok (App.ErrorRecord App.token_not_configured), st) /\
  App.mcp_read_file env repo_full_name path token st
    = (Ok (App.ErrorRecord App.token_not_configured), st).
Proof.
  intros A1 A2. pose proof (no_token_no_client token env A1 A2) as E.
  split; [|split; [|split; [|split; [|split]]]];
    try (apply with_client_without_client; exact E).
  - unfold App.mcp_list_repos, bind, lift. rewrite E. reflexivity.
  - unfold App.mcp_list_issues, bind, lift. rewrite E. reflexivity.
Qed.

(** X19. The handlers turn no failure into an error record.  When a
    handler answers an error record, or a listing handler a list that
    holds one, the record is "GitHub token not configured" and the state
    is untouched, so no request was sent: a malformed identifier, a
    missing file or a provider failure never comes back as a record. *)
Theorem error_record_means_no_client
        (token : option str)
        (name description repo_full_name title body state path content
         message m : str) (st : Sys W) :
  (fst (App.mcp_create_repo env name description token st)
     = Ok (App.ErrorRecord m) ->
   m = App.token_not_configured /\
   snd (App.mcp_create_repo env name description token st) = st) /\
  (fst (App.mcp_create_issue env repo_full_name title body token st)
     = Ok (App.ErrorRecord m) ->
   m = App.token_not_configured /\
   snd (App.mcp_create_issue env repo_full_name title body token st) = st)
  /\
  (fst (App.mcp_commit_file env repo_full_name path content message token
                            st)
     = Ok (App.ErrorRecord m) ->
   m = App.token_not_configured /\
   snd (App.mcp_commit_file env repo_full_name path content message token
                            st) = st) /\
  (fst (App.mcp_read_file env repo_full_name path token st)
     = Ok (App.ErrorRecord m) ->
   m = App.token_not_configured /\
   snd (App.mcp_read_file env repo_full_name path token st) = st) /\
  (forall records,
      fst (App.mcp_list_repos env token st) = Ok records ->
      In (App.ErrorRecord m) records ->
      m = App.token_not_configured /\
      snd (App.mcp_list_repos env token st) = st) /\
  (forall records,
      fst (App.mcp_list_issues env repo_full_name state token st)
        = Ok records ->
      In (App.ErrorRecord m) records ->
      m = App.token_not_configured /\
      snd (App.mcp_list_issues env repo_full_name state token st) = st).
Proof.
  split; [|split; [|split; [|split; [|split]]]];
    try apply with_client_error_record.
  - intros records. unfold App.mcp_list_repos, bind, lift, ret.
    destruct (get_github_client_cases token env) as [E|[client E]];
      rewrite E.
    + simpl. intros H I. injection H as <-.
      destruct I as [I|[]]. injection I as <-. split; reflexivity.
    + destruct (GhClient.list_repos client st) as [[repos|e] s]; simpl;
        intros H I; [|discriminate H].
      injection H as <-. apply in_map_iff in I.
      destruct I as [r [I _]]. discriminate I.
  - intros records. unfold App.mcp_list_issues, bind, lift, ret.
    destruct (get_github_client_cases token env) as [E|[client E]];
      rewrite E.
    + simpl. intros H I. injection H as <-.
      destruct I as [I|[]]. injection I as <-. split; reflexivity.
    + destruct (GhClient.list_issues client repo_full_name state st)
        as [[issues|e] s]; simpl; intros H I; [|discriminate H].
      injection H as <-. apply in_map_iff in I.
      destruct I as [r [I _]]. discriminate I.
Qed.

(** X20. Once a client is built, what a method of the client raises is
    what the handler raises, in the same state: [mcp_create_repo],
    [mcp_list_repos], [mcp_create_issue], [mcp_list_issues],
    [mcp_commit_file] and [mcp_read_file] catch nothing. *)
Theorem handlers_raise_what_the_client_raises
        (token : option str) (client : GhClient.GitHubClient)
        (name description repo_full_name title body state path content
         message : str) (st s' : Sys W) (e : exn) :
  App.get_github_client token env = Ok (Some client) ->
  (GhClient.create_repo client name false description st = (Raise e, s') ->
   App.mcp_create_repo env name description token st = (Raise e, s')) /\
  (GhClient.create_issue client repo_full_name title body st
     = (Raise e, s') ->
   App.mcp_create_issue env repo_full_name title body token st
     = (Raise e, s')) /\
  (GhClient.commit_file client repo_full_name path content message st
     = (Raise e, s') ->
   App.mcp_commit_file env repo_full_name path content message token st
     = (Raise e, s')) /\
  (GhClient.read_file client repo_full_name path st = (Raise e, s') ->
   App.mcp_read_file env repo_full_name path token st = (Raise e, s')) /\
  (GhClient.list_repos client st = (Raise e, s') ->
   App.mcp_list_repos env token st = (Raise e, s')) /\
  (GhClient.list_issues client repo_full_name state st = (Raise e, s') ->
   App.mcp_list_issues env repo_full_name state token st = (Raise e, s')).
Proof.
  intros E. split; [|split; [|split; [|split; [|split]]]]; intros H;
    try exact (with_client_raises token _ st s' client e E H).
  - unfold App.mcp_list_repos, bind, lift. rewrite E, H. reflexivity.
  - unfold App.mcp_list_issues, bind, lift. rewrite E, H. reflexivity.
Qed.
End Handlers.

Section DocsHandler.
Context {W : Type} {gen : GenerativeAPI W} {tts : SpeechAPI W}.
Variable env : Env.

(** X21. [mcp_generate_docs_with_tts] never raises: it answers a record
    whatever the keys and the services do.  And the record "AI services
    not configured" is never the answer, since a generator is always
    built; a missing key comes back as the message of its
    [ValueError]. *)
Theorem docs_handler_always_answers
        (code_content language filename : str) (st : Sys W) :
  exists reply,
    fst (App.mcp_generate_docs_with_tts env code_content language filename
                                        st) = Ok reply /\
    reply <> App.ErrorRecord App.ai_not_configured.
Proof.
  unfold App.mcp_generate_docs_with_tts, App.get_ai_helper.
  unfold try_except, bind, ret, except_Exception.
  unfold AIHelper.generate_documentation, AIHelper.text_to_speech.
  generalize (AIHelper.__init__ None env). intros g.
  destruct (AIHelper.gemini_model g) as [model|].
  2:{ eexists. split; [reflexivity | discriminate]. }
  unfold try_except, bind, ret, raise, request, except_Exception.
  match goal with
  | |- context [generate_content ?k ?n ?p ?w] =>
      destruct (generate_content k n p w) as [[r|x] w1]; simpl
  end.
  2:{ eexists. split; [reflexivity | discriminate]. }
  destruct (AIHelper.elevenlabs_client g) as [client|].
  2:{ eexists. split; [reflexivity | discriminate]. }
  match goal with
  | |- context [tts_convert ?k ?t ?v ?m ?w] =>
      destruct (tts_convert k t v m w) as [[chunks|x] w2]; simpl
  end; eexists; (split; [reflexivity | discriminate]).
Qed.

(** X22. When both keys are in the environment and both services answer,
    the record of [mcp_generate_docs_with_tts] holds the documentation,
    the summary, the flag [audio_generated = True] and the file name
    followed by "_summary.mp3".  The audio itself is not in the record:
    the answer is the same whatever bytes the speech service
    returned. *)
Theorem docs_handler_drops_the_audio
        (code_content language filename text_key speech_key : str)
        (st : Sys W) (full_response : str) (w1 w2 : W)
        (chunks : list bytes) :
  AIHelper.configured (env AIHelper.GEMINI_API_KEY) = Some text_key ->
  AIHelper.configured (env AIHelper.ELEVENLABS_API_KEY) = Some speech_key ->
  generate_content text_key AIHelper.GEMINI_MODEL
                   (AIHelper.build_prompt code_content language filename)
                   (world st) = (Ok full_response, w1) ->
  tts_convert speech_key
              (AIHelper.summary (AIHelper.parse_response full_response))
              AIHelper.VOICE_ID AIHelper.MODEL_ID w1 = (Ok chunks, w2) ->
  App.mcp_generate_docs_with_tts env code_content language filename st =
    (Ok (App.Payload
           {| App.docs_documentation :=
                AIHelper.documentation
                  (AIHelper.parse_response full_response);
              App.docs_summary :=
                AIHelper.summary (AIHelper.parse_response full_response);
              App.audio_generated := true;
              App.docs_filename := filename ++ lit "_summary.mp3" |}),
     {| world := w2;
        trace := trace st ++
          [GenerateContent text_key AIHelper.GEMINI_MODEL
             (AIHelper.build_prompt code_content language filename);
           TextToSpeech speech_key
             (AIHelper.summary (AIHelper.parse_response full_response))
             AIHelper.VOICE_ID AIHelper.MODEL_ID] |}).
Proof.
  intros Kt Ks Hg Ht.
  unfold App.mcp_generate_docs_with_tts, App.get_ai_helper.
  unfold try_except, bind.
  rewrite (generate_documentation_run (AIHelper.__init__ None env)
             {| AIHelper.model_api_key := text_key;
                AIHelper.model_name := AIHelper.GEMINI_MODEL |}
             code_content language filename st full_response w1).
  2:{ unfold AIHelper.__init__. simpl. rewrite Kt. reflexivity. }
  2:{ exact Hg. }
  unfold AIHelper.text_to_speech, AIHelper.__init__. simpl. rewrite Ks.
  unfold try_except, bind, ret. run_request Ht. tidy_trace.
Qed.
End DocsHandler.

End AppMore.

(** ** The handlers on concrete services *)

Module AppMoreExamples.
Import PyStr Py Provider Spec Edge AppMore Examples.
Import MemHub ScriptedAI.

Lemma handlers_without_token_send_nothing_witness :
  App.mcp_commit_file empty_env (lit "me/r") (lit "new.txt") (lit "hello")
                      (lit "add") (Some []) (demo_sys 5)
    = (Ok (App.ErrorRecord App.token_not_configured), demo_sys 5) /\
  App.mcp_list_repos empty_env None (demo_sys 5)
    = (Ok [App.ErrorRecord App.token_not_configured], demo_sys 5).
Proof.
  split.
  - apply (@handlers_without_token_send_nothing Hub MemHub.api empty_env
             (Some []) [] [] (lit "me/r") [] [] [] (lit "new.txt")
             (lit "hello") (lit "add") (demo_sys 5)
             (or_intror eq_refl) (or_introl eq_refl)).
  - apply (@handlers_without_token_send_nothing Hub MemHub.api empty_env
             None [] [] [] [] [] [] [] [] [] (demo_sys 5)
             (or_introl eq_refl) (or_introl eq_refl)).
Defined.

Lemma error_record_means_no_client_witness :
  App.token_not_configured = App.token_not_configured /\
  snd (App.mcp_read_file empty_env (lit "me/r") (lit "old.txt") None
                         (demo_sys 5)) = demo_sys 5.
Proof.
  apply (@error_record_means_no_client Hub MemHub.api empty_env None
           [] [] (lit "me/r") [] [] [] (lit "old.txt") [] []
           App.token_not_configured (demo_sys 5)).
  reflexivity.
Defined.

(** A missing repository: the handler raises, it answers no record. *)
Lemma handlers_raise_what_the_client_raises_witness :
  App.mcp_read_file demo_env (lit "me/x") (lit "old.txt") (Some (lit "t"))
                    (demo_sys 5)
  = (Raise (Exception (lit "File not found: old.txt")),
     {| world := demo_hub 4; trace := [GetRepo (lit "t") (lit "me/x")] |}).
Proof.
  apply (@handlers_raise_what_the_client_raises Hub MemHub.api demo_env
           (Some (lit "t")) demo_client [] [] (lit "me/x") [] [] []
           (lit "old.txt") [] [] (demo_sys 5)
           {| world := demo_hub 4;
              trace := [GetRepo (lit "t") (lit "me/x")] |}
           (Exception (lit "File not found: old.txt")) eq_refl).
  reflexivity.
Defined.

Lemma docs_handler_drops_the_audio_witness :
  fst (App.mcp_generate_docs_with_tts demo_env (lit "print(1)")
         (lit "python") (lit "a.py")
         (scripted (Ok one_marker_response) (Ok [[Byte.x49]; [Byte.x44]])))
  = Ok (App.Payload
          {| App.docs_documentation := lit "Adds numbers.";
             App.docs_summary := lit "Adds two numbers. Returns the sum.";
             App.audio_generated := true;
             App.docs_filename := lit "a.py_summary.mp3" |}).
Proof.
  rewrite (@docs_handler_drops_the_audio Script gen tts demo_env
             (lit "print(1)") (lit "python") (lit "a.py")
             (lit "env-gemini") (lit "env-speech")
             (scripted (Ok one_marker_response)
                       (Ok [[Byte.x49]; [Byte.x44]]))
             one_marker_response
             (world (scripted (Ok one_marker_response)
                              (Ok [[Byte.x49]; [Byte.x44]])))
             (world (scripted (Ok one_marker_response)
                              (Ok [[Byte.x49]; [Byte.x44]])))
             [[Byte.x49]; [Byte.x44]] eq_refl eq_refl eq_refl eq_refl).
  reflexivity.
Defined.

End AppMoreExamples.

(* ===================================================================== *)
(** * app.py: the handlers of the interface *)
(* ===================================================================== *)

Module UIFacts.
Import PyStr Py Provider Spec Edge PyStrFacts GhClientFacts AppFacts.
Import TextFacts AIHelperMore AppMore.

(** A [try] whose handler catches every exception and returns. *)
Lemma try_except_returns {St A : Type} (body : M St A) (h : exn -> A)
      (s : St) :
  try_except body (except_Exception (fun e => ret (h e))) s =
    match body s with
    | (Ok a, s') => (Ok a, s')
    | (Raise e, s') => (Ok (h e), s')
    end.
Proof.
  unfold try_except, except_Exception, ret.
  destruct (body s) as [[a|e] s']; reflexivity.
Qed.

(** ** White space and the token field *)

Lemma lstrip_empty_blank (s : str) : lstrip s = [] -> Blank s.
Proof.
  induction s as [|c s IH]; simpl.
  - intros _ d [].
  - destruct (isspace c) eqn:E; [|discriminate].
    intros H d [<-|I]; [exact E | exact (IH H d I)].
Qed.

Lemma blank_iff_strip_empty (s : str) : Blank s <-> strip s = [].
Proof.
  split.
  - intros B. unfold strip, rstrip. rewrite (blank_lstrip s B).
    reflexivity.
  - unfold strip, rstrip. intros H.
    apply (f_equal (@rev N)) in H. rewrite rev_involutive in H.
    simpl in H. apply lstrip_empty_blank in H.
    destruct (lstrip s) as [|c r] eqn:E.
    + apply lstrip_empty_blank. exact E.
    + pose proof (lstrip_head s r c E) as F.
      rewrite (H c) in F; [discriminate|].
      apply -> in_rev. left. reflexivity.
Qed.

Lemma token_or_none_blank (token : str) :
  Blank token -> App.token_or_none token = None.
Proof.
  intros B. unfold App.token_or_none.
  apply blank_iff_strip_empty in B. rewrite B. reflexivity.
Qed.

Lemma token_or_none_typed (token : str) :
  ~ Blank token -> App.token_or_none token = Some token.
Proof.
  intros B. unfold App.token_or_none.
  destruct (strip token) as [|c r] eqn:E; [|reflexivity].
  exfalso. apply B. apply blank_iff_strip_empty. exact E.
Qed.

Lemma typed_token_client (token : str) (env : Env) :
  ~ Blank token ->
  App.get_github_client (App.token_or_none token) env
    = Ok (Some {| GhClient.token := token |}).
Proof.
  intros B. rewrite (token_or_none_typed token B).
  destruct token as [|c r].
  - exfalso. apply B. intros d [].
  - reflexivity.
Qed.

Lemma environment_token_client (token t : str) (env : Env) :
  Blank token -> env GhClient.GITHUB_TOKEN = Some t -> t <> [] ->
  App.get_github_client (App.token_or_none token) env
    = Ok (Some {| GhClient.token := t |}).
Proof.
  intros B E N. rewrite (token_or_none_blank token B).
  unfold App.get_github_client, GhClient.__init__. simpl. rewrite E.
  destruct t as [|c r]; [contradiction|reflexivity].
Qed.

Lemma no_client (token : str) (env : Env) :
  Blank token -> Absent (env GhClient.GITHUB_TOKEN) ->
  App.get_github_client (App.token_or_none token) env = Ok None.
Proof.
  intros B A. rewrite (token_or_none_blank token B).
  exact (no_token_no_client None env (or_introl eq_refl) A).
Qed.

Lemma guard_open (documentation : str) :
  documentation <> [] ->
  startswith App.CROSS_MARK documentation = false ->
  negb (truthy documentation) || startswith App.CROSS_MARK documentation
    = false.
Proof.
  intros N S. rewrite S. destruct documentation; [contradiction|].
  reflexivity.
Qed.

Section UI.
Context {W : Type} {api : GithubAPI W}.
Variable env : Env.

(** X23. [ui_create_repo], [ui_create_issue] and [ui_read_file] never
    raise and send nothing of their own: they leave the state their
    handler leaves.  Their text opens with the check mark exactly when
    the handler returned the record of the operation, and with the cross
    otherwise, that is for an error record and for any exception; in the
    second case [ui_read_file] returns the empty string as content. *)
Theorem ui_text_marks_the_outcome
        (name description repo_full_name title body path token : str)
        (st : Sys W) :
  (exists text,
     App.ui_create_repo env name description token st
       = (Ok text,
          snd (App.mcp_create_repo env name description
                                   (App.token_or_none token) st)) /\
     startswith App.CHECK_MARK text
       = is_payload (fst (App.mcp_create_repo env name description
                                              (App.token_or_none token) st))
     /\
     startswith App.CROSS_MARK text = negb (startswith App.CHECK_MARK text))
  /\
  (exists text,
     App.ui_create_issue env repo_full_name title body token st
       = (Ok text,
          snd (App.mcp_create_issue env repo_full_name title body
                                    (App.token_or_none token) st)) /\
     startswith App.CHECK_MARK text
       = is_payload (fst (App.mcp_create_issue env repo_full_name title body
                                               (App.token_or_none token) st))
     /\
     startswith App.CROSS_MARK text = negb (startswith App.CHECK_MARK text))
  /\
  (exists text content,
     App.ui_read_file env repo_full_name path token st
       = (Ok (text, content),
          snd (App.mcp_read_file env repo_full_name path
                                 (App.token_or_none token) st)) /\
     startswith App.CHECK_MARK text
       = is_payload (fst (App.mcp_read_file env repo_full_name path
                                            (App.token_or_none token) st))
     /\
     startswith App.CROSS_MARK text = negb (startswith App.CHECK_MARK text)
     /\
     content = match fst (App.mcp_read_file env repo_full_name path
                                            (App.token_or_none token) st)
               with
               | Ok (App.Payload r) => GhClient.content r
               | _ => []
               end).
Proof.
  split; [|split].
  - unfold App.ui_create_repo. rewrite try_except_returns. unfold bind.
    destruct (App.mcp_create_repo env name description
                (App.token_or_none token) st) as [[[error|r]|e] s'];
      eexists; (split; [reflexivity | split; reflexivity]).
  - unfold App.ui_create_issue. rewrite try_except_returns. unfold bind.
    destruct (App.mcp_create_issue env repo_full_name title body
                (App.token_or_none token) st) as [[[error|r]|e] s'];
      eexists; (split; [reflexivity | split; reflexivity]).
  - unfold App.ui_read_file. rewrite try_except_returns. unfold bind.
    destruct (App.mcp_read_file env repo_full_name path
                (App.token_or_none token) st) as [[[error|r]|e] s'];
      eexists; eexists;
      (split; [reflexivity | split; [|split]; reflexivity]).
Qed.

(** X24. [ui_commit_docs] commits neither nothing nor a failure text:
    for an empty documentation and for one that opens with the cross, so
    for the text any handler of the interface returns on a failure and
    for its own refusal, it answers "No documentation to commit" without
    building a client and without a request. *)
Theorem commit_docs_refuses_failure_texts
        (repo_full_name path documentation token message : str)
        (st : Sys W) :
  (documentation = [] \/
   startswith App.CROSS_MARK documentation = true ->
   App.ui_commit_docs env repo_full_name path documentation token st
     = (Ok App.no_documentation_text, st)) /\
  App.ui_commit_docs env repo_full_name path (App.error_text message) token
                     st
    = (Ok App.no_documentation_text, st) /\
  App.ui_commit_docs env repo_full_name path App.no_documentation_text
                     token st
    = (Ok App.no_documentation_text, st).
Proof.
  split; [|split]; try reflexivity.
  intros [->|S]; [reflexivity|].
  unfold App.ui_commit_docs. rewrite try_except_returns, S, orb_true_r.
  reflexivity.
Qed.

(** X25. Any other documentation goes to [mcp_commit_file] as it is,
    white space included, with the message "Add AI-generated
    documentation": [ui_commit_docs] leaves the state that handler
    leaves, never raises, and its text opens with the check mark exactly
    when the handler returned the record of the commit, with the cross
    otherwise. *)
Theorem commit_docs_commits_any_other_text
        (repo_full_name path documentation token : str) (st : Sys W) :
  documentation <> [] ->
  startswith App.CROSS_MARK documentation = false ->
  exists text,
    App.ui_commit_docs env repo_full_name path documentation token st
      = (Ok text,
         snd (App.mcp_commit_file env repo_full_name path documentation
                (lit "Add AI-generated documentation")
                (App.token_or_none token) st)) /\
    startswith App.CHECK_MARK text
      = is_payload (fst (App.mcp_commit_file env repo_full_name path
                           documentation
                           (lit "Add AI-generated documentation")
                           (App.token_or_none token) st)) /\
    startswith App.CROSS_MARK text = negb (startswith App.CHECK_MARK text).
Proof.
  intros N S. unfold App.ui_commit_docs.
  rewrite try_except_returns, (guard_open documentation N S). unfold bind.
  change App.docs_commit_message with (lit "Add AI-generated documentation").
  destruct (App.mcp_commit_file env repo_full_name path documentation
              (lit "Add AI-generated documentation")
              (App.token_or_none token) st) as [[[error|r]|e] s'];
    eexists; (split; [reflexivity | split; reflexivity]).
Qed.

(** X26. A token field that is empty or holds white space only counts as
    no token.  When GITHUB_TOKEN is missing or empty as well, the
    handlers of the interface answer the text of the cross followed by
    " Error: GitHub token not configured" and send no request;
    [ui_commit_docs] does so for a documentation it does not refuse. *)
Theorem blank_token_without_environment_token
        (name description repo_full_name title body path documentation
         token : str) (st : Sys W) :
  Blank token -> Absent (env GhClient.GITHUB_TOKEN) ->
  App.ui_create_repo env name description token st
    = (Ok (App.error_text App.token_not_configured), st) /\
  App.ui_create_issue env repo_full_name title body token st
    = (Ok (App.error_text App.token_not_configured), st) /\
  App.ui_read_file env repo_full_name path token st
    = (Ok (App.error_text App.token_not_configured, []), st) /\
  (documentation <> [] ->
   startswith App.CROSS_MARK documentation = false ->
   App.ui_commit_docs env repo_full_name path documentation token st
     = (Ok (App.error_text App.token_not_configured), st)).
Proof.
  intros B A. pose proof (no_client token env B A) as E.
  split; [|split; [|split]].
  - unfold App.ui_create_repo, App.mcp_create_repo.
    rewrite try_except_returns. unfold bind.
    rewrite (with_client_without_client env _ _ st E). reflexivity.
  - unfold App.ui_create_issue, App.mcp_create_issue.
    rewrite try_except_returns. unfold bind.
    rewrite (with_client_without_client env _ _ st E). reflexivity.
  - unfold App.ui_read_file, App.mcp_read_file.
    rewrite try_except_returns. unfold bind.
    rewrite (with_client_without_client env _ _ st E). reflexivity.
  - intros N S. unfold App.ui_commit_docs, App.mcp_commit_file.
    rewrite try_except_returns, (guard_open documentation N S).
    unfold bind. rewrite (with_client_without_client env _ _ st E). reflexivity.
Qed.

Lemma create_repo_trace (client : GhClient.GitHubClient)
      (name description : str) (private : bool) (st : Sys W) :
  trace (snd (GhClient.create_repo client name private description st))
    = trace st ++ [CreateRepo (GhClient.token client) name private
                              description true].
Proof.
  unfold GhClient.create_repo, try_except, bind, ret, raise, request,
    except_GithubException.
  destruct (user_create_repo (GhClient.token client) name private
              description true (world st)) as [[r|e] w].
  - reflexivity.
  - destruct e; reflexivity.
Qed.

Lemma ui_create_repo_trace (client : GhClient.GitHubClient)
      (name description token : str) (st : Sys W) :
  App.get_github_client (App.token_or_none token) env = Ok (Some client) ->
  trace (snd (App.ui_create_repo env name description token st))
    = trace st ++ [CreateRepo (GhClient.token client) name false
                              description true].
Proof.
  intros E. unfold App.ui_create_repo, App.mcp_create_repo.
  rewrite try_except_returns. unfold bind.
  rewrite (with_client_with_client env _ _ st client E).
  rewrite <- (create_repo_trace client name description false st).
  destruct (GhClient.create_repo client name false description st)
    as [[r|e] s']; reflexivity.
Qed.

(** X27. [ui_create_repo] sends one request whatever the service
    answers: the creation of a public repository with that name and
    description, initialised with a first file.  The token of the
    request is the content of the token field as typed, white space at
    its ends included, when the field is not blank, and the non-empty
    GITHUB_TOKEN when it is blank. *)
Theorem ui_create_repo_sends_one_public_create
        (name description token t : str) (st : Sys W) :
  (~ Blank token ->
   trace (snd (App.ui_create_repo env name description token st))
     = trace st ++ [CreateRepo token name false description true]) /\
  (Blank token -> env GhClient.GITHUB_TOKEN = Some t -> t <> [] ->
   trace (snd (App.ui_create_repo env name description token st))
     = trace st ++ [CreateRepo t name false description true]).
Proof.
  split.
  - intros B.
    exact (ui_create_repo_trace {| GhClient.token := token |} name
             description token st (typed_token_client token env B)).
  - intros B E N.
    exact (ui_create_repo_trace {| GhClient.token := t |} name
             description token st
             (environment_token_client token t env B E N)).
Qed.

(** X28. What a method of the client raises, the interface prints: once
    a client is built, an exception of [create_repo], [create_issue],
    [read_file] or [commit_file] becomes the text of the cross followed
    by " Error: " and [str(e)], in the state the method left, and
    [ui_read_file] returns the empty string as content. *)
Theorem ui_prints_what_the_client_raises
        (client : GhClient.GitHubClient)
        (name description repo_full_name title body path documentation
         token : str) (st s' : Sys W) (e : exn) :
  App.get_github_client (App.token_or_none token) env = Ok (Some client) ->
  (GhClient.create_repo client name false description st = (Raise e, s') ->
   App.ui_create_repo env name description token st
     = (Ok (App.error_text (exn_str e)), s')) /\
  (GhClient.create_issue client repo_full_name title body st
     = (Raise e, s') ->
   App.ui_create_issue env repo_full_name title body token st
     = (Ok (App.error_text (exn_str e)), s')) /\
  (GhClient.read_file client repo_full_name path st = (Raise e, s') ->
   App.ui_read_file env repo_full_name path token st
     = (Ok (App.error_text (exn_str e), []), s')) /\
  (documentation <> [] ->
   startswith App.CROSS_MARK documentation = false ->
   GhClient.commit_file client repo_full_name path documentation
                        (lit "Add AI-generated documentation") st
     = (Raise e, s') ->
   App.ui_commit_docs env repo_full_name path documentation token st
     = (Ok (App.error_text (exn_str e)), s')).
Proof.
  intros E. split; [|split; [|split]].
  - intros H. unfold App.ui_create_repo, App.mcp_create_repo.
    rewrite try_except_returns. unfold bind.
    rewrite (with_client_with_client env _ _ st client E), H. reflexivity.
  - intros H. unfold App.ui_create_issue, App.mcp_create_issue.
    rewrite try_except_returns. unfold bind.
    rewrite (with_client_with_client env _ _ st client E), H. reflexivity.
  - intros H. unfold App.ui_read_file, App.mcp_read_file.
    rewrite try_except_returns. unfold bind.
    rewrite (with_client_with_client env _ _ st client E), H. reflexivity.
  - intros N S H. unfold App.ui_commit_docs, App.mcp_commit_file.
    rewrite try_except_returns, (guard_open documentation N S).
    unfold bind.
    change App.docs_commit_message
      with (lit "Add AI-generated documentation").
    rewrite (with_client_with_client env _ _ st client E), H. reflexivity.
Qed.

End UI.

End UIFacts.

(** ** The interface on concrete services *)

Module UIExamples.
Import PyStr Py Provider Spec Edge UIFacts Examples.
Import MemHub.

(** The text of a failure is not committed. *)
Lemma commit_docs_refuses_failure_texts_witness :
  App.ui_commit_docs demo_env (lit "me/r") (lit "docs.md")
                     (App.error_text (lit "File not found: a.py")) (lit "t")
                     (demo_sys 5)
    = (Ok App.no_documentation_text, demo_sys 5).
Proof.
  apply (proj1 (@commit_docs_refuses_failure_texts Hub MemHub.api demo_env
                  (lit "me/r") (lit "docs.md")
                  (App.error_text (lit "File not found: a.py")) (lit "t")
                  [] (demo_sys 5))).
  right. reflexivity.
Defined.

(** A documentation of one space is committed. *)
Lemma commit_docs_commits_any_other_text_witness :
  exists text,
    App.ui_commit_docs demo_env (lit "me/r") (lit "docs.md") (lit " ")
                       (lit "t") (demo_sys 5)
      = (Ok text,
         snd (App.mcp_commit_file demo_env (lit "me/r") (lit "docs.md")
                (lit " ") (lit "Add AI-generated documentation")
                (App.token_or_none (lit "t")) (demo_sys 5))) /\
    startswith App.CHECK_MARK text
      = is_payload
          (fst (App.mcp_commit_file demo_env (lit "me/r") (lit "docs.md")
                  (lit " ") (lit "Add AI-generated documentation")
                  (App.token_or_none (lit "t")) (demo_sys 5))) /\
    startswith App.CROSS_MARK text = negb (startswith App.CHECK_MARK text).
Proof.
  apply (@commit_docs_commits_any_other_text Hub MemHub.api demo_env
           (lit "me/r") (lit "docs.md") (lit " ") (lit "t") (demo_sys 5)).
  - discriminate.
  - reflexivity.
Defined.

Lemma two_spaces_blank : Blank (lit "  ").
Proof. intros c [<-|[<-|[]]]; reflexivity. Defined.

Lemma spaced_token_not_blank : ~ Blank (lit " t ").
Proof.
  intros B. specialize (B 116%N (or_intror (or_introl eq_refl))).
  discriminate B.
Defined.

Lemma blank_token_without_environment_token_witness :
  App.ui_read_file empty_env (lit "me/r") (lit "old.txt") (lit "  ")
                   (demo_sys 5)
    = (Ok (App.error_text App.token_not_configured, []), demo_sys 5).
Proof.
  apply (@blank_token_without_environment_token Hub MemHub.api empty_env
           [] [] (lit "me/r") [] [] (lit "old.txt") [] (lit "  ")
           (demo_sys 5) two_spaces_blank (or_introl eq_refl)).
Defined.

(** A token typed with a space on either side is sent with them. *)
Lemma ui_create_repo_sends_one_public_create_witness :
  trace (snd (App.ui_create_repo demo_env (lit "new") (lit "a demo")
                                 (lit " t ") (demo_sys 5)))
    = [CreateRepo (lit " t ") (lit "new") false (lit "a demo") true].
Proof.
  apply (proj1 (@ui_create_repo_sends_one_public_create Hub MemHub.api
                  demo_env (lit "new") (lit "a demo") (lit " t ") []
                  (demo_sys 5))
               spaced_token_not_blank).
Defined.

(** A file that is not there. *)
Lemma ui_prints_what_the_client_raises_witness :
  App.ui_read_file demo_env (lit "me/r") (lit "nope.txt") (lit "t")
                   (demo_sys 5)
    = (Ok (App.error_text (lit "File not found: nope.txt"), []),
       {| world := demo_hub 3;
          trace := [GetRepo (lit "t") (lit "me/r");
                    GetContents (lit "t") (lit "me/r") (lit "nope.txt")] |}).
Proof.
  apply (@ui_prints_what_the_client_raises Hub MemHub.api demo_env
           demo_client [] [] (lit "me/r") [] [] (lit "nope.txt") []
           (lit "t") (demo_sys 5)
           {| world := demo_hub 3;
              trace := [GetRepo (lit "t") (lit "me/r");
                        GetContents (lit "t") (lit "me/r")
                                    (lit "nope.txt")] |}
           (Exception (lit "File not found: nope.txt")) eq_refl).
  reflexivity.
Defined.

End UIExamples.

(* ===================================================================== *)
(** * test_fibonacci.py: the recursion *)
(* ===================================================================== *)

Module FibonacciFacts.
Import Fibonacci.
Local Open Scope Z_scope.

Lemma fib_small (n : Z) : n <= 1 -> calculate_fibonacci n = n.
Proof.
  intros H. rewrite calculate_fibonacci_equation_1.
  destruct (Z_le_gt_dec n 1); simpl; [reflexivity | lia].
Qed.

Lemma fib_step (n : Z) :
  1 < n ->
  calculate_fibonacci n
    = calculate_fibonacci (n - 1) + calculate_fibonacci (n - 2).
Proof.
  intros H. rewrite calculate_fibonacci_equation_1.
  destruct (Z_le_gt_dec n 1); simpl; [lia | reflexivity].
Qed.

Lemma fib_next (n : Z) :
  0 <= n ->
  calculate_fibonacci (n + 2)
    = calculate_fibonacci n + calculate_fibonacci (n + 1).
Proof.
  intros H. rewrite (fib_step (n + 2)) by lia.
  replace (n + 2 - 1) with (n + 1) by lia.
  replace (n + 2 - 2) with n by lia. lia.
Qed.

(** The loop started on two consecutive values of the recursion reaches
    the value [k] places further. *)
Lemma fib_loop_shift (k i : nat) :
  fib_loop k (calculate_fibonacci (Z.of_nat i))
             (calculate_fibonacci (Z.of_nat i + 1))
  = calculate_fibonacci (Z.of_nat (i + k)).
Proof.
  revert i. induction k as [|k IH]; intros i; simpl.
  - rewrite Nat.add_0_r. reflexivity.
  - rewrite <- (fib_next (Z.of_nat i)) by lia.
    specialize (IH (S i)).
    replace (Z.of_nat (S i)) with (Z.of_nat i + 1) in IH by lia.
    replace (Z.of_nat i + 1 + 1) with (Z.of_nat i + 2) in IH by lia.
    rewrite IH. f_equal. lia.
Qed.

Lemma fib_nonneg_step (k : nat) :
  0 <= calculate_fibonacci (Z.of_nat k) /\
  calculate_fibonacci (Z.of_nat k) <= calculate_fibonacci (Z.of_nat k + 1).
Proof.
  induction k as [|k [IH1 IH2]].
  - change (Z.of_nat 0) with 0.
    rewrite (fib_small 0), (fib_small (0 + 1)); lia.
  - replace (Z.of_nat (S k)) with (Z.of_nat k + 1) by lia.
    replace (Z.of_nat k + 1 + 1) with (Z.of_nat k + 2) by lia.
    rewrite (fib_next (Z.of_nat k)) by lia. lia.
Qed.

Lemma fib_nonneg (n : Z) : 0 <= n -> 0 <= calculate_fibonacci n.
Proof.
  intros H. rewrite <- (Z2Nat.id n H). apply fib_nonneg_step.
Qed.

Lemma fib_mono_nat (k d : nat) :
  calculate_fibonacci (Z.of_nat k)
    <= calculate_fibonacci (Z.of_nat (k + d)).
Proof.
  induction d as [|d IH].
  - rewrite Nat.add_0_r. lia.
  - replace (Z.of_nat (k + S d)) with (Z.of_nat (k + d) + 1) by lia.
    pose proof (fib_nonneg_step (k + d)). lia.
Qed.

(** X29. On every integer [calculate_fibonacci] ends, and its value is:
    the argument itself when the argument is negative, and otherwise
    what the loop [a, b = b, a + b], started on 0 and 1 and run [n]
    times, leaves in [a]. *)
Theorem recursion_agrees_with_the_loop (n : Z) :
  calculate_fibonacci n =
    if n <? 0 then n else fibonacci_number (Z.to_nat n).
Proof.
  destruct (Z.ltb_spec n 0) as [H|H].
  - apply fib_small. lia.
  - unfold fibonacci_number.
    pose proof (fib_loop_shift (Z.to_nat n) 0) as L.
    change (Z.of_nat 0) with 0 in L.
    rewrite (fib_small 0), (fib_small (0 + 1)) in L by lia.
    change (0 + 1) with 1 in L. rewrite L. simpl. f_equal. lia.
Qed.

(** X30. [calculate_fibonacci] never decreases: a larger argument never
    gives a smaller value, on negative arguments too; and the value is
    negative exactly when the argument is. *)
Theorem calculate_fibonacci_is_monotone (n m : Z) :
  n <= m ->
  calculate_fibonacci n <= calculate_fibonacci m /\
  (calculate_fibonacci n < 0 <-> n < 0).
Proof.
  intros H. split.
  - destruct (Z_lt_le_dec n 0) as [Hn|Hn].
    + rewrite (fib_small n) by lia.
      destruct (Z_lt_le_dec m 0) as [Hm|Hm].
      * rewrite (fib_small m) by lia. exact H.
      * pose proof (fib_nonneg m Hm). lia.
    + pose proof (fib_mono_nat (Z.to_nat n) (Z.to_nat (m - n))) as M.
      rewrite Z2Nat.id in M by exact Hn.
      replace (Z.of_nat (Z.to_nat n + Z.to_nat (m - n))) with m in M by lia.
      exact M.
  - split.
    + intros F. destruct (Z_lt_le_dec n 0) as [Hn|Hn]; [exact Hn|].
      pose proof (fib_nonneg n Hn). lia.
    + intros Hn. rewrite (fib_small n) by lia. exact Hn.
Qed.

End FibonacciFacts.

Module FibonacciExamples.
Import Fibonacci FibonacciFacts.
Local Open Scope Z_scope.

Lemma calculate_fibonacci_is_monotone_witness :
  calculate_fibonacci (-3) <= calculate_fibonacci 10 /\
  (calculate_fibonacci (-3) < 0 <-> -3 < 0).
Proof.
  apply (calculate_fibonacci_is_monotone (-3) 10). lia.
Defined.

End FibonacciExamples.
